(** * optimum-nvidia: the TensorRT engine builder and the pipeline factory

    A shallow embedding of [src/optimum/nvidia/builder/base.py] and
    [src/optimum/nvidia/pipelines/__init__.py].

    The builder is a mutable Python object configured through chained calls;
    its methods are embedded as computations of a state-and-exception monad
    over a [World] that holds the builder object ([self]), the file system
    under the output directory and the trace of what the method asked of its
    collaborators (logger, model loader, calibrator, TensorRT-LLM builder).
    The collaborators themselves are not part of the repository: they are the
    fields of a [Collaborators] record, over which every definition is
    parametric. *)

From Stdlib Require Import ZArith Ascii String List DecimalString.
From Stdlib Require DecimalPos DecimalZ.
From stdpp Require Import gmap strings list fin_maps.

Open Scope Z_scope.
Set Warnings "-register-all".

(** ** Python values, exceptions and outcomes *)

Module Py.

(** The dynamically typed values the builder stores or inspects: entries of
    the HuggingFace configuration mapping (typed [Any] in the source), the
    quantization descriptor, keyword arguments handed to the external
    builder.  Floating-point and nested list entries of a configuration are
    never inspected by the builder and are left out. *)
Inductive PyVal : Type :=
| VNone
| VBool (b : bool)
| VInt (z : Z)
| VStr (s : string)
| VQuantMode (bits : Z)                    (* tensorrt_llm.quantization.QuantMode, an IntFlag *)
| VTuple (items : list PyVal)
| VDict (items : list (string * PyVal)).

Inductive ExnClass : Type :=
| TypeError
| ValueError
| KeyError
| AttributeError
| NotImplementedError
| RuntimeError
| UnsupportedHardwareFeature.

Record Exn : Type := mkExn { exn_class : ExnClass; exn_msg : string }.

Inductive Outcome (A : Type) : Type :=
| Return (a : A)
| Raise (e : Exn).
Arguments Return {A} a.
Arguments Raise {A} e.

Definition str_of_Z (z : Z) : string := NilZero.string_of_int (Z.to_int z).

Definition join (sep : string) (l : list string) : string := String.concat sep l.

(** [type(v).__name__] as it appears in the interpreter's error messages. *)
Definition type_name (v : PyVal) : string :=
  match v with
  | VNone => "NoneType"
  | VBool _ => "bool"
  | VInt _ => "int"
  | VStr _ => "str"
  | VQuantMode _ => "QuantMode"
  | VTuple _ => "tuple"
  | VDict _ => "dict"
  end.

(** The characters of a string are read as code points below 256. *)

(** [str.isprintable] on one character: the ASCII range from the space to
    the tilde, and the Latin-1 range but for the controls, the no-break space
    and the soft hyphen. *)
Definition printable (c : ascii) : bool :=
  let n := N_of_ascii c in
  ((32 <=? n) && (n <? 127) || (161 <=? n) && negb (n =? 173))%N.

Definition hex_digit (n : N) : ascii :=
  match String.get (N.to_nat n) "0123456789abcdef" with
  | Some c => c
  | None => "0"%char
  end.

(** One character inside [repr] of a [str] delimited by [quote]. *)
Definition repr_char (quote c : ascii) : string :=
  if Ascii.eqb c quote || Ascii.eqb c "\"%char then String "\"%char (String c EmptyString)
  else if Ascii.eqb c (ascii_of_nat 9) then "\t"
  else if Ascii.eqb c (ascii_of_nat 10) then "\n"
  else if Ascii.eqb c (ascii_of_nat 13) then "\r"
  else if printable c then String c EmptyString
  else "\x" +:+ String (hex_digit (N_of_ascii c / 16))
                  (String (hex_digit (N_of_ascii c mod 16)) EmptyString).

Fixpoint repr_chars (quote : ascii) (s : string) : string :=
  match s with
  | EmptyString => EmptyString
  | String c s' => repr_char quote c +:+ repr_chars quote s'
  end.

Fixpoint has_char (c : ascii) (s : string) : bool :=
  match s with
  | EmptyString => false
  | String c' s' => Ascii.eqb c c' || has_char c s'
  end.

(** [repr(s)] for a [str]: single quotes, unless the string holds a single
    quote and no double quote; the delimiter and the backslash are escaped,
    tab, newline and carriage return are written [\t], [\n] and [\r], any
    other character that is not printable is written [\xNN]. *)
Definition repr_str (s : string) : string :=
  let double := ascii_of_nat 34 in
  let quote := if has_char "'"%char s && negb (has_char double s) then double else "'"%char in
  String quote (repr_chars quote s +:+ String quote EmptyString).

(** [repr(v)].  The rendering of an [IntFlag] member differs between
    interpreter versions; it is fixed here to the constructor form. *)
Fixpoint py_repr (v : PyVal) : string :=
  match v with
  | VNone => "None"
  | VBool true => "True"
  | VBool false => "False"
  | VInt z => str_of_Z z
  | VStr s => repr_str s
  | VQuantMode bits => "QuantMode(" +:+ str_of_Z bits +:+ ")"
  | VTuple items =>
      match items with
      | [x] => "(" +:+ py_repr x +:+ ",)"
      | _ => "(" +:+ join ", " (List.map py_repr items) +:+ ")"
      end
  | VDict items =>
      "{" +:+ join ", "
        (List.map (fun kv => repr_str (fst kv) +:+ ": " +:+ py_repr (snd kv)) items)
      +:+ "}"
  end.

(** The type named by [hash(v)] when it fails: a [dict] is not hashable, and
    a tuple is hashable only if its items are. *)
Fixpoint unhashable (v : PyVal) : option string :=
  match v with
  | VDict _ => Some "dict"
  | VTuple items =>
      (fix first (l : list PyVal) : option string :=
         match l with
         | [] => None
         | x :: l' => match unhashable x with
                      | Some t => Some t
                      | None => first l'
                      end
         end) items
  | _ => None
  end.

(** [str(v)], what an f-string interpolates. *)
Definition py_str (v : PyVal) : string :=
  match v with
  | VStr s => s
  | _ => py_repr v
  end.

(** [bool(v)]. *)
Definition py_truthy (v : PyVal) : bool :=
  match v with
  | VNone => false
  | VBool b => b
  | VInt z => negb (z =? 0)
  | VStr s => negb (String.eqb s "")
  | VQuantMode bits => negb (bits =? 0)
  | VTuple items => negb (Nat.eqb (length items) 0)
  | VDict items => negb (Nat.eqb (length items) 0)
  end.

(** The integer a value stands for in arithmetic and ordering: [bool] and
    [IntFlag] are subclasses of [int]. *)
Definition py_as_int (v : PyVal) : option Z :=
  match v with
  | VInt z => Some z
  | VBool b => Some (Z.b2z b)
  | VQuantMode bits => Some bits
  | _ => None
  end.

Definition unsupported_operand (op : string) (l r : string) : Exn :=
  mkExn TypeError
    ("unsupported operand type(s) for " +:+ op +:+ ": '" +:+ l +:+ "' and '" +:+ r +:+ "'").

Definition not_supported_between (op : string) (l r : string) : Exn :=
  mkExn TypeError
    ("'" +:+ op +:+ "' not supported between instances of '" +:+ l +:+ "' and '" +:+ r +:+ "'").

(** [v - k] for an [int] [k]. *)
Definition py_sub (v : PyVal) (k : Z) : Outcome Z :=
  match py_as_int v with
  | Some z => Return (z - k)
  | None => Raise (unsupported_operand "-" (type_name v) "int")
  end.

(** [a + b] for two [Optional[int]] fields. *)
Definition opt_add (a b : option Z) : Outcome Z :=
  match a, b with
  | Some x, Some y => Return (x + y)
  | None, Some _ => Raise (unsupported_operand "+" "NoneType" "int")
  | Some _, None => Raise (unsupported_operand "+" "int" "NoneType")
  | None, None => Raise (unsupported_operand "+" "NoneType" "NoneType")
  end.

(** [a < k] and [a > k] for an [Optional[int]] field against an [int]. *)
Definition opt_lt (a : option Z) (k : Z) : Outcome bool :=
  match a with
  | Some x => Return (x <? k)
  | None => Raise (not_supported_between "<" "NoneType" "int")
  end.

Definition opt_gt (a : option Z) (k : Z) : Outcome bool :=
  match a with
  | Some x => Return (x >? k)
  | None => Raise (not_supported_between ">" "NoneType" "int")
  end.

(** [str(x)] of an [Optional[int]]. *)
Definition opt_str (a : option Z) : string :=
  match a with
  | Some x => str_of_Z x
  | None => "None"
  end.

Definition py_of_opt (a : option Z) : PyVal :=
  match a with
  | Some x => VInt x
  | None => VNone
  end.

(** [mapping[key]] on a string-keyed mapping. *)
Definition getitem (m : gmap string PyVal) (key : string) : Outcome PyVal :=
  match m !! key with
  | Some v => Return v
  | None => Raise (mkExn KeyError (repr_str key))
  end.

(** [s.endswith(suffix)]. *)
Definition endswith (s suffix : string) : bool :=
  let n := String.length s in
  let k := String.length suffix in
  if (k <=? n)%nat then String.eqb (String.substring (n - k) k s) suffix else false.

(** [needle in haystack] on strings. *)
Fixpoint contains (haystack needle : string) : bool :=
  if String.prefix needle haystack then true
  else match haystack with
       | EmptyString => false
       | String _ rest => contains rest needle
       end.

End Py.
Export Py.

(** ** Paths and the file system *)

(** A [pathlib.Path] is the list of its components; every name joined to a
    path by the builder is a single component. *)
Definition Path : Type := list string.

Definition joinpath (p : Path) (name : string) : Path := p ++ [name].

Definition path_str (p : Path) : string := join "/" p.

Definition bytes : Type := list Byte.byte.

Inductive Node : Type :=
| File (data : bytes)
| Dir.

(** The file system is a finite map from paths to nodes.  Failures of the
    operating system itself (permissions, a full disk) are not modelled. *)
Abbreviation FS := (gmap Path Node).

Definition path_exists (fs : FS) (p : Path) : bool :=
  match fs !! p with Some _ => true | None => false end.

Definition is_dir (fs : FS) (p : Path) : bool :=
  match fs !! p with Some Dir => true | _ => false end.

(** The name of [q] inside directory [p], when [q] is an entry of [p]. *)
Fixpoint entry_name (p q : Path) : option string :=
  match p, q with
  | [], [name] => Some name
  | c :: p', d :: q' => if String.eqb c d then entry_name p' q' else None
  | _, _ => None
  end.

(** [os.listdir(p)]. *)
Definition listdir (fs : FS) (p : Path) : list string :=
  omap (fun kv => entry_name p (fst kv)) (map_to_list fs).

(** [open(p, "w")] followed by a write of [data]. *)
Definition write_file (p : Path) (data : bytes) (fs : FS) : FS := <[p := File data]> fs.

(** ** The builder's data model *)

(** [tensorrt_llm.Mapping], imported as [Shard]: one partition of the model,
    identified by its rank within the world. *)
Record Shard : Type := mkShard {
  world_size : Z;
  rank : Z;
  gpus_per_node : Z;
  tp_size : Z;
  pp_size : Z
}.

(** The calibration dataset handle of [optimum.nvidia.quantization]. *)
Record Calibration : Type := mkCalibration { dataset_name : string }.

(** [BuildInfo = NamedTuple("BuildInfo", [("parallel", bool),
    ("num_parallel_jobs", int), ("quantized_path", Optional[Path])])]. *)
Record BuildInfo : Type := mkBuildInfo {
  parallel : bool;
  num_parallel_jobs : Z;
  quantized_path : option Path
}.

(** A [NamedTuple] declared through the functional syntax has no field
    defaults: its constructor requires one positional argument per field.  An
    argument that the call site does not pass is [None] here, and the
    constructor raises the interpreter's [TypeError] naming the first field
    left without a value. *)
Definition missing_argument (typename field : string) : Exn :=
  mkExn TypeError
    (typename +:+ ".__new__() missing 1 required positional argument: '" +:+ field +:+ "'").

Definition BuildInfo_new (parallel_arg : option bool) (num_parallel_jobs_arg : option Z)
    (quantized_path_arg : option (option Path)) : Outcome BuildInfo :=
  match parallel_arg, num_parallel_jobs_arg, quantized_path_arg with
  | Some p, Some n, Some q => Return (mkBuildInfo p n q)
  | None, _, _ => Raise (missing_argument "BuildInfo" "parallel")
  | _, None, _ => Raise (missing_argument "BuildInfo" "num_parallel_jobs")
  | _, _, None => Raise (missing_argument "BuildInfo" "quantized_path")
  end.

(** [SERIAL_BUILD = BuildInfo(False, 1, None)] *)
Definition SERIAL_BUILD : BuildInfo := mkBuildInfo false 1 None.

(** [OptimizationProfile]: [with_generation_profile] fills the last three
    fields from [Optional[int]] arguments, so they can hold [None]. *)
Record OptimizationProfile : Type := mkOptimizationProfile {
  max_batch_size : Z;
  max_prompt_length : option Z;
  max_new_tokens : option Z;
  max_output_length : option Z
}.

(** [getattr(optim_profile, prop)] *)
Definition OptimizationProfile_getattr (p : OptimizationProfile) (prop : string)
    : Outcome (option Z) :=
  if String.eqb prop "max_batch_size" then Return (Some (max_batch_size p))
  else if String.eqb prop "max_prompt_length" then Return (max_prompt_length p)
  else if String.eqb prop "max_new_tokens" then Return (max_new_tokens p)
  else if String.eqb prop "max_output_length" then Return (max_output_length p)
  else Raise (mkExn AttributeError
                ("'OptimizationProfile' object has no attribute '" +:+ prop +:+ "'")).

Record ShardingInfo : Type := mkShardingInfo {
  tp_degree : Z;
  pp_degree : Z;
  sharding_world_size : Z;
  num_gpus_per_node : Z
}.

(** [NO_SHARDING = ShardingInfo(1, 1, 1, 1)] *)
Definition NO_SHARDING : ShardingInfo := mkShardingInfo 1 1 1 1.

(** [create_unique_engine_name] *)
Definition create_unique_engine_name (identifier dtype : string) (rank tp_degree : Z) : string :=
  identifier +:+ "_" +:+ dtype +:+ "_tp" +:+ str_of_Z tp_degree
    +:+ "_rank" +:+ str_of_Z rank +:+ ".engine".

(** [create_npz_calibration_filename] *)
Definition create_npz_calibration_filename (identifier : string) (rank tp_degree : Z) : string :=
  identifier +:+ "_tp" +:+ str_of_Z tp_degree +:+ "_rank" +:+ str_of_Z rank +:+ ".npz".

(** [_MODEL_TYPE_TO_TRT_IMPL]: model type to the TensorRT-LLM adapter class. *)
Definition _MODEL_TYPE_TO_TRT_IMPL : gmap string string :=
  <["llama" := "LLaMAForCausalLM"]> (<["mistral" := "LLaMAForCausalLM"]> ∅).

(** The state of one [TensorRTEngineBuilder] object. *)
Record TensorRTEngineBuilder : Type := mkBuilder {
  _model_id_or_path : string;
  _model_config : gmap string PyVal;
  _dtype : PyVal;
  _build_info : BuildInfo;
  _sharding_info : ShardingInfo;
  _optimization_profile : option OptimizationProfile;
  _qconfig : PyVal;
  _quantization_calibration : option Calibration;
  _beam_width : Z
}.

Definition set_dtype (v : PyVal) (b : TensorRTEngineBuilder) : TensorRTEngineBuilder :=
  mkBuilder (_model_id_or_path b) (_model_config b) v (_build_info b) (_sharding_info b)
    (_optimization_profile b) (_qconfig b) (_quantization_calibration b) (_beam_width b).

Definition set_build_info (v : BuildInfo) (b : TensorRTEngineBuilder) : TensorRTEngineBuilder :=
  mkBuilder (_model_id_or_path b) (_model_config b) (_dtype b) v (_sharding_info b)
    (_optimization_profile b) (_qconfig b) (_quantization_calibration b) (_beam_width b).

Definition set_sharding_info (v : ShardingInfo) (b : TensorRTEngineBuilder)
    : TensorRTEngineBuilder :=
  mkBuilder (_model_id_or_path b) (_model_config b) (_dtype b) (_build_info b) v
    (_optimization_profile b) (_qconfig b) (_quantization_calibration b) (_beam_width b).

Definition set_optimization_profile (v : option OptimizationProfile)
    (b : TensorRTEngineBuilder) : TensorRTEngineBuilder :=
  mkBuilder (_model_id_or_path b) (_model_config b) (_dtype b) (_build_info b)
    (_sharding_info b) v (_qconfig b) (_quantization_calibration b) (_beam_width b).

Definition set_qconfig (v : PyVal) (b : TensorRTEngineBuilder) : TensorRTEngineBuilder :=
  mkBuilder (_model_id_or_path b) (_model_config b) (_dtype b) (_build_info b)
    (_sharding_info b) (_optimization_profile b) v (_quantization_calibration b)
    (_beam_width b).

Definition set_quantization_calibration (v : option Calibration)
    (b : TensorRTEngineBuilder) : TensorRTEngineBuilder :=
  mkBuilder (_model_id_or_path b) (_model_config b) (_dtype b) (_build_info b)
    (_sharding_info b) (_optimization_profile b) (_qconfig b) v (_beam_width b).

Definition set_beam_width (v : Z) (b : TensorRTEngineBuilder) : TensorRTEngineBuilder :=
  mkBuilder (_model_id_or_path b) (_model_config b) (_dtype b) (_build_info b)
    (_sharding_info b) (_optimization_profile b) (_qconfig b)
    (_quantization_calibration b) v.

(** ** What the builder hands to and receives from TensorRT-LLM *)

(** Keyword arguments of [Builder.create_builder_config], in call order. *)
Definition BuilderConfig : Type := list (string * PyVal).

(** [build_config.fp8] *)
Definition fp8 (build_config : BuilderConfig) : bool :=
  match List.find (fun kv => String.eqb (fst kv) "fp8") build_config with
  | Some kv => py_truthy (snd kv)
  | None => false
  end.

(** Where the adapter takes the weights from. *)
Inductive ModelSource : Type :=
| from_checkpoint (adapter : string) (quantized_path : Path)
| from_hugging_face (adapter : string) (hf_model_dir : string) (dtype : PyVal)
    (mapping : Shard) (quant_mode : PyVal).

(** The network a rank builds before the engine is compiled from it. *)
Record Network : Type := mkNetwork {
  trt_network_name : string;
  plugin_config : list (string * PyVal);
  model : ModelSource;
  inputs : list (string * PyVal);
  debug_outputs_marked : bool
}.

(** ** Collaborators *)

(** Everything the two modules import from outside [src/]: hardware and
    environment queries, constants of sibling modules, and the deterministic
    results of the external builder and calibrator.  A collaborator that
    raises propagates its exception unchanged through the builder; the
    embedding follows the runs in which the collaborators return. *)
Record Collaborators : Type := mkCollaborators {
  (* optimum.nvidia.utils.nvml.has_float8_support() *)
  has_float8_support : bool;
  (* str(UnsupportedHardwareFeature.float8()) *)
  float8_message : string;
  (* bit masks QuantMode.FP8_QDQ and QuantMode.FP8_KV_CACHE *)
  FP8_QDQ : Z;
  FP8_KV_CACHE : Z;
  (* optimum.nvidia.utils.parse_flag_from_env(name, default) *)
  parse_flag_from_env : string -> bool -> bool;
  (* huggingface_hub.CONFIG_NAME and the two names of optimum.nvidia.utils *)
  CONFIG_NAME : string;
  OPTIMUM_NVIDIA_CONFIG_FILE : string;
  TENSORRT_TIMINGS_FILE : string;
  (* AmmoQuantizer(model, qconfig, dtype, tp_degree, ...).calibrate(dataset); .save(path) *)
  quantizer_save : PyVal -> PyVal -> Z -> Calibration -> Path -> FS -> FS;
  (* Builder.build_engine(network, build_config): the engine, or None *)
  build_engine : Network -> BuilderConfig -> option bytes;
  (* json.dump(config), Builder.save_timing_cache, Builder.save_config *)
  json_dump : gmap string PyVal -> bytes;
  timing_cache : BuilderConfig -> bytes;
  saved_config : BuilderConfig -> bytes;
  (* the serialized interchange-format graph of a network *)
  onnx_export : Network -> bytes
}.

(** ** The world and its monad *)

Inductive LogLevel : Type := INFO | WARNING.

(** What a method asked of the logger and of its collaborators, in order.
    [LOGGER.debug] records are below the logger's level and are not traced. *)
Inductive Event : Type :=
| Log (level : LogLevel) (msg : string)
| Call (callee : string) (args : list PyVal).

Record World : Type := mkWorld {
  self : TensorRTEngineBuilder;
  files : FS;
  events : list Event
}.

Definition M (A : Type) : Type := World -> Outcome A * World.

Definition ret {A} (a : A) : M A := fun w => (Return a, w).

Definition bind {A B} (c : M A) (k : A -> M B) : M B :=
  fun w =>
    match c w with
    | (Return a, w') => k a w'
    | (Raise e, w') => (Raise e, w')
    end.

Declare Scope py_scope.
Delimit Scope py_scope with py.
Notation "x <- c ;; k" := (bind c (fun x => k))
  (at level 100, c at next level, right associativity) : py_scope.
Notation "c ;; k" := (bind c (fun _ => k))
  (at level 100, right associativity) : py_scope.
Open Scope py_scope.

Definition raise {A} (cls : ExnClass) (msg : string) : M A :=
  fun w => (Raise (mkExn cls msg), w).

Definition lift {A} (o : Outcome A) : M A := fun w => (o, w).

Definition get_self : M TensorRTEngineBuilder := fun w => (Return (self w), w).

Definition modify_self (f : TensorRTEngineBuilder -> TensorRTEngineBuilder) : M unit :=
  fun w => (Return tt, mkWorld (f (self w)) (files w) (events w)).

Definition get_files : M FS := fun w => (Return (files w), w).

Definition modify_files (f : FS -> FS) : M unit :=
  fun w => (Return tt, mkWorld (self w) (f (files w)) (events w)).

Definition emit (e : Event) : M unit :=
  fun w => (Return tt, mkWorld (self w) (files w) (events w ++ [e])).

Definition warning (msg : string) : M unit := emit (Log WARNING msg).
Definition info (msg : string) : M unit := emit (Log INFO msg).

Definition when (c : bool) (body : M unit) : M unit := if c then body else ret tt.

(** [for x in l: body(x)] *)
Fixpoint for_each {A} (l : list A) (body : A -> M unit) : M unit :=
  match l with
  | [] => ret tt
  | x :: l' => body x ;; for_each l' body
  end.

(** [with resource: body]: the exit action runs whether [body] returns or raises. *)
Definition with_exit {A} (body : M A) (exit : M unit) : M A :=
  fun w =>
    match body w with
    | (Return a, w') => match exit w' with
                        | (Return _, w'') => (Return a, w'')
                        | (Raise e, w'') => (Raise e, w'')
                        end
    | (Raise e, w') => match exit w' with
                       | (Return _, w'') => (Raise e, w'')
                       | (Raise e', w'') => (Raise e', w'')
                       end
    end.

(** [TensorRTEngineBuilder.__init__]: [config["torch_dtype"]] is the one
    lookup that can fail. *)
Definition __init__ (model_id_or_path : string) (config : gmap string PyVal)
    : Outcome TensorRTEngineBuilder :=
  match getitem config "torch_dtype" with
  | Return dtype =>
      Return (mkBuilder model_id_or_path config dtype SERIAL_BUILD NO_SHARDING None
                VNone None (-1))
  | Raise e => Raise e
  end.

(** ** The builder's methods *)

Section Builder.

Variable ext : Collaborators.

(** [QuantMode.has_fp8_qdq] and [QuantMode.has_fp8_kv_cache]: a bit test. *)
Definition has_fp8_qdq (mode : Z) : bool := negb (Z.land mode (FP8_QDQ ext) =? 0).
Definition has_fp8_kv_cache (mode : Z) : bool := negb (Z.land mode (FP8_KV_CACHE ext) =? 0).

(** [qconfig.has_fp8_qdq()] on whatever [self._qconfig] holds: only a
    [QuantMode] has the method. *)
Definition call_has_fp8_qdq (qconfig : PyVal) : Outcome bool :=
  match qconfig with
  | VQuantMode mode => Return (has_fp8_qdq mode)
  | v => Raise (mkExn AttributeError
                  ("'" +:+ type_name v +:+ "' object has no attribute 'has_fp8_qdq'"))
  end.

(** [return self] *)
Definition return_self : M TensorRTEngineBuilder := get_self.

(** [enable_parallel_build]: the source calls [BuildInfo(True, num_jobs)],
    two arguments for three fields. *)
Definition enable_parallel_build (num_jobs : Z) : M TensorRTEngineBuilder :=
  build_info <- lift (BuildInfo_new (Some true) (Some num_jobs) None) ;;
  modify_self (set_build_info build_info) ;;
  return_self.

(** [to]: [dtype_value] is [dtype.value] of the [DataType] enum member. *)
Definition to (dtype_value : string) : M TensorRTEngineBuilder :=
  self0 <- get_self ;;
  when (match _dtype self0 with
        | VStr s => negb (String.eqb dtype_value s)
        | _ => true
        end)
       (modify_self (set_dtype (VStr dtype_value))) ;;
  return_self.

(** [shard] *)
Definition shard (tp_degree pp_degree world_size num_gpus_per_node : Z)
    : M TensorRTEngineBuilder :=
  modify_self (set_sharding_info
                 (mkShardingInfo tp_degree pp_degree world_size num_gpus_per_node)) ;;
  return_self.

(** [with_quantization_profile] *)
Definition with_quantization_profile (mode : Z) (calibration : option Calibration)
    : M TensorRTEngineBuilder :=
  (if has_fp8_qdq mode || has_fp8_kv_cache mode then
     if negb (has_float8_support ext)
     then raise UnsupportedHardwareFeature (float8_message ext)
     else ret tt
   else ret tt) ;;
  modify_self (set_qconfig (VQuantMode mode)) ;;
  modify_self (set_quantization_calibration calibration) ;;
  return_self.

(** [with_generation_profile] *)
Definition with_generation_profile (max_batch_size : Z)
    (max_prompt_length max_new_tokens max_output_length : option Z)
    : M TensorRTEngineBuilder :=
  let max_output_length :=
    match max_output_length, max_prompt_length, max_new_tokens with
    | None, Some p, Some n => Some (p + n)
    | _, _, _ => max_output_length
    end in
  modify_self (set_optimization_profile
                 (Some (mkOptimizationProfile max_batch_size max_prompt_length
                          max_new_tokens max_output_length))) ;;
  return_self.

(** [with_sampling_strategy] *)
Definition with_sampling_strategy (num_beams : Z) : M TensorRTEngineBuilder :=
  modify_self (set_beam_width num_beams) ;;
  return_self.

(** [a > v] where [v] is a configuration entry. *)
Definition opt_gt_val (a : option Z) (v : PyVal) : Outcome bool :=
  match py_as_int v with
  | Some k => opt_gt a k
  | None => Raise (not_supported_between ">" (type_name (py_of_opt a)) (type_name v))
  end.

Definition invalid_value (prop_value : option Z) (prop cmp bound : string) : string :=
  "Invalid value (" +:+ opt_str prop_value +:+ ") for " +:+ prop
    +:+ ". Needs to be " +:+ cmp +:+ " " +:+ bound.

(** The body of the loop of [validate] over
    [(prop, (min_value, max_value))]. *)
Definition check_range (optim_profile : OptimizationProfile)
    (entry : string * (Z * option PyVal)) : M unit :=
  let '(prop, (min_value, max_value)) := entry in
  prop_value <- lift (OptimizationProfile_getattr optim_profile prop) ;;
  below <- lift (opt_lt prop_value min_value) ;;
  if below : bool then
    raise ValueError (invalid_value prop_value prop ">=" (str_of_Z min_value))
  else
    match max_value with
    | None => ret tt
    | Some max_value =>
        above <- lift (opt_gt_val prop_value max_value) ;;
        if above : bool then
          raise ValueError (invalid_value prop_value prop "<=" (py_str max_value))
        else ret tt
    end.

Definition no_quantization_warning : string :=
  "Quantization descriptor was None, assuming no quantization will be applied. "
  +:+ "If you want to change this behaviour, please use TRTEngineBuilder.with_quantization_schema()".

Definition no_profile_message : string :=
  "No optimization profile has been defined, please do set the profile you want this engine "
  +:+ "to be optimized for through TRTEngineBuilder.with_optimization_profile().".

Definition truncation_warning (optim_profile : OptimizationProfile)
    (max_sequence_length : PyVal) (new_max_new_tokens : Z) : string :=
  "max_prompt_tokens (" +:+ opt_str (max_prompt_length optim_profile)
  +:+ ") + max_new_tokens (" +:+ opt_str (max_new_tokens optim_profile) +:+ ")"
  +:+ " is longer than model's maximum sequence length ("
  +:+ py_str max_sequence_length +:+ "). "
  +:+ "Truncating the max_new_tokens to " +:+ str_of_Z new_max_new_tokens +:+ ".".

Definition greedy_warning : string :=
  "Sampling strategy was not specified, defaulting to greedy search. "
  +:+ "If you want to define another sampling strategy, please use TRTEngineBuilder.with_sampling_strategy().".

(** The table [validate] iterates over; building it already evaluates
    [max_sequence_length - 1] twice and the sum of the two lengths. *)
Definition ranges (optim_profile : OptimizationProfile) (max_sequence_length : PyVal)
    : Outcome (list (string * (Z * option PyVal))) :=
  match py_sub max_sequence_length 1 with
  | Raise e => Raise e
  | Return hi_prompt =>
      match py_sub max_sequence_length 1 with
      | Raise e => Raise e
      | Return hi_new =>
          match opt_add (max_prompt_length optim_profile) (max_new_tokens optim_profile) with
          | Raise e => Raise e
          | Return lo_output =>
              Return [ ("max_batch_size", (1, None));
                       ("max_prompt_length", (1, Some (VInt hi_prompt)));
                       ("max_new_tokens", (1, Some (VInt hi_new)));
                       ("max_output_length", (lo_output, Some max_sequence_length)) ]
          end
      end
  end.

(** [validate] *)
Definition validate : M bool :=
  self0 <- get_self ;;
  when (match _qconfig self0 with VNone => true | _ => false end)
       (warning no_quantization_warning ;;
        modify_self (set_qconfig (VTuple [VQuantMode 0; VInt 0]))) ;;
  self1 <- get_self ;;
  match _optimization_profile self1 with
  | None => raise ValueError no_profile_message
  | Some optim_profile =>
      let model_config := _model_config self1 in
      max_sequence_length <- lift (getitem model_config "max_position_embeddings") ;;
      table <- lift (ranges optim_profile max_sequence_length) ;;
      for_each table (check_range optim_profile) ;;
      total <- lift (opt_add (max_prompt_length optim_profile)
                             (max_new_tokens optim_profile)) ;;
      too_long <- lift (opt_gt_val (Some total) max_sequence_length) ;;
      when too_long
           (new_max_new_tokens <-
              lift (match max_prompt_length optim_profile with
                    | Some p => py_sub max_sequence_length p
                    | None => Raise (unsupported_operand "-"
                                       (type_name max_sequence_length) "NoneType")
                    end) ;;
            warning (truncation_warning optim_profile max_sequence_length
                       new_max_new_tokens)) ;;
      self2 <- get_self ;;
      when (_beam_width self2 <? 1)
           (warning greedy_warning ;;
            modify_self (set_beam_width 1)) ;;
      ret true
  end.

(** [quantize]: a calibration handle is an ordinary object, hence true in
    a condition.  The memory budgets handed to the loader are floating-point
    fractions of the free device and host memory; they are left out of the
    traced call. *)
Definition quantize (output_path : Path) : M unit :=
  let calibration_path := joinpath output_path "calibration" in
  self0 <- get_self ;;
  match _quantization_calibration self0 with
  | Some calibration =>
      fs <- get_files ;;
      let '(has_json, has_qweight) :=
        if path_exists fs calibration_path && is_dir fs calibration_path then
          let calibration_data := listdir fs calibration_path in
          if Nat.eqb (length calibration_data) 2 then
            (existsb (fun f => endswith f ".json") calibration_data,
             existsb (fun f => endswith f ".safetensors") calibration_data)
          else (false, false)
        else (false, false) in
      if negb (path_exists fs calibration_path) || negb (has_json && has_qweight) then
        info "Calibrating model..." ;;
        emit (Call "AutoModelForCausalLM.from_pretrained"
                [VStr (_model_id_or_path self0); _dtype self0]) ;;
        emit (Call "maybe_offload_weights_to_cpu" []) ;;
        emit (Call "AmmoQuantizer"
                [_qconfig self0; _dtype self0; VInt (tp_degree (_sharding_info self0))]) ;;
        emit (Call "AmmoQuantizer.calibrate" [VStr (dataset_name calibration)]) ;;
        emit (Call "AmmoQuantizer.save" [VStr (path_str calibration_path)]) ;;
        modify_files (quantizer_save ext (_qconfig self0) (_dtype self0)
                        (tp_degree (_sharding_info self0)) calibration calibration_path) ;;
        emit (Call "torch.cuda.empty_cache" [])
      else
        info ("Reusing already precomputed calibration data at "
              +:+ path_str calibration_path)
  | None => ret tt
  end ;;
  self1 <- get_self ;;
  build_info <- lift (BuildInfo_new (Some (parallel (_build_info self1)))
                        (Some (num_parallel_jobs (_build_info self1)))
                        (Some (Some calibration_path))) ;;
  modify_self (set_build_info build_info).

(** [self._optimization_profile.<attr>]: the profile, or the interpreter's
    error for an attribute of [None]. *)
Definition profile_for (attr : string) : M OptimizationProfile :=
  self0 <- get_self ;;
  match _optimization_profile self0 with
  | Some optim_profile => ret optim_profile
  | None => raise AttributeError ("'NoneType' object has no attribute '" +:+ attr +:+ "'")
  end.

(** [create_builder_config]: the keyword arguments are evaluated in the
    order they are written. *)
Definition create_builder_config (shard : Shard) (is_parallel : bool) (opt_level : option Z)
    : M BuilderConfig :=
  self0 <- get_self ;;
  let config := _model_config self0 in
  let qconfig := _qconfig self0 in
  name <- lift (getitem config "model_type") ;;
  fp8_ <- lift (call_has_fp8_qdq qconfig) ;;
  hidden_size <- lift (getitem config "hidden_size") ;;
  num_layers <- lift (getitem config "num_hidden_layers") ;;
  profile1 <- profile_for "max_batch_size" ;;
  hidden_act <- lift (getitem config "hidden_act") ;;
  default_kv_heads <- lift (getitem config "num_attention_heads") ;;
  let num_kv_heads := default default_kv_heads (config !! "num_key_value_heads") in
  num_heads <- lift (getitem config "num_attention_heads") ;;
  max_position_embeddings <- lift (getitem config "max_position_embeddings") ;;
  profile2 <- profile_for "max_prompt_length" ;;
  profile3 <- profile_for "max_output_length" ;;
  strongly_typed <- lift (call_has_fp8_qdq qconfig) ;;
  vocab_size <- lift (getitem config "vocab_size") ;;
  emit (Call "Builder.create_builder_config" [name]) ;;
  ret [ ("name", name);
        ("precision", _dtype self0);
        ("fp8", VBool fp8_);
        ("hidden_size", hidden_size);
        ("num_layers", num_layers);
        ("max_batch_size", VInt (max_batch_size profile1));
        ("tensor_parallel", VInt (tp_size shard));
        ("use_refit", VBool false);
        ("quant_mode", qconfig);
        ("huggingface", VDict (map_to_list config));
        ("hidden_act", hidden_act);
        ("num_kv_heads", num_kv_heads);
        ("num_heads", num_heads);
        ("max_position_embeddings", max_position_embeddings);
        ("max_input_len", py_of_opt (max_prompt_length profile2));
        ("max_output_len", py_of_opt (max_output_length profile3));
        ("max_num_tokens", VNone);
        ("max_beam_width", VInt (_beam_width self0));
        ("strongly_typed", VBool strongly_typed);
        ("pipeline_parallel", VInt (pp_size shard));
        ("parallel_build", VBool is_parallel);
        ("vocab_size", vocab_size);
        ("opt_level", py_of_opt opt_level) ].

(** [prepare_inputs] *)
Definition prepare_inputs : M (list (string * PyVal)) :=
  self0 <- get_self ;;
  profile1 <- profile_for "max_batch_size" ;;
  profile2 <- profile_for "max_prompt_length" ;;
  max_seq_len <- lift (getitem (_model_config self0) "max_position_embeddings") ;;
  profile3 <- profile_for "max_new_tokens" ;;
  ret [ ("max_batch_size", VInt (max_batch_size profile1));
        ("max_input_len", py_of_opt (max_prompt_length profile2));
        ("max_seq_len", max_seq_len);
        ("max_num_tokens", py_of_opt (max_new_tokens profile3));
        ("max_beam_width", VInt (_beam_width self0));
        ("use_cache", VBool true) ].

(** [_serialize_engine] *)
Definition _serialize_engine (engine : bytes) (path : Path) : M unit :=
  info ("Saving engine to " +:+ path_str path +:+ "...") ;;
  modify_files (write_file path engine).

(** Modelled from the spec: [to_onnx] of [optimum.nvidia.utils] is not under
    [src/]; the spec lists "an interchange-format export" among the files under
    the output path, written when the export flag is set.  It writes the
    serialized graph of the network at the path it is given. *)
Definition to_onnx (network : Network) (path : Path) : M unit :=
  modify_files (write_file path (onnx_export ext network)).

(** [_MODEL_TYPE_TO_TRT_IMPL[key]] for a key read from the configuration:
    the key is hashed first, then looked up. *)
Definition adapter_for (key : PyVal) : Outcome string :=
  match unhashable key with
  | Some t => Raise (mkExn TypeError ("unhashable type: '" +:+ t +:+ "'"))
  | None =>
      match key with
      | VStr s => match _MODEL_TYPE_TO_TRT_IMPL !! s with
                  | Some adapter => Return adapter
                  | None => Raise (mkExn KeyError (py_repr key))
                  end
      | _ => Raise (mkExn KeyError (py_repr key))
      end
  end.

Definition build_failed_message : string :=
  "TRT Engine build failed... Please check the logs and open up an issue.".

(** [_build_engine_for_rank] *)
Definition _build_engine_for_rank (shard : Shard) (output_path : Path)
    (opt_level : option Z) (is_parallel : bool) : M unit :=
  self0 <- get_self ;;
  let config := _model_config self0 in
  let qconfig := _qconfig self0 in
  model_type <- lift (getitem config "model_type") ;;
  let ranked_engine_name :=
    create_unique_engine_name (py_str model_type) (py_str (_dtype self0))
      (rank shard) (tp_size shard) in
  build_config <- create_builder_config shard is_parallel opt_level ;;
  (* Enable plugins *)
  let dtype := _dtype self0 in
  let plugins :=
    [ ("gpt_attention_plugin", dtype);
      ("bert_attention_plugin", dtype);
      ("context_fmha", VStr "enabled");
      ("remove_input_padding", VBool true) ]
    ++ (if negb (fp8 build_config) then [("gemm_plugin", dtype)] else [])
    ++ [ ("enable_xqa", VBool false); ("paged_kv_cache", VBool false) ]
    ++ (if world_size shard >? 1 then [("nccl_plugin", dtype)] else []) in
  (* Set the weights *)
  model_type' <- lift (getitem (_model_config self0) "model_type") ;;
  adapter <- lift (adapter_for model_type') ;;
  let model :=
    match fp8 build_config, quantized_path (_build_info self0) with
    | true, Some path => from_checkpoint adapter path
    | _, _ => from_hugging_face adapter (_model_id_or_path self0) dtype shard qconfig
    end in
  emit (Call (adapter +:+ match model with
                          | from_checkpoint _ _ => ".from_checkpoint"
                          | from_hugging_face _ _ _ _ _ => ".from_hugging_face"
                          end) [VInt (rank shard)]) ;;
  inputs <- prepare_inputs ;;
  let network :=
    mkNetwork ranked_engine_name plugins model inputs
      (parse_flag_from_env ext "OPTIMUM_NVIDIA_ENABLE_DEBUG_OUTPUTS" false) in
  when (debug_outputs_marked network)
       (info "Enabling dumping hidden tensor's output in debug mode") ;;
  when (parse_flag_from_env ext "OPTIMUM_NVIDIA_OUTPUT_ONNX_IR" false)
       (to_onnx network (joinpath output_path "model.onnx")) ;;
  emit (Call "graph_rewriting.optimize" [VStr ranked_engine_name]) ;;
  (* Let's build the engine *)
  emit (Call "Builder.build_engine" [VStr ranked_engine_name]) ;;
  let engine := build_engine ext network build_config in
  when (rank shard =? 0)
       (let hf_config_path := joinpath output_path (CONFIG_NAME ext) in
        let build_config_path := joinpath output_path (OPTIMUM_NVIDIA_CONFIG_FILE ext) in
        let timings_path := joinpath output_path (TENSORRT_TIMINGS_FILE ext) in
        modify_files (write_file hf_config_path (json_dump ext config)) ;;
        modify_files (write_file timings_path (timing_cache ext build_config)) ;;
        modify_files (write_file build_config_path (saved_config ext build_config))) ;;
  match engine with
  | None => raise RuntimeError build_failed_message
  | Some engine => _serialize_engine engine (joinpath output_path ranked_engine_name)
  end.

(** [_build_serial] *)
Definition _build_serial (shards_info : list Shard) (output_path : Path)
    (opt_level : option Z) : M unit :=
  for_each shards_info
    (fun shard => _build_engine_for_rank shard output_path opt_level false).

(** What the local [num_jobs] of [_build_parallel] can hold: the configured
    job count, the set returned by [sched_getaffinity(0)], or, after the
    reassignment [num_jobs = shard_info], the list of shards itself. *)
Inductive NumJobs : Type :=
| JobsInt (n : Z)
| JobsCpuSet
| JobsShardList (shard_info : list Shard).

(** [num_jobs > len(shard_info)] *)
Definition num_jobs_gt (num_jobs : NumJobs) (k : Z) : Outcome bool :=
  match num_jobs with
  | JobsInt n => Return (n >? k)
  | JobsCpuSet => Raise (not_supported_between ">" "set" "int")
  | JobsShardList _ => Raise (not_supported_between ">" "list" "int")
  end.

(** [multiprocessing.Pool(processes)]: the constructor rejects a count
    below one, after comparing [processes] with [1]. *)
Definition Pool (processes : NumJobs) : M unit :=
  match processes with
  | JobsInt n =>
      if n <? 1 then raise ValueError "Number of processes must be at least 1"
      else emit (Call "Pool" [VInt n])
  | JobsCpuSet => lift (Raise (not_supported_between "<" "set" "int"))
  | JobsShardList _ => lift (Raise (not_supported_between "<" "list" "int"))
  end.

(** How the interpreter binds the arguments of a call to a function with
    the positional-or-keyword parameters [params] (no [*args], no
    [**kwargs]): keywords are matched first, then the positional count is
    checked. *)
Definition bind_arguments (fname : string) (params : list string) (positional : nat)
    (keywords : list string) : Outcome unit :=
  match List.find (fun k => negb (existsb (String.eqb k) params)) keywords with
  | Some k =>
      Raise (mkExn TypeError
               (fname +:+ "() got an unexpected keyword argument '" +:+ k +:+ "'"))
  | None =>
      match List.find (fun k => existsb (String.eqb k) (firstn positional params))
                      keywords with
      | Some k =>
          Raise (mkExn TypeError
                   (fname +:+ "() got multiple values for argument '" +:+ k +:+ "'"))
      | None =>
          if (length params <? positional)%nat then
            Raise (mkExn TypeError
                     (fname +:+ "() takes " +:+ str_of_Z (Z.of_nat (length params))
                      +:+ " positional arguments but "
                      +:+ str_of_Z (Z.of_nat positional) +:+ " were given"))
          else Return tt
      end
  end.

(** [Pool.map(func, iterable, chunksize=None)] as the source calls it: three
    positional arguments ([self._build_engine_for_rank], [shard],
    [output_path]) and the keywords [is_parallel] and [opt_level]. *)
Definition Pool_map_call (shard : Shard) : M unit :=
  lift (bind_arguments "Pool.map" ["func"; "iterable"; "chunksize"] 3
          ["is_parallel"; "opt_level"]) ;;
  emit (Call "Pool.map" [VInt (rank shard)]).

(** [_build_parallel] *)
Definition _build_parallel (shard_info : list Shard) (output_path : Path)
    (opt_level : option Z) : M unit :=
  self0 <- get_self ;;
  let build_info := _build_info self0 in
  let num_jobs :=
    if num_parallel_jobs build_info >? 1
    then JobsInt (num_parallel_jobs build_info)
    else JobsCpuSet in
  exceeds <- lift (num_jobs_gt num_jobs (Z.of_nat (length shard_info))) ;;
  let num_jobs := if exceeds : bool then JobsShardList shard_info else num_jobs in
  Pool num_jobs ;;
  with_exit (for_each shard_info (fun shard => Pool_map_call shard))
            (emit (Call "Pool.terminate" [])).

End Builder.

(** ** The pipeline factory *)

Module Pipelines.

Inductive PipelineClass : Type := TextGenerationPipeline.
Inductive ModelClass : Type := AutoModelForCausalLM.

(** [SUPPORTED_MODEL_WITH_TASKS]: model type, then task, to the pair of the
    pipeline implementation and the model loader. *)
Definition SUPPORTED_MODEL_WITH_TASKS
    : gmap string (gmap string (PipelineClass * ModelClass)) :=
  {[ "llama" := {[ "text-generation" := (TextGenerationPipeline, AutoModelForCausalLM) ]} ]}.

(** The [model_or_path] argument: an identifier or path, or an already
    compiled [TensorRTForCausalLM] engine. *)
Inductive ModelOrPath : Type :=
| ModelId (id : string)
| CompiledEngine (id : string).

Inductive Tokenizer : Type :=
| TokenizerName (name : string)
| LoadedTokenizer (source : string).

Inductive Model : Type :=
| LoadedModel (loader : ModelClass) (source : ModelOrPath) (kwargs : list (string * PyVal))
| GivenEngine (id : string).

(** The loading stack of [transformers] and [optimum.nvidia]. *)
Record Loaders : Type := mkLoaders {
  (* AutoConfig.from_pretrained(model_or_path, ...).model_type *)
  config_model_type : ModelOrPath -> Outcome string;
  (* AutoTokenizer.from_pretrained(model_or_path, use_fast=True) *)
  load_tokenizer : ModelOrPath -> Outcome Tokenizer;
  (* model_factory.from_pretrained(model_or_path, **kwargs) *)
  from_pretrained : ModelClass -> ModelOrPath -> list (string * PyVal) -> Outcome Model
}.

(** The object [pipeline_factory(model, tokenizer)] constructs. *)
Record Pipeline : Type := mkPipeline {
  pipeline_class : PipelineClass;
  pipeline_model : Model;
  pipeline_tokenizer : Tokenizer
}.

(** [repr(list(d.keys()))] *)
Definition repr_keys {V} (d : gmap string V) : string :=
  "[" +:+ join ", " (List.map (fun k => "'" +:+ k +:+ "'") (fst <$> map_to_list d)) +:+ "]".

(** [get_target_class_for_model_and_task]: the first lookup is keyed by
    [task], and the guard that follows tests [task], not [task_]. *)
Definition get_target_class_for_model_and_task (task architecture : string)
    : Outcome (PipelineClass * ModelClass) :=
  let task_ := SUPPORTED_MODEL_WITH_TASKS !! task in
  if String.eqb task "" then
    Raise (mkExn NotImplementedError ("Task " +:+ task +:+ " is not supported yet."))
  else
    match task_ with
    | None => Raise (mkExn AttributeError "'NoneType' object has no attribute 'get'")
    | Some task_ =>
        match task_ !! architecture with
        | Some target => Return target
        | None =>
            Raise (mkExn NotImplementedError
                     ("Architecture " +:+ architecture +:+ " is not supported for task "
                      +:+ task +:+ ". " +:+ "Only the following architectures are: "
                      +:+ repr_keys task_))
        end
    end.

Section Factory.

Variable loaders : Loaders.

(** [pipeline] *)
Definition pipeline (task : string) (model_or_path : ModelOrPath)
    (tokenizer : option Tokenizer) (kwargs : list (string * PyVal)) : Outcome Pipeline :=
  match config_model_type loaders model_or_path with
  | Raise e => Raise e
  | Return model_type =>
      match SUPPORTED_MODEL_WITH_TASKS !! model_type with
      | None =>
          Raise (mkExn NotImplementedError
                   ("Model type " +:+ model_type +:+ " is not currently supported"))
      | Some tasks =>
          match tasks !! task with
          | None =>
              Raise (mkExn ValueError
                       ("Task " +:+ task +:+ " is not supported yet for "
                        +:+ model_type +:+ "."))
          | Some (pipeline_factory, model_factory) =>
              match (match tokenizer with
                     | None => load_tokenizer loaders model_or_path
                     | Some t => Return t
                     end) with
              | Raise e => Raise e
              | Return tokenizer =>
                  match (match model_or_path with
                         | CompiledEngine id => Return (GivenEngine id)
                         | ModelId _ => from_pretrained loaders model_factory model_or_path kwargs
                         end) with
                  | Raise e => Raise e
                  | Return model => Return (mkPipeline pipeline_factory model tokenizer)
                  end
              end
          end
      end
  end.

End Factory.

End Pipelines.

(** ** Definitions used in the statements about [validate] *)

(** The builder after [validate]'s first step: an unset quantization
    descriptor is replaced, with a warning. *)
Definition defaulted_qconfig (w : World) : World :=
  match _qconfig (self w) with
  | VNone =>
      mkWorld (set_qconfig (VTuple [VQuantMode 0; VInt 0]) (self w)) (files w)
        (events w ++ [Log WARNING no_quantization_warning])
  | _ => w
  end.

(** The builder after [validate]'s last step: an unset beam width becomes 1,
    with a warning. *)
Definition defaulted_beam (w : World) : World :=
  if _beam_width (self w) <? 1 then
    mkWorld (set_beam_width 1 (self w)) (files w) (events w ++ [Log WARNING greedy_warning])
  else w.

(** The first range that an all-integer profile violates, in the order
    [validate] checks them, as the message of the error. *)
Definition range_violation (b pl nt ol msl : Z) : option string :=
  if b <? 1 then Some (invalid_value (Some b) "max_batch_size" ">=" "1")
  else if pl <? 1 then Some (invalid_value (Some pl) "max_prompt_length" ">=" "1")
  else if pl >? msl - 1 then
    Some (invalid_value (Some pl) "max_prompt_length" "<=" (str_of_Z (msl - 1)))
  else if nt <? 1 then Some (invalid_value (Some nt) "max_new_tokens" ">=" "1")
  else if nt >? msl - 1 then
    Some (invalid_value (Some nt) "max_new_tokens" "<=" (str_of_Z (msl - 1)))
  else if ol <? pl + nt then
    Some (invalid_value (Some ol) "max_output_length" ">=" (str_of_Z (pl + nt)))
  else if ol >? msl then
    Some (invalid_value (Some ol) "max_output_length" "<=" (str_of_Z msl))
  else None.


(** The ranges [validate] enforces on an all-integer profile. *)
Definition within_ranges (b pl nt ol msl : Z) : Prop :=
  1 <= b /\ (1 <= pl <= msl - 1) /\ (1 <= nt <= msl - 1) /\ (pl + nt <= ol <= msl).

(** [field] holds [value], and [value] breaks the bound [cmp bound] of that
    field. *)
Definition offending_field (b pl nt ol msl : Z)
    (field : string) (value : Z) (cmp : string) (bound : Z) : Prop :=
  (field = "max_batch_size" /\ value = b /\ cmp = ">=" /\ bound = 1 /\ b < 1)
  \/ (field = "max_prompt_length" /\ value = pl /\
      ((cmp = ">=" /\ bound = 1 /\ pl < 1) \/ (cmp = "<=" /\ bound = msl - 1 /\ pl > msl - 1)))
  \/ (field = "max_new_tokens" /\ value = nt /\
      ((cmp = ">=" /\ bound = 1 /\ nt < 1) \/ (cmp = "<=" /\ bound = msl - 1 /\ nt > msl - 1)))
  \/ (field = "max_output_length" /\ value = ol /\
      ((cmp = ">=" /\ bound = pl + nt /\ ol < pl + nt) \/ (cmp = "<=" /\ bound = msl /\ ol > msl))).

(** ** Concrete collaborators and builders *)

(** A deterministic stand-in for the collaborators: hardware without float8
    support, both environment flags unset, an external builder whose engine is
    the name of the network it was given. *)
Definition stub : Collaborators := {|
  has_float8_support := false;
  float8_message := "float8 is not supported on this device";
  FP8_QDQ := 256;
  FP8_KV_CACHE := 128;
  parse_flag_from_env := fun _ default => default;
  CONFIG_NAME := "config.json";
  OPTIMUM_NVIDIA_CONFIG_FILE := "build.json";
  TENSORRT_TIMINGS_FILE := "timings.cache";
  quantizer_save := fun _ _ _ _ path fs =>
    write_file (joinpath path "model.safetensors") []
      (write_file (joinpath path "config.json") [] (<[path := Dir]> fs));
  build_engine := fun network _ => Some (list_byte_of_string (trt_network_name network));
  json_dump := fun _ => list_byte_of_string "{}";
  timing_cache := fun _ => [];
  saved_config := fun _ => list_byte_of_string "{}";
  onnx_export := fun network => list_byte_of_string (trt_network_name network)
|}.

(** The same collaborators with [OPTIMUM_NVIDIA_OUTPUT_ONNX_IR] set. *)
Definition stub_onnx : Collaborators := {|
  has_float8_support := has_float8_support stub;
  float8_message := float8_message stub;
  FP8_QDQ := FP8_QDQ stub;
  FP8_KV_CACHE := FP8_KV_CACHE stub;
  parse_flag_from_env := fun name default =>
    if String.eqb name "OPTIMUM_NVIDIA_OUTPUT_ONNX_IR" then true else default;
  CONFIG_NAME := CONFIG_NAME stub;
  OPTIMUM_NVIDIA_CONFIG_FILE := OPTIMUM_NVIDIA_CONFIG_FILE stub;
  TENSORRT_TIMINGS_FILE := TENSORRT_TIMINGS_FILE stub;
  quantizer_save := quantizer_save stub;
  build_engine := build_engine stub;
  json_dump := json_dump stub;
  timing_cache := timing_cache stub;
  saved_config := saved_config stub;
  onnx_export := onnx_export stub
|}.

(** A Llama configuration with a maximum sequence length of 120. *)
Definition example_config : gmap string PyVal :=
  list_to_map
    [ ("model_type", VStr "llama");
      ("torch_dtype", VStr "float16");
      ("max_position_embeddings", VInt 120);
      ("hidden_size", VInt 4096);
      ("num_hidden_layers", VInt 32);
      ("num_attention_heads", VInt 32);
      ("hidden_act", VStr "silu");
      ("vocab_size", VInt 32000) ].

(** The builder [TensorRTEngineBuilder("llama", example_config)] right after
    construction. *)
Definition fresh_builder : TensorRTEngineBuilder :=
  mkBuilder "llama" example_config (VStr "float16") SERIAL_BUILD NO_SHARDING None VNone
    None (-1).

Definition fresh_world : World := mkWorld fresh_builder {[ ["out"] := Dir ]} [].

(** A builder configured for two tensor-parallel shards, with a quantization
    mode of no quantization, a generation profile and greedy search. *)
Definition ready_builder : TensorRTEngineBuilder :=
  mkBuilder "llama" example_config (VStr "float16") SERIAL_BUILD (mkShardingInfo 2 1 2 2)
    (Some (mkOptimizationProfile 1 (Some 100) (Some 10) (Some 110)))
    (VQuantMode 0) None 1.

Definition ready_world : World := mkWorld ready_builder {[ ["out"] := Dir ]} [].

Definition two_shards : list Shard := [ mkShard 2 0 2 2 1; mkShard 2 1 2 2 1 ].

(** A builder whose generation profile asks for a batch size of zero. *)
Definition zero_batch_world : World :=
  mkWorld (set_optimization_profile
             (Some (mkOptimizationProfile 0 (Some 100) (Some 10) (Some 110))) fresh_builder)
    {[ ["out"] := Dir ]} [].

(** ** Frames *)

(** [w'] differs from [w] at most in the beam width and the trace. *)
Definition same_configuration (w w' : World) : Prop :=
  _qconfig (self w') = _qconfig (self w)
  /\ _model_config (self w') = _model_config (self w)
  /\ _optimization_profile (self w') = _optimization_profile (self w)
  /\ _dtype (self w') = _dtype (self w)
  /\ _build_info (self w') = _build_info (self w)
  /\ files w' = files w.

(** A computation keeps a relation between the world it starts in and the
    world it ends in, whether it returns or raises. *)
Definition preserves {A} (R : World -> World -> Prop) (c : M A) : Prop :=
  forall w, R w (snd (c w)).

(** A world with a calibration dataset and a populated calibration cache. *)
Definition calibrated_builder : TensorRTEngineBuilder :=
  set_quantization_calibration (Some (mkCalibration "c4"))
    (set_qconfig (VQuantMode 256) ready_builder).

Definition cached_world : World :=
  mkWorld calibrated_builder
    (<[ ["out"; "calibration"; "model.safetensors"] := File [] ]>
       (<[ ["out"; "calibration"; "config.json"] := File [] ]>
          (<[ ["out"; "calibration"] := Dir ]> {[ ["out"] := Dir ]})))
    [].

(** The same builder with an output directory that has no calibration
    subdirectory yet. *)
Definition uncached_world : World :=
  mkWorld calibrated_builder {[ ["out"] := Dir ]} [].

(** [w'] has the builder and the files of [w]; only the trace may differ. *)
Definition same_self_and_files (w w' : World) : Prop :=
  self w' = self w /\ files w' = files w.

(** The engine file of a shard under the output path. *)
Definition engine_path (b : TensorRTEngineBuilder) (model_type : PyVal) (shard : Shard)
    (output_path : Path) : Path :=
  joinpath output_path
    (create_unique_engine_name (py_str model_type) (py_str (_dtype b))
       (rank shard) (tp_size shard)).

(** The three files only rank 0 writes, on top of [fs]. *)
Definition rank0_files (ext : Collaborators) (config : gmap string PyVal)
    (build_config : BuilderConfig) (output_path : Path) (fs : FS) : FS :=
  write_file (joinpath output_path (OPTIMUM_NVIDIA_CONFIG_FILE ext))
    (saved_config ext build_config)
    (write_file (joinpath output_path (TENSORRT_TIMINGS_FILE ext))
       (timing_cache ext build_config)
       (write_file (joinpath output_path (CONFIG_NAME ext)) (json_dump ext config) fs)).

(** [w'] has the files of [w] at every path outside [touched]. *)
Definition unchanged_outside (touched : Path -> Prop) (w w' : World) : Prop :=
  forall p, ~ touched p -> files w' !! p = files w !! p.

(** The same builder after a direct assignment of a parallel build
    description with two jobs. *)
Definition parallel_world : World :=
  mkWorld (set_build_info (mkBuildInfo true 2 None) ready_builder) {[ ["out"] := Dir ]} [].

(** A loading stack that resolves every identifier to a Llama checkpoint. *)
Definition llama_loaders : Pipelines.Loaders := {|
  Pipelines.config_model_type := fun _ => Return "llama";
  Pipelines.load_tokenizer := fun m =>
    Return (Pipelines.LoadedTokenizer
              match m with Pipelines.ModelId id | Pipelines.CompiledEngine id => id end);
  Pipelines.from_pretrained := fun cls m kwargs => Return (Pipelines.LoadedModel cls m kwargs)
|}.

(** A loading stack that resolves every identifier to a model type that is
    not registered. *)
Definition gpt2_loaders : Pipelines.Loaders := {|
  Pipelines.config_model_type := fun _ => Return "gpt2";
  Pipelines.load_tokenizer := Pipelines.load_tokenizer llama_loaders;
  Pipelines.from_pretrained := Pipelines.from_pretrained llama_loaders
|}.

(** * The rest of the builder *)

(** ** Construction through the hub mixin *)


(** ** [build] *)

(** The non-empty prefixes of a path, shortest first. *)
Fixpoint prefixes (p : Path) : list Path :=
  match p with
  | [] => []
  | c :: p' => [c] :: List.map (cons c) (prefixes p')
  end.

(** [Path.mkdir(parents=True)]: the directory and each of its parents that
    does not exist yet.  As for [write_file], the refusals of the operating
    system (a parent that is a regular file) are not modelled. *)
Definition mkdir_parents (p : Path) (fs : FS) : FS :=
  List.fold_left
    (fun fs q => match fs !! q with Some _ => fs | None => <[q := Dir]> fs end)
    (prefixes p) fs.

(** [range(n)] *)
Definition range (n : Z) : list Z := List.map Z.of_nat (List.seq 0 (Z.to_nat n)).

(** [[f(x) for x in l]] *)
Fixpoint comprehension {A B} (f : A -> M B) (l : list A) : M (list B) :=
  match l with
  | [] => ret []
  | x :: l' => y <- f x ;; ys <- comprehension f l' ;; ret (y :: ys)
  end.

Section Build.

Variable ext : Collaborators.

(** [Shard(world_size, rank, gpus_per_node, tp_size, pp_size)], the
    constructor of [tensorrt_llm.Mapping]: it is free to reject the sizes it is
    given. *)
Variable Mapping : Z -> Z -> Z -> Z -> Z -> Outcome Shard.

(** [build].  [self._sharding_info or NO_SHARDING] is [self._sharding_info]:
    a tuple of four fields is never empty.  The result is [None] if [validate]
    returns a false value. *)
Definition build (output_path : Path) (optimization_level : option Z) : M (option Path) :=
  self0 <- get_self ;;
  let sharding := _sharding_info self0 in
  shards_info <-
    comprehension
      (fun rank =>
         lift (Mapping (sharding_world_size sharding) rank (num_gpus_per_node sharding)
                 (tp_degree sharding) (pp_degree sharding)))
      (range (sharding_world_size sharding)) ;;
  fs <- get_files ;;
  when (negb (path_exists fs output_path)) (modify_files (mkdir_parents output_path)) ;;
  (* Handle potential need for computing calibration data to quantize the model *)
  self1 <- get_self ;;
  when (py_truthy (_qconfig self1)) (quantize ext output_path) ;;
  valid <- validate ;;
  if valid : bool then
    self2 <- get_self ;;
    let build_func :=
      if parallel (_build_info self2) && (num_parallel_jobs (_build_info self2) >? 1)
      then _build_parallel
      else _build_serial ext in
    (* Let's build *)
    build_func shards_info output_path optimization_level ;;
    ret (Some output_path)
  else ret None.

End Build.

(** The constructor of [tensorrt_llm.Mapping] when it accepts its arguments:
    it stores them. *)
Definition accepting_Mapping (world_size rank gpus_per_node tp_size pp_size : Z)
    : Outcome Shard :=
  Return (mkShard world_size rank gpus_per_node tp_size pp_size).

(** ** Definitions used in the statements about the rest of the builder *)

(** What [validate] does once the profile is known to be set. *)
Definition validate_profile (optim_profile : OptimizationProfile)
    (model_config : gmap string PyVal) : M bool :=
  max_sequence_length <- lift (getitem model_config "max_position_embeddings") ;;
  table <- lift (ranges optim_profile max_sequence_length) ;;
  for_each table (check_range optim_profile) ;;
  total <- lift (opt_add (max_prompt_length optim_profile)
                         (max_new_tokens optim_profile)) ;;
  too_long <- lift (opt_gt_val (Some total) max_sequence_length) ;;
  when too_long
       (new_max_new_tokens <-
          lift (match max_prompt_length optim_profile with
                | Some p => py_sub max_sequence_length p
                | None => Raise (unsupported_operand "-"
                                   (type_name max_sequence_length) "NoneType")
                end) ;;
        warning (truncation_warning optim_profile max_sequence_length
                   new_max_new_tokens)) ;;
  self2 <- get_self ;;
  when (_beam_width self2 <? 1)
       (warning greedy_warning ;;
        modify_self (set_beam_width 1)) ;;
  ret true.

(** A builder whose generation profile names only a batch size. *)
Definition batch_only_world : World :=
  mkWorld (set_optimization_profile (Some (mkOptimizationProfile 1 None None None))
             fresh_builder)
    {[ ["out"] := Dir ]} [].

(** A builder whose configuration has no [max_position_embeddings]. *)
Definition no_length_world : World :=
  mkWorld (mkBuilder "llama" (delete "max_position_embeddings" example_config)
             (VStr "float16") SERIAL_BUILD NO_SHARDING
             (Some (mkOptimizationProfile 1 (Some 100) (Some 10) (Some 110))) VNone None (-1))
    {[ ["out"] := Dir ]} [].

(** The value a keyword argument has in a builder configuration. *)
Definition kwarg (build_config : list (string * PyVal)) (name : string) : option PyVal :=
  snd <$> List.find (fun kv => String.eqb (fst kv) name) build_config.

(** The configuration keys [create_builder_config] subscripts. *)
Definition required_keys : list string :=
  [ "model_type"; "hidden_size"; "num_hidden_layers"; "hidden_act";
    "num_attention_heads"; "max_position_embeddings"; "vocab_size" ].

(** A builder on which [create_builder_config] can run to its end: the
    quantization descriptor is a [QuantMode], a profile is set and the
    configuration has the required keys. *)
Definition ready_to_build (b : TensorRTEngineBuilder) : Prop :=
  (exists mode, _qconfig b = VQuantMode mode)
  /\ is_Some (_optimization_profile b)
  /\ Forall (fun k => is_Some (_model_config b !! k)) required_keys.

(** The keyword arguments [create_builder_config] passes for a builder with
    quantization mode [mode] and profile [p]. *)
Definition builder_config_of (ext : Collaborators) (b : TensorRTEngineBuilder) (mode : Z)
    (p : OptimizationProfile) (shard : Shard) (is_parallel : bool) (opt_level : option Z)
    : BuilderConfig :=
  let config := _model_config b in
  let entry k := default VNone (config !! k) in
  [ ("name", entry "model_type");
    ("precision", _dtype b);
    ("fp8", VBool (has_fp8_qdq ext mode));
    ("hidden_size", entry "hidden_size");
    ("num_layers", entry "num_hidden_layers");
    ("max_batch_size", VInt (max_batch_size p));
    ("tensor_parallel", VInt (tp_size shard));
    ("use_refit", VBool false);
    ("quant_mode", VQuantMode mode);
    ("huggingface", VDict (map_to_list config));
    ("hidden_act", entry "hidden_act");
    ("num_kv_heads", default (entry "num_attention_heads") (config !! "num_key_value_heads"));
    ("num_heads", entry "num_attention_heads");
    ("max_position_embeddings", entry "max_position_embeddings");
    ("max_input_len", py_of_opt (max_prompt_length p));
    ("max_output_len", py_of_opt (max_output_length p));
    ("max_num_tokens", VNone);
    ("max_beam_width", VInt (_beam_width b));
    ("strongly_typed", VBool (has_fp8_qdq ext mode));
    ("pipeline_parallel", VInt (pp_size shard));
    ("parallel_build", VBool is_parallel);
    ("vocab_size", entry "vocab_size");
    ("opt_level", py_of_opt opt_level) ].

(** The keyword arguments [prepare_inputs] passes for profile [p]. *)
Definition inputs_of (b : TensorRTEngineBuilder) (p : OptimizationProfile)
    : list (string * PyVal) :=
  [ ("max_batch_size", VInt (max_batch_size p));
    ("max_input_len", py_of_opt (max_prompt_length p));
    ("max_seq_len", default VNone (_model_config b !! "max_position_embeddings"));
    ("max_num_tokens", py_of_opt (max_new_tokens p));
    ("max_beam_width", VInt (_beam_width b));
    ("use_cache", VBool true) ].

(** The world after [create_builder_config] has returned. *)
Definition config_created (w : World) : World :=
  mkWorld (self w) (files w)
    (events w ++ [Call "Builder.create_builder_config"
                    [default VNone (_model_config (self w) !! "model_type")]]).

(** The network [_build_engine_for_rank] hands to [Builder.build_engine]
    for a model type [model_type] served by [adapter]. *)
Definition network_of (ext : Collaborators) (b : TensorRTEngineBuilder) (model_type : PyVal)
    (adapter : string) (build_config : BuilderConfig) (p : OptimizationProfile)
    (shard : Shard) : Network :=
  let dtype := _dtype b in
  mkNetwork
    (create_unique_engine_name (py_str model_type) (py_str dtype) (rank shard)
       (tp_size shard))
    ([ ("gpt_attention_plugin", dtype);
       ("bert_attention_plugin", dtype);
       ("context_fmha", VStr "enabled");
       ("remove_input_padding", VBool true) ]
     ++ (if negb (fp8 build_config) then [("gemm_plugin", dtype)] else [])
     ++ [ ("enable_xqa", VBool false); ("paged_kv_cache", VBool false) ]
     ++ (if world_size shard >? 1 then [("nccl_plugin", dtype)] else []))
    (match fp8 build_config, quantized_path (_build_info b) with
     | true, Some path => from_checkpoint adapter path
     | _, _ => from_hugging_face adapter (_model_id_or_path b) dtype shard (_qconfig b)
     end)
    (inputs_of b p)
    (parse_flag_from_env ext "OPTIMUM_NVIDIA_ENABLE_DEBUG_OUTPUTS" false).

(** The files a rank leaves before its engine is serialized: the export
    when its flag is set, then the three files of rank 0. *)
Definition files_before_engine (ext : Collaborators) (b : TensorRTEngineBuilder)
    (network : Network) (build_config : BuilderConfig) (shard : Shard)
    (output_path : Path) (fs : FS) : FS :=
  let exported :=
    if parse_flag_from_env ext "OPTIMUM_NVIDIA_OUTPUT_ONNX_IR" false
    then write_file (joinpath output_path "model.onnx") (onnx_export ext network) fs
    else fs in
  if rank shard =? 0
  then rank0_files ext (_model_config b) build_config output_path exported
  else exported.


(** A configured builder for a model type without a TensorRT-LLM adapter. *)
Definition gpt2_world : World :=
  mkWorld (mkBuilder "gpt2" (<["model_type" := VStr "gpt2"]> example_config)
             (VStr "float16") SERIAL_BUILD NO_SHARDING
             (Some (mkOptimizationProfile 1 (Some 100) (Some 10) (Some 110)))
             (VQuantMode 0) None 1)
    {[ ["out"] := Dir ]} [].

(** A configured builder whose configuration nests the model type in a
    dictionary. *)
Definition nested_type_world : World :=
  mkWorld (mkBuilder "llama" (<["model_type" := VDict [("name", VStr "llama")]]> example_config)
             (VStr "float16") SERIAL_BUILD NO_SHARDING
             (Some (mkOptimizationProfile 1 (Some 100) (Some 10) (Some 110)))
             (VQuantMode 0) None 1)
    {[ ["out"] := Dir ]} [].

(** The test [quantize] applies to the calibration path before it trusts
    what is there: a directory with exactly two entries, one ending in [.json]
    and one ending in [.safetensors]. *)
Definition cache_is_valid (fs : FS) (calibration_path : Path) : bool :=
  is_dir fs calibration_path
  && Nat.eqb (length (listdir fs calibration_path)) 2
  && existsb (fun f => endswith f ".json") (listdir fs calibration_path)
  && existsb (fun f => endswith f ".safetensors") (listdir fs calibration_path).

(** What a calibration adds to the trace. *)
Definition calibration_trace (b : TensorRTEngineBuilder) (calibration : Calibration)
    (calibration_path : Path) : list Event :=
  [ Log INFO "Calibrating model...";
    Call "AutoModelForCausalLM.from_pretrained" [VStr (_model_id_or_path b); _dtype b];
    Call "maybe_offload_weights_to_cpu" [];
    Call "AmmoQuantizer" [_qconfig b; _dtype b; VInt (tp_degree (_sharding_info b))];
    Call "AmmoQuantizer.calibrate" [VStr (dataset_name calibration)];
    Call "AmmoQuantizer.save" [VStr (path_str calibration_path)];
    Call "torch.cuda.empty_cache" [] ].

(** The builder after [quantize]: the calibration path is recorded. *)
Definition with_quantized_path (calibration_path : Path) (b : TensorRTEngineBuilder)
    : TensorRTEngineBuilder :=
  set_build_info
    (mkBuildInfo (parallel (_build_info b)) (num_parallel_jobs (_build_info b))
       (Some calibration_path)) b.

(** A calibration cache with a third entry next to the two expected ones. *)
Definition crowded_cache_world : World :=
  mkWorld calibrated_builder
    (<[ ["out"; "calibration"; "notes.txt"] := File [] ]> (files cached_world)) [].

(** The file system once [build] has made sure of the output directory. *)
Definition with_output_directory (output_path : Path) (fs : FS) : FS :=
  if path_exists fs output_path then fs else mkdir_parents output_path fs.

(** The world in which [build] starts to quantize and validate. *)
Definition output_directory_ready (output_path : Path) (w : World) : World :=
  mkWorld (self w) (with_output_directory output_path (files w)) (events w).


(** The constructor accepts the sharding of the builder, for every rank. *)
Definition accepts (Mapping : Z -> Z -> Z -> Z -> Z -> Outcome Shard)
    (sharding : ShardingInfo) : Prop :=
  forall rank,
    Mapping (sharding_world_size sharding) rank (num_gpus_per_node sharding)
      (tp_degree sharding) (pp_degree sharding)
    = Return (mkShard (sharding_world_size sharding) rank (num_gpus_per_node sharding)
                (tp_degree sharding) (pp_degree sharding)).

(** A constructor of [tensorrt_llm.Mapping] that requires the world size to
    be the product of the two degrees. *)
Definition strict_Mapping (world_size rank gpus_per_node tp_size pp_size : Z)
    : Outcome Shard :=
  if world_size =? tp_size * pp_size
  then Return (mkShard world_size rank gpus_per_node tp_size pp_size)
  else Raise (mkExn ValueError "world_size must equal to pp_size * tp_size").

(** A builder sharded over three ranks with degrees that multiply to two. *)
Definition missharded_world : World :=
  mkWorld (set_sharding_info (mkShardingInfo 2 1 3 2) ready_builder) ∅ [].




(** A builder whose configuration holds [max_position_embeddings] as text. *)
Definition text_length_world : World :=
  mkWorld (mkBuilder "llama" (<["max_position_embeddings" := VStr "2048"]> example_config)
             (VStr "float16") SERIAL_BUILD NO_SHARDING
             (Some (mkOptimizationProfile 1 (Some 100) (Some 10) (Some 110))) VNone None (-1))
    {[ ["out"] := Dir ]} [].

(** The three files rank 0 writes next to its engine. *)
Definition metadata_paths (ext : Collaborators) (output_path : Path) : list Path :=
  [ joinpath output_path (CONFIG_NAME ext);
    joinpath output_path (TENSORRT_TIMINGS_FILE ext);
    joinpath output_path (OPTIMUM_NVIDIA_CONFIG_FILE ext) ].

(** None of the three metadata file names ends in [.engine]. *)
Definition metadata_names_are_not_engines (ext : Collaborators) : Prop :=
  endswith (CONFIG_NAME ext) ".engine" = false
  /\ endswith (TENSORRT_TIMINGS_FILE ext) ".engine" = false
  /\ endswith (OPTIMUM_NVIDIA_CONFIG_FILE ext) ".engine" = false.

(** The error of [_build_parallel], by the configured number of jobs and the
    number of shards: the comparison of the CPU set with a number, the pool
    constructor given the list of shards, or the first [Pool.map] call. *)
Definition parallel_failure (num_parallel_jobs : Z) (shards : nat) : Exn :=
  if num_parallel_jobs >? 1 then
    if num_parallel_jobs >? Z.of_nat shards
    then not_supported_between "<" "list" "int"
    else mkExn TypeError "Pool.map() got an unexpected keyword argument 'is_parallel'"
  else not_supported_between ">" "set" "int".

(** The tokenizer a pipeline ends up with: the one passed in, or the one
    loaded for the model when none was passed. *)
Definition resolve_tokenizer (loaders : Pipelines.Loaders)
    (model_or_path : Pipelines.ModelOrPath) (tokenizer : option Pipelines.Tokenizer)
    : Outcome Pipelines.Tokenizer :=
  match tokenizer with
  | Some t => Return t
  | None => Pipelines.load_tokenizer loaders model_or_path
  end.

(** The model a pipeline ends up with: the compiled engine passed in, or the
    one [AutoModelForCausalLM] loads with the keyword arguments. *)
Definition resolve_model (loaders : Pipelines.Loaders)
    (model_or_path : Pipelines.ModelOrPath) (kwargs : list (string * PyVal))
    : Outcome Pipelines.Model :=
  match model_or_path with
  | Pipelines.CompiledEngine id => Return (Pipelines.GivenEngine id)
  | Pipelines.ModelId _ =>
      Pipelines.from_pretrained loaders Pipelines.AutoModelForCausalLM model_or_path kwargs
  end.




(** * Properties *)

(** ** Frames of the monad's operations *)

Section Preserves.

Variable R : World -> World -> Prop.
Hypothesis R_refl : forall w, R w w.
Hypothesis R_trans : forall w1 w2 w3, R w1 w2 -> R w2 w3 -> R w1 w3.

Lemma preserves_ret {A} (a : A) : preserves R (ret a).
Proof. intros w. apply R_refl. Qed.

Lemma preserves_lift {A} (o : Outcome A) : preserves R (lift o).
Proof. intros w. apply R_refl. Qed.

Lemma preserves_raise {A} cls msg : preserves R (@raise A cls msg).
Proof. intros w. apply R_refl. Qed.

Lemma preserves_get_self : preserves R get_self.
Proof. intros w. apply R_refl. Qed.

Lemma preserves_bind {A B} (c : M A) (k : A -> M B) :
  preserves R c -> (forall a, preserves R (k a)) -> preserves R (bind c k).
Proof.
  intros Hc Hk w. unfold bind. specialize (Hc w).
  destruct (c w) as [[a|e] w1]; cbn [snd] in *.
  - eapply R_trans; [exact Hc | apply Hk].
  - exact Hc.
Qed.

Lemma preserves_when (c : bool) (body : M unit) :
  preserves R body -> preserves R (when c body).
Proof. intros H. destruct c; [exact H | apply preserves_ret]. Qed.

Lemma preserves_for_each {A} (l : list A) (body : A -> M unit) :
  (forall x, preserves R (body x)) -> preserves R (for_each l body).
Proof.
  intros H. induction l as [|x l IH]; cbn [for_each].
  - apply preserves_ret.
  - apply preserves_bind; [apply H | intros _; exact IH].
Qed.

End Preserves.

Lemma same_configuration_refl w : same_configuration w w.
Proof. unfold same_configuration. tauto. Qed.

Lemma same_configuration_trans w1 w2 w3 :
  same_configuration w1 w2 -> same_configuration w2 w3 -> same_configuration w1 w3.
Proof. unfold same_configuration. intuition congruence. Qed.

Lemma same_configuration_warning msg : preserves same_configuration (warning msg).
Proof. intros w. unfold same_configuration. cbn. tauto. Qed.

Lemma same_configuration_set_beam_width k :
  preserves same_configuration (modify_self (set_beam_width k)).
Proof. intros w. unfold same_configuration. cbn. tauto. Qed.

(** Closes a frame goal by following the structure of the computation. *)
Ltac frame_with leaves :=
  repeat first
    [ apply preserves_bind; [exact same_configuration_trans | | intros ?]
    | apply preserves_lift; exact same_configuration_refl
    | apply preserves_ret; exact same_configuration_refl
    | apply preserves_raise; exact same_configuration_refl
    | apply preserves_get_self; exact same_configuration_refl
    | apply preserves_when; [exact same_configuration_refl|]
    | apply preserves_for_each;
        [exact same_configuration_refl | exact same_configuration_trans | intros ?]
    | apply same_configuration_warning
    | apply same_configuration_set_beam_width
    | leaves ].

Lemma same_configuration_check_range p entry :
  preserves same_configuration (check_range p entry).
Proof.
  destruct entry as [prop [min_value max_value]]. unfold check_range.
  frame_with idtac.
  match goal with b : bool |- _ => destruct b end; [frame_with idtac|].
  destruct max_value as [max_value|]; frame_with idtac.
Qed.

(** ** [validate] *)

Lemma defaulted_qconfig_profile w :
  _optimization_profile (self (defaulted_qconfig w)) = _optimization_profile (self w).
Proof. unfold defaulted_qconfig. destruct (_qconfig (self w)); reflexivity. Qed.

Lemma defaulted_qconfig_config w :
  _model_config (self (defaulted_qconfig w)) = _model_config (self w).
Proof. unfold defaulted_qconfig. destruct (_qconfig (self w)); reflexivity. Qed.

Lemma defaulted_qconfig_beam w :
  _beam_width (self (defaulted_qconfig w)) = _beam_width (self w).
Proof. unfold defaulted_qconfig. destruct (_qconfig (self w)); reflexivity. Qed.

(** [validate] begins by defaulting the quantization descriptor, whatever
    happens afterwards. *)
Lemma validate_unfold w :
  validate w =
  let w1 := defaulted_qconfig w in
  match _optimization_profile (self w1) with
  | None => (Raise (mkExn ValueError no_profile_message), w1)
  | Some optim_profile =>
      (max_sequence_length <-
         lift (getitem (_model_config (self w1)) "max_position_embeddings") ;;
       table <- lift (ranges optim_profile max_sequence_length) ;;
       for_each table (check_range optim_profile) ;;
       total <- lift (opt_add (max_prompt_length optim_profile)
                              (max_new_tokens optim_profile)) ;;
       too_long <- lift (opt_gt_val (Some total) max_sequence_length) ;;
       when too_long
            (new_max_new_tokens <-
               lift (match max_prompt_length optim_profile with
                     | Some p => py_sub max_sequence_length p
                     | None => Raise (unsupported_operand "-"
                                        (type_name max_sequence_length) "NoneType")
                     end) ;;
             warning (truncation_warning optim_profile max_sequence_length
                        new_max_new_tokens)) ;;
       self2 <- get_self ;;
       when (_beam_width self2 <? 1)
            (warning greedy_warning ;;
             modify_self (set_beam_width 1)) ;;
       ret true) w1
  end.
Proof.
  unfold validate, defaulted_qconfig, bind, get_self, when, warning, emit, modify_self, ret.
  destruct (_qconfig (self w)); cbn [self files events fst snd];
    destruct (_optimization_profile _); reflexivity.
Qed.

(** After its first step, [validate] changes only the beam width and the
    trace. *)
Lemma validate_same_configuration w :
  same_configuration (defaulted_qconfig w) (snd (validate w)).
Proof.
  rewrite validate_unfold. cbv zeta.
  destruct (_optimization_profile (self (defaulted_qconfig w))) as [p|];
    [|apply same_configuration_refl].
  match goal with
  | |- same_configuration ?w1 (snd (?c ?w1)) =>
      enough (H : preserves same_configuration c) by exact (H w1)
  end.
  frame_with ltac:(apply same_configuration_check_range).
Qed.

(** [validate] on a profile whose fields are all integers, for an integer
    [max_position_embeddings]: the first violated range raises, otherwise the
    beam width is defaulted and [True] returned. *)
Lemma validate_int_profile w b pl nt ol msl :
  _optimization_profile (self w)
    = Some (mkOptimizationProfile b (Some pl) (Some nt) (Some ol)) ->
  _model_config (self w) !! "max_position_embeddings" = Some (VInt msl) ->
  validate w =
  match range_violation b pl nt ol msl with
  | Some msg => (Raise (mkExn ValueError msg), defaulted_qconfig w)
  | None => (Return true, defaulted_beam (defaulted_qconfig w))
  end.
Proof.
  intros Hp Hc. rewrite validate_unfold. cbv zeta.
  rewrite defaulted_qconfig_profile, Hp, defaulted_qconfig_config.
  unfold getitem. rewrite Hc.
  unfold range_violation, bind, lift, ranges, py_sub, opt_add.
  cbn [py_as_int max_prompt_length max_new_tokens].
  cbv [for_each bind check_range lift raise ret OptimizationProfile_getattr
       String.eqb Ascii.eqb Bool.eqb
       max_batch_size max_prompt_length max_new_tokens max_output_length
       opt_lt opt_gt_val opt_gt py_as_int py_str py_repr].
  change (str_of_Z 1) with "1".
  destruct (b <? 1); [reflexivity|].
  destruct (pl <? 1); [reflexivity|].
  destruct (pl >? msl - 1); [reflexivity|].
  destruct (nt <? 1); [reflexivity|].
  destruct (nt >? msl - 1); [reflexivity|].
  destruct (ol <? pl + nt) eqn:Hlo; [reflexivity|].
  destruct (ol >? msl) eqn:Hhi; [reflexivity|].
  assert (Hsum : (pl + nt >? msl) = false) by lia.
  rewrite Hsum. cbv [when get_self defaulted_beam warning emit modify_self ret bind].
  destruct (_beam_width (self (defaulted_qconfig w)) <? 1); reflexivity.
Qed.

(** The events of [validate] after its first step: nothing, or the warning
    about the sampling strategy. *)
Lemma validate_body_events (p : OptimizationProfile) (config : gmap string PyVal) w1 :
  let body :=
    (max_sequence_length <- lift (getitem config "max_position_embeddings") ;;
     table <- lift (ranges p max_sequence_length) ;;
     for_each table (check_range p) ;;
     total <- lift (opt_add (max_prompt_length p) (max_new_tokens p)) ;;
     too_long <- lift (opt_gt_val (Some total) max_sequence_length) ;;
     when too_long
          (new_max_new_tokens <-
             lift (match max_prompt_length p with
                   | Some pl => py_sub max_sequence_length pl
                   | None => Raise (unsupported_operand "-"
                                      (type_name max_sequence_length) "NoneType")
                   end) ;;
           warning (truncation_warning p max_sequence_length new_max_new_tokens)) ;;
     self2 <- get_self ;;
     when (_beam_width self2 <? 1)
          (warning greedy_warning ;; modify_self (set_beam_width 1)) ;;
     ret true) in
  exists l,
    events (snd (body w1)) = events w1 ++ l
    /\ (l = [] \/ l = [Log WARNING greedy_warning]).
Proof.
  assert (Hnil : forall w : World, exists l,
            events w = events w ++ l /\ (l = [] \/ l = [Log WARNING greedy_warning])).
  { intros w. exists []. split; [symmetry; apply app_nil_r | left; reflexivity]. }
  cbv zeta. unfold bind at 1. unfold lift at 1, getitem.
  destruct (config !! "max_position_embeddings") as [msl|]; [|apply Hnil].
  unfold bind at 1. unfold lift at 1, ranges, py_sub.
  destruct (py_as_int msl) as [m|] eqn:Hm; [|apply Hnil].
  destruct p as [b [pl|] [nt|] ol]; cbn [opt_add max_prompt_length max_new_tokens];
    try (apply Hnil).
  cbv [for_each bind check_range lift raise ret OptimizationProfile_getattr
       String.eqb Ascii.eqb Bool.eqb
       max_batch_size max_prompt_length max_new_tokens max_output_length
       opt_lt opt_gt_val opt_gt].
  assert (Hm' : forall k, py_as_int (VInt k) = Some k) by reflexivity.
  rewrite !Hm', !Hm. clear Hm'.
  destruct (b <? 1); [apply Hnil|].
  destruct (pl <? 1); [apply Hnil|].
  destruct (pl >? m - 1); [apply Hnil|].
  destruct (nt <? 1); [apply Hnil|].
  destruct (nt >? m - 1); [apply Hnil|].
  destruct ol as [ol|]; [|apply Hnil].
  destruct (ol <? pl + nt) eqn:Hlo; [apply Hnil|].
  destruct (ol >? m) eqn:Hhi; [apply Hnil|].
  assert (Hsum : (pl + nt >? m) = false) by lia.
  rewrite Hsum. cbv [when get_self warning emit modify_self ret bind].
  destruct (_beam_width (self w1) <? 1); [|apply Hnil].
  exists [Log WARNING greedy_warning]. split; [reflexivity | right; reflexivity].
Qed.

(** [validate] logs nothing but its two warnings about defaults: the branch
    that warns of a truncation of [max_new_tokens] is never taken, since a
    profile that passes the range checks has
    [max_prompt_length + max_new_tokens <= max_output_length <= max_sequence_length]. *)
Lemma validate_never_warns_of_truncation w :
  exists l,
    events (snd (validate w)) = events w ++ l
    /\ (forall e, In e l ->
          e = Log WARNING no_quantization_warning \/ e = Log WARNING greedy_warning).
Proof.
  rewrite validate_unfold. cbv zeta.
  assert (H1 : exists l1,
             events (defaulted_qconfig w) = events w ++ l1
             /\ (forall e, In e l1 -> e = Log WARNING no_quantization_warning)).
  { unfold defaulted_qconfig.
    destruct (_qconfig (self w));
      try (exists []; split; [symmetry; apply app_nil_r | intros e []]).
    exists [Log WARNING no_quantization_warning]. split; [reflexivity|].
    intros e [<-|[]]. reflexivity. }
  destruct H1 as (l1 & E1 & Hl1).
  destruct (_optimization_profile (self (defaulted_qconfig w))) as [p|].
  - destruct (validate_body_events p (_model_config (self (defaulted_qconfig w)))
                (defaulted_qconfig w)) as (l2 & E2 & Hl2).
    cbv zeta in E2. rewrite E2, E1, <- app_assoc.
    exists (l1 ++ l2). split; [reflexivity|].
    intros e He. apply in_app_iff in He. destruct He as [He|He].
    + left. apply Hl1, He.
    + destruct Hl2 as [-> | ->]; [destruct He|].
      destruct He as [<-|[]]. right. reflexivity.
  - cbn [snd]. rewrite E1. exists l1. split; [reflexivity|].
    intros e He. left. apply Hl1, He.
Qed.

(** A computation that returns has an unfolding through each [bind]. *)
Lemma bind_Return_inv {A B} (c : M A) (k : A -> M B) w b w' :
  bind c k w = (Return b, w') ->
  exists a w1, c w = (Return a, w1) /\ k a w1 = (Return b, w').
Proof.
  unfold bind. destruct (c w) as [[a|e] w1]; intros H.
  - exists a, w1. split; [reflexivity | exact H].
  - discriminate H.
Qed.

Lemma validate_returns_True w r w' : validate w = (Return r, w') -> r = true.
Proof.
  rewrite validate_unfold. cbv zeta.
  destruct (_optimization_profile (self (defaulted_qconfig w))) as [p|]; [|discriminate].
  intros H.
  repeat (apply bind_Return_inv in H; destruct H as (? & ? & _ & H)).
  unfold ret in H. congruence.
Qed.

(** [with_generation_profile] only replaces the profile. *)
Lemma with_generation_profile_run w b pl nt ol :
  with_generation_profile b pl nt ol w =
  let stored :=
    mkOptimizationProfile b pl nt
      (match ol, pl, nt with
       | None, Some p, Some n => Some (p + n)
       | _, _, _ => ol
       end) in
  let self' := set_optimization_profile (Some stored) (self w) in
  (Return self', mkWorld self' (files w) (events w)).
Proof. reflexivity. Qed.

Example fresh_builder_init : __init__ "llama" example_config = Return fresh_builder.
Proof. reflexivity. Qed.

(** C1: with [max_position_embeddings = 120], a profile of
    [max_prompt_length = 100] and [max_new_tokens = 50] whose
    [max_output_length] is left to its default is rejected by [validate]: the
    defaulted [max_output_length] of 150 exceeds 120 and a [ValueError] is
    raised, the stored [max_new_tokens] stays 50 and no warning about a
    truncation is logged. *)
Theorem validate_rejects_profile_longer_than_model w batch :
  _model_config (self w) !! "max_position_embeddings" = Some (VInt 120) ->
  1 <= batch ->
  exists w',
    (with_generation_profile batch (Some 100) (Some 50) None ;; validate) w
    = (Raise (mkExn ValueError
                "Invalid value (150) for max_output_length. Needs to be <= 120"), w')
    /\ _optimization_profile (self w')
       = Some (mkOptimizationProfile batch (Some 100) (Some 50) (Some 150))
    /\ (forall e, In e (events w') ->
          In e (events w) \/ e = Log WARNING no_quantization_warning).
Proof.
  intros Hc Hb. unfold bind. rewrite with_generation_profile_run. cbv zeta.
  set (w1 := mkWorld _ _ _). cbv beta iota.
  rewrite (validate_int_profile w1 batch 100 50 150 120); [|reflexivity|exact Hc].
  unfold range_violation.
  replace (batch <? 1) with false by lia.
  cbn -[defaulted_qconfig]. eexists. split; [reflexivity|]. split.
  - rewrite defaulted_qconfig_profile. reflexivity.
  - intros e. unfold defaulted_qconfig.
    destruct (_qconfig (self w1)); cbn [events w1]; try tauto.
    rewrite in_app_iff. cbn. intuition.
Qed.

Lemma validate_rejects_profile_longer_than_model_witness :
  exists w',
    (with_generation_profile 1 (Some 100) (Some 50) None ;; validate) fresh_world
    = (Raise (mkExn ValueError
                "Invalid value (150) for max_output_length. Needs to be <= 120"), w')
    /\ _optimization_profile (self w')
       = Some (mkOptimizationProfile 1 (Some 100) (Some 50) (Some 150))
    /\ (forall e, In e (events w') ->
          In e (events fresh_world) \/ e = Log WARNING no_quantization_warning).
Proof.
  apply (validate_rejects_profile_longer_than_model fresh_world 1);
    [reflexivity | lia].
Defined.

(** [validate] raises a [ValueError] when no optimization profile has been
    set; when a field of a profile of integers lies outside its range it
    raises a [ValueError] whose message names an offending field, its value and
    the bound it breaks (for [max_batch_size = 0]: [max_batch_size] and
    [>= 1]); and whenever it returns, it returns [True]. *)
Theorem validate_failures_raise_ValueError :
  (forall w,
     _optimization_profile (self w) = None ->
     validate w = (Raise (mkExn ValueError no_profile_message), defaulted_qconfig w))
  /\ (forall w b pl nt ol msl,
        _optimization_profile (self w)
          = Some (mkOptimizationProfile b (Some pl) (Some nt) (Some ol)) ->
        _model_config (self w) !! "max_position_embeddings" = Some (VInt msl) ->
        ~ within_ranges b pl nt ol msl ->
        exists field value cmp bound,
          validate w
          = (Raise (mkExn ValueError
                      (invalid_value (Some value) field cmp (str_of_Z bound))),
             defaulted_qconfig w)
          /\ offending_field b pl nt ol msl field value cmp bound)
  /\ (forall w pl nt ol msl,
        _optimization_profile (self w)
          = Some (mkOptimizationProfile 0 (Some pl) (Some nt) ol) ->
        _model_config (self w) !! "max_position_embeddings" = Some (VInt msl) ->
        validate w
        = (Raise (mkExn ValueError
                    "Invalid value (0) for max_batch_size. Needs to be >= 1"),
           defaulted_qconfig w))
  /\ (forall w r w', validate w = (Return r, w') -> r = true).
Proof.
  split; [|split; [|split]].
  - intros w Hp. rewrite validate_unfold. cbv zeta.
    rewrite defaulted_qconfig_profile, Hp. reflexivity.
  - intros w b pl nt ol msl Hp Hc Hout.
    rewrite (validate_int_profile w b pl nt ol msl Hp Hc).
    unfold range_violation, offending_field.
    destruct (b <? 1) eqn:?;
      [exists "max_batch_size", b, ">=", 1; split; [reflexivity | left; repeat split; lia]|].
    destruct (pl <? 1) eqn:?;
      [exists "max_prompt_length", pl, ">=", 1; split;
         [reflexivity | right; left; repeat split; left; repeat split; lia]|].
    destruct (pl >? msl - 1) eqn:?;
      [exists "max_prompt_length", pl, "<=", (msl - 1); split;
         [reflexivity | right; left; repeat split; right; repeat split; lia]|].
    destruct (nt <? 1) eqn:?;
      [exists "max_new_tokens", nt, ">=", 1; split;
         [reflexivity | right; right; left; repeat split; left; repeat split; lia]|].
    destruct (nt >? msl - 1) eqn:?;
      [exists "max_new_tokens", nt, "<=", (msl - 1); split;
         [reflexivity | right; right; left; repeat split; right; repeat split; lia]|].
    destruct (ol <? pl + nt) eqn:?;
      [exists "max_output_length", ol, ">=", (pl + nt); split;
         [reflexivity | right; right; right; repeat split; left; repeat split; lia]|].
    destruct (ol >? msl) eqn:?;
      [exists "max_output_length", ol, "<=", msl; split;
         [reflexivity | right; right; right; repeat split; right; repeat split; lia]|].
    exfalso. apply Hout. unfold within_ranges. lia.
  - intros w pl nt ol msl Hp Hc. rewrite validate_unfold. cbv zeta.
    rewrite defaulted_qconfig_profile, Hp, defaulted_qconfig_config.
    unfold getitem. rewrite Hc. reflexivity.
  - exact validate_returns_True.
Qed.

Lemma validate_failures_raise_ValueError_witness :
  validate fresh_world
    = (Raise (mkExn ValueError no_profile_message), defaulted_qconfig fresh_world)
  /\ (exists field value cmp bound,
        validate zero_batch_world
        = (Raise (mkExn ValueError
                    (invalid_value (Some value) field cmp (str_of_Z bound))),
           defaulted_qconfig zero_batch_world)
        /\ offending_field 0 100 10 110 120 field value cmp bound)
  /\ validate zero_batch_world
     = (Raise (mkExn ValueError
                 "Invalid value (0) for max_batch_size. Needs to be >= 1"),
        defaulted_qconfig zero_batch_world)
  /\ (exists r w', validate ready_world = (Return r, w') /\ r = true).
Proof.
  destruct validate_failures_raise_ValueError as (Hnone & Hrange & Hzero & Htrue).
  split; [|split; [|split]].
  - apply Hnone. reflexivity.
  - apply Hrange; [reflexivity | reflexivity | unfold within_ranges; lia].
  - apply (Hzero zero_batch_world 100 10 (Some 110) 120); reflexivity.
  - assert (E : validate ready_world = (Return true, snd (validate ready_world)))
      by (vm_compute; reflexivity).
    exists true, (snd (validate ready_world)).
    split; [exact E | exact (Htrue _ _ _ E)].
Defined.

Example validate_ready_world : fst (validate ready_world) = Return true.
Proof. reflexivity. Qed.

(** ** [with_generation_profile] *)

(** C9: when [max_output_length] is omitted and both other lengths are
    given, [with_generation_profile] stores their sum as [max_output_length];
    and when moreover [max_batch_size >= 1], [max_prompt_length >= 1],
    [max_new_tokens >= 1] and the sum does not exceed the model's maximum
    sequence length, [validate] then returns [True]. *)
Theorem generation_profile_sum_validates w batch pl nt :
  (exists self',
     with_generation_profile batch (Some pl) (Some nt) None w
     = (Return self', mkWorld self' (files w) (events w))
     /\ _optimization_profile self'
        = Some (mkOptimizationProfile batch (Some pl) (Some nt) (Some (pl + nt))))
  /\ (forall msl,
        _model_config (self w) !! "max_position_embeddings" = Some (VInt msl) ->
        1 <= batch -> 1 <= pl -> 1 <= nt -> pl + nt <= msl ->
        exists w',
          (with_generation_profile batch (Some pl) (Some nt) None ;; validate) w
          = (Return true, w')
          /\ _optimization_profile (self w')
             = Some (mkOptimizationProfile batch (Some pl) (Some nt) (Some (pl + nt)))).
Proof.
  split.
  - eexists. rewrite with_generation_profile_run. cbv zeta. split; reflexivity.
  - intros msl Hc Hb Hp Hn Hs. unfold bind. rewrite with_generation_profile_run.
    cbv zeta. set (w1 := mkWorld _ _ _). cbv beta iota.
    rewrite (validate_int_profile w1 batch pl nt (pl + nt) msl); [|reflexivity|exact Hc].
    unfold range_violation.
    replace (batch <? 1) with false by lia.
    replace (pl <? 1) with false by lia.
    replace (pl >? msl - 1) with false by lia.
    replace (nt <? 1) with false by lia.
    replace (nt >? msl - 1) with false by lia.
    replace (pl + nt <? pl + nt) with false by lia.
    replace (pl + nt >? msl) with false by lia.
    eexists. split; [reflexivity|].
    unfold defaulted_beam.
    destruct (_beam_width _ <? 1); cbn [self set_beam_width _optimization_profile];
      rewrite defaulted_qconfig_profile; reflexivity.
Qed.

Lemma generation_profile_sum_validates_witness :
  exists w',
    (with_generation_profile 1 (Some 100) (Some 20) None ;; validate) fresh_world
    = (Return true, w')
    /\ _optimization_profile (self w')
       = Some (mkOptimizationProfile 1 (Some 100) (Some 20) (Some (100 + 20))).
Proof.
  apply (proj2 (generation_profile_sum_validates fresh_world 1 100 20) 120);
    [reflexivity | lia | lia | lia | lia].
Defined.

(** C9, as first stated, fails: a prompt length of zero satisfies
    [max_prompt_length + max_new_tokens <= max_sequence_length] and
    [max_batch_size >= 1], yet [validate] raises. *)
Lemma zero_prompt_length_is_rejected :
  _model_config (self fresh_world) !! "max_position_embeddings" = Some (VInt 120)
  /\ 1 <= 1 /\ 0 + 10 <= 120
  /\ fst ((with_generation_profile 1 (Some 0) (Some 10) None ;; validate) fresh_world)
     = Raise (mkExn ValueError
                "Invalid value (0) for max_prompt_length. Needs to be >= 1")
  /\ ~ (exists w',
          (with_generation_profile 1 (Some 0) (Some 10) None ;; validate) fresh_world
          = (Return true, w')).
Proof.
  split; [reflexivity|]. split; [lia|]. split; [lia|]. split; [reflexivity|].
  intros [w' H]. apply (f_equal fst) in H. vm_compute in H. discriminate H.
Qed.

(** ** [enable_parallel_build] *)

(** C2: [enable_parallel_build(num_jobs)] stores nothing and returns
    nothing: for every [num_jobs] the call [BuildInfo(True, num_jobs)] raises a
    [TypeError] for the missing third field, and the builder is left as it
    was. *)
Theorem enable_parallel_build_raises w num_jobs :
  enable_parallel_build num_jobs w
  = (Raise (mkExn TypeError
              "BuildInfo.__new__() missing 1 required positional argument: 'quantized_path'"),
     w).
Proof. reflexivity. Qed.

(** ** [with_quantization_profile] *)

(** C8: when the mode has an fp8 feature (qdq or kv-cache) and the hardware
    reports no float8 support, [with_quantization_profile] raises
    [UnsupportedHardwareFeature] and leaves the world untouched: nothing is
    stored and no collaborator (in particular no model loader) has been called.
    In every other case it stores the mode and the calibration on the builder,
    changes nothing else, and returns the builder. *)
Theorem with_quantization_profile_guards_float8 ext w mode calibration :
  ((has_fp8_qdq ext mode || has_fp8_kv_cache ext mode) = true ->
   has_float8_support ext = false ->
   with_quantization_profile ext mode calibration w
   = (Raise (mkExn UnsupportedHardwareFeature (float8_message ext)), w))
  /\ (~ ((has_fp8_qdq ext mode || has_fp8_kv_cache ext mode) = true
         /\ has_float8_support ext = false) ->
      let self' :=
        set_quantization_calibration calibration
          (set_qconfig (VQuantMode mode) (self w)) in
      with_quantization_profile ext mode calibration w
      = (Return self', mkWorld self' (files w) (events w))
      /\ _qconfig self' = VQuantMode mode
      /\ _quantization_calibration self' = calibration).
Proof.
  unfold with_quantization_profile, bind, raise, ret, modify_self, return_self, get_self.
  split.
  - intros Hfp8 Hhw. rewrite Hfp8, Hhw. reflexivity.
  - intros Hok. cbv zeta.
    destruct (has_fp8_qdq ext mode || has_fp8_kv_cache ext mode) eqn:Hfp8;
      [destruct (has_float8_support ext) eqn:Hhw|].
    + cbn. repeat split; reflexivity.
    + exfalso. apply Hok. split; reflexivity.
    + cbn. repeat split; reflexivity.
Qed.

Lemma with_quantization_profile_guards_float8_witness :
  with_quantization_profile stub 256 None fresh_world
  = (Raise (mkExn UnsupportedHardwareFeature (float8_message stub)), fresh_world)
  /\ (let self' :=
        set_quantization_calibration (Some (mkCalibration "c4"))
          (set_qconfig (VQuantMode 2) (self fresh_world)) in
      with_quantization_profile stub 2 (Some (mkCalibration "c4")) fresh_world
      = (Return self', mkWorld self' (files fresh_world) (events fresh_world))
      /\ _qconfig self' = VQuantMode 2
      /\ _quantization_calibration self' = Some (mkCalibration "c4")).
Proof.
  split.
  - apply (proj1 (with_quantization_profile_guards_float8 stub fresh_world 256 None));
      reflexivity.
  - apply (proj2 (with_quantization_profile_guards_float8 stub fresh_world 2
                    (Some (mkCalibration "c4")))).
    intros [H _]. vm_compute in H. discriminate H.
Defined.

(** ** The quantization descriptor left by [validate] *)

Lemma create_builder_config_tuple ext shard is_parallel opt_level w items :
  _qconfig (self w) = VTuple items ->
  is_Some (_model_config (self w) !! "model_type") ->
  create_builder_config ext shard is_parallel opt_level w
  = (Raise (mkExn AttributeError "'tuple' object has no attribute 'has_fp8_qdq'"), w).
Proof.
  intros Hq [mt Hm].
  unfold create_builder_config, bind, get_self, lift, getitem.
  rewrite Hm, Hq. reflexivity.
Qed.

Lemma build_engine_for_rank_tuple ext shard output_path opt_level is_parallel w items :
  _qconfig (self w) = VTuple items ->
  is_Some (_model_config (self w) !! "model_type") ->
  _build_engine_for_rank ext shard output_path opt_level is_parallel w
  = (Raise (mkExn AttributeError "'tuple' object has no attribute 'has_fp8_qdq'"), w).
Proof.
  intros Hq Hm. unfold _build_engine_for_rank.
  unfold bind at 1. unfold get_self at 1. cbv beta iota.
  unfold bind at 1. unfold lift at 1, getitem at 1.
  destruct Hm as [mt Hm]. rewrite Hm. cbv beta iota.
  unfold bind at 1.
  rewrite (create_builder_config_tuple ext shard is_parallel opt_level w items Hq);
    [reflexivity | rewrite Hm; eexists; reflexivity].
Qed.

(** C6: when no quantization was configured, [validate] leaves the pair
    [(QuantMode(0), 0)] in [_qconfig], whether it returns or raises; from then
    on every per-rank build step whose configuration has a [model_type], and so
    reaches [qconfig.has_fp8_qdq()], raises an [AttributeError] instead of
    producing a builder configuration, and writes nothing. *)
Theorem validate_default_qconfig_is_a_tuple ext w :
  _qconfig (self w) = VNone ->
  let w' := snd (validate w) in
  _qconfig (self w') = VTuple [VQuantMode 0; VInt 0]
  /\ (forall shard output_path opt_level is_parallel,
        is_Some (_model_config (self w) !! "model_type") ->
        create_builder_config ext shard is_parallel opt_level w'
        = (Raise (mkExn AttributeError "'tuple' object has no attribute 'has_fp8_qdq'"),
           w')
        /\ _build_engine_for_rank ext shard output_path opt_level is_parallel w'
           = (Raise (mkExn AttributeError
                       "'tuple' object has no attribute 'has_fp8_qdq'"), w')).
Proof.
  intros Hnone w'.
  destruct (validate_same_configuration w) as (Hq & Hc & _).
  assert (Hq' : _qconfig (self w') = VTuple [VQuantMode 0; VInt 0]).
  { unfold w'. rewrite Hq. unfold defaulted_qconfig. rewrite Hnone. reflexivity. }
  split; [exact Hq'|].
  intros shard output_path opt_level is_parallel Hm.
  assert (Hm' : is_Some (_model_config (self w') !! "model_type")).
  { unfold w'. rewrite Hc, defaulted_qconfig_config. exact Hm. }
  split.
  - exact (create_builder_config_tuple ext shard is_parallel opt_level w' _ Hq' Hm').
  - exact (build_engine_for_rank_tuple ext shard output_path opt_level is_parallel w' _
             Hq' Hm').
Qed.

Lemma validate_default_qconfig_is_a_tuple_witness :
  let w' := snd ((with_generation_profile 1 (Some 100) (Some 10) None ;; validate)
                   fresh_world) in
  fst ((with_generation_profile 1 (Some 100) (Some 10) None ;; validate) fresh_world)
    = Return true
  /\ _qconfig (self w') = VTuple [VQuantMode 0; VInt 0]
  /\ _build_engine_for_rank stub (mkShard 1 0 1 1 1) ["out"] None false w'
     = (Raise (mkExn AttributeError "'tuple' object has no attribute 'has_fp8_qdq'"), w').
Proof.
  cbv zeta. split; [reflexivity|].
  pose (w1 := snd (with_generation_profile 1 (Some 100) (Some 10) None fresh_world)).
  assert (Hnone : _qconfig (self w1) = VNone) by reflexivity.
  destruct (validate_default_qconfig_is_a_tuple stub w1 Hnone) as (Hq & Hbuild).
  split; [exact Hq|].
  apply (Hbuild (mkShard 1 0 1 1 1) ["out"] None false).
  eexists. reflexivity.
Defined.

(** ** [quantize] *)

Lemma existsb_Permutation {A} (f : A -> bool) (l l' : list A) :
  l ≡ₚ l' -> existsb f l = existsb f l'.
Proof.
  intros Hp. apply eq_true_iff_eq. rewrite !existsb_exists.
  split; intros (x & Hin & Hx); exists x; split; try exact Hx.
  - eapply Permutation_in; [exact Hp | exact Hin].
  - eapply Permutation_in; [symmetry; exact Hp | exact Hin].
Qed.

Lemma existsb_none {A} (f : A -> bool) (l : list A) :
  (forall x, In x l -> f x = false) -> existsb f l = false.
Proof.
  intros H. induction l as [|x l IH]; [reflexivity|].
  cbn. rewrite (H x (or_introl eq_refl)). apply IH.
  intros y Hy. apply H. right. exact Hy.
Qed.

(** C7: with a calibration dataset supplied, [quantize] reuses the cache
    when the calibration subdirectory is a directory with exactly two entries,
    one ending in [.json] and one in [.safetensors]: it logs the reuse and calls
    neither the model loader nor the calibrator, and the files are untouched.
    When the subdirectory is absent, or holds no [.json] entry, or holds no
    [.safetensors] entry, the model is loaded and calibrated and the calibrator
    saves its output.  Either way [quantized_path] is the calibration path
    afterwards. *)
Theorem quantize_reuses_or_recalibrates ext w output_path calibration :
  _quantization_calibration (self w) = Some calibration ->
  let calibration_path := joinpath output_path "calibration" in
  let recorded w' :=
    _build_info (self w')
    = mkBuildInfo (parallel (_build_info (self w)))
        (num_parallel_jobs (_build_info (self w))) (Some calibration_path) in
  (files w !! calibration_path = Some Dir ->
   (exists a b,
      listdir (files w) calibration_path ≡ₚ [a; b]
      /\ endswith a ".json" = true /\ endswith b ".safetensors" = true) ->
   exists w',
     quantize ext output_path w = (Return tt, w')
     /\ files w' = files w
     /\ events w'
        = events w ++ [Log INFO ("Reusing already precomputed calibration data at "
                                 +:+ path_str calibration_path)]
     /\ recorded w')
  /\ (files w !! calibration_path = None
      \/ (forall f, In f (listdir (files w) calibration_path) -> endswith f ".json" = false)
      \/ (forall f, In f (listdir (files w) calibration_path) ->
            endswith f ".safetensors" = false) ->
      exists w',
        quantize ext output_path w = (Return tt, w')
        /\ In (Call "AutoModelForCausalLM.from_pretrained"
                 [VStr (_model_id_or_path (self w)); _dtype (self w)]) (events w')
        /\ In (Call "AmmoQuantizer.calibrate" [VStr (dataset_name calibration)]) (events w')
        /\ files w'
           = quantizer_save ext (_qconfig (self w)) (_dtype (self w))
               (tp_degree (_sharding_info (self w))) calibration calibration_path (files w)
        /\ recorded w').
Proof.
  intros Hcal calibration_path recorded. split.
  - intros Hdir (a & b & Hperm & Ha & Hb).
    unfold quantize. fold calibration_path.
    unfold bind at 1. unfold get_self at 1. cbv beta iota. rewrite Hcal.
    unfold bind at 1. unfold bind at 1. unfold get_files at 1. cbv beta iota.
    unfold path_exists, is_dir. rewrite Hdir. cbn [andb negb orb].
    rewrite (Permutation_length Hperm). cbn [length Nat.eqb].
    rewrite !(existsb_Permutation _ _ _ Hperm). cbn [existsb].
    rewrite Ha, Hb. rewrite orb_true_r. cbn [andb negb orb].
    eexists. split; [reflexivity|]. cbn. repeat split; reflexivity.
  - intros Hmiss.
    unfold quantize. fold calibration_path.
    unfold bind at 1. unfold get_self at 1. cbv beta iota. rewrite Hcal.
    unfold bind at 1. unfold bind at 1. unfold get_files at 1. cbv beta iota.
    match goal with
    | |- context [if path_exists ?f ?p && is_dir ?f ?p then ?a else ?b] =>
        destruct (if path_exists f p && is_dir f p then a else b) as [hj hq] eqn:Hp
    end.
    assert (Hc : negb (path_exists (files w) calibration_path) || negb (hj && hq) = true).
    { revert Hp. unfold path_exists, is_dir.
      destruct Hmiss as [Habs | [Hjson | Hsafe]].
      - rewrite Habs. reflexivity.
      - destruct (files w !! calibration_path) as [[|]|]; cbn [andb negb orb];
          try (intros [= <- <-]; reflexivity).
        destruct (Nat.eqb _ 2); [|intros [= <- <-]; reflexivity].
        rewrite (existsb_none _ _ Hjson). intros [= <- <-]. reflexivity.
      - destruct (files w !! calibration_path) as [[|]|]; cbn [andb negb orb];
          try (intros [= <- <-]; reflexivity).
        destruct (Nat.eqb _ 2); [|intros [= <- <-]; reflexivity].
        rewrite (existsb_none _ _ Hsafe). intros [= <- <-].
        rewrite andb_false_r. reflexivity. }
    rewrite Hc.
    eexists. split; [reflexivity|]. cbn.
    split; [rewrite !in_app_iff; cbn; tauto|].
    split; [rewrite !in_app_iff; cbn; tauto|].
    split; reflexivity.
Qed.

Lemma quantize_reuses_or_recalibrates_witness :
  (exists w',
     quantize stub ["out"] cached_world = (Return tt, w')
     /\ files w' = files cached_world
     /\ events w'
        = events cached_world
          ++ [Log INFO ("Reusing already precomputed calibration data at "
                        +:+ path_str ["out"; "calibration"])]
     /\ _build_info (self w') = mkBuildInfo false 1 (Some ["out"; "calibration"]))
  /\ (exists w',
        quantize stub ["out"] uncached_world = (Return tt, w')
        /\ In (Call "AutoModelForCausalLM.from_pretrained" [VStr "llama"; VStr "float16"])
             (events w')
        /\ In (Call "AmmoQuantizer.calibrate" [VStr "c4"]) (events w')
        /\ files w'
           = quantizer_save stub (VQuantMode 256) (VStr "float16") 2 (mkCalibration "c4")
               ["out"; "calibration"] (files uncached_world)
        /\ _build_info (self w') = mkBuildInfo false 1 (Some ["out"; "calibration"])).
Proof.
  split.
  - apply (proj1 (quantize_reuses_or_recalibrates stub cached_world ["out"]
                    (mkCalibration "c4") eq_refl)).
    + reflexivity.
    + exists "config.json", "model.safetensors".
      split; [vm_compute; apply perm_swap | split; reflexivity].
  - apply (proj2 (quantize_reuses_or_recalibrates stub uncached_world ["out"]
                    (mkCalibration "c4") eq_refl)).
    left. reflexivity.
Defined.

(** ** [_build_engine_for_rank] *)

Lemma same_self_and_files_refl w : same_self_and_files w w.
Proof. split; reflexivity. Qed.

Lemma same_self_and_files_trans w1 w2 w3 :
  same_self_and_files w1 w2 -> same_self_and_files w2 w3 -> same_self_and_files w1 w3.
Proof. unfold same_self_and_files. intuition congruence. Qed.

Lemma same_self_and_files_emit e : preserves same_self_and_files (emit e).
Proof. intros w. split; reflexivity. Qed.

(** Closes a goal that a computation leaves the builder and the files alone. *)
Ltac trace_only_with leaves :=
  repeat first
    [ leaves
    | apply preserves_bind; [exact same_self_and_files_trans | | intros ?]
    | apply preserves_lift; exact same_self_and_files_refl
    | apply preserves_ret; exact same_self_and_files_refl
    | apply preserves_raise; exact same_self_and_files_refl
    | apply preserves_get_self; exact same_self_and_files_refl
    | apply preserves_when; [exact same_self_and_files_refl|]
    | apply same_self_and_files_emit ].

Ltac trace_only := trace_only_with fail.

Lemma same_self_and_files_profile_for attr :
  preserves same_self_and_files (profile_for attr).
Proof.
  unfold profile_for. trace_only.
  match goal with |- context [match ?o with _ => _ end] => destruct o end; trace_only.
Qed.

Lemma same_self_and_files_create_builder_config ext shard is_parallel opt_level :
  preserves same_self_and_files (create_builder_config ext shard is_parallel opt_level).
Proof.
  unfold create_builder_config.
  trace_only_with ltac:(apply same_self_and_files_profile_for).
Qed.

Lemma same_self_and_files_prepare_inputs : preserves same_self_and_files prepare_inputs.
Proof.
  unfold prepare_inputs.
  trace_only_with ltac:(apply same_self_and_files_profile_for).
Qed.

(** What a step that returned tells about the world it returned in. *)
Lemma preserves_run {A} (R : World -> World -> Prop) (c : M A) w o w' :
  preserves R c -> c w = (o, w') -> R w w'.
Proof. intros H E. specialize (H w). rewrite E in H. exact H. Qed.

(** Splits a computation that returned at its first [bind]. *)
Tactic Notation "step" hyp(H) ident(Hs) ident(v) ident(wn) :=
  apply bind_Return_inv in H; destruct H as (v & wn & Hs & H).
(** Uses that the step [Hs] left the builder and the files alone. *)
Ltac traced Hs lem :=
  apply (preserves_run same_self_and_files) in Hs; [|lem]; destruct Hs as [? ?].

(** A rank whose build returns has written its engine file, preceded for rank
    0 by the three metadata files, and nothing else, when the export flag is
    unset. *)
Lemma build_engine_for_rank_files ext shard output_path opt_level is_parallel w w' :
  parse_flag_from_env ext "OPTIMUM_NVIDIA_OUTPUT_ONNX_IR" false = false ->
  _build_engine_for_rank ext shard output_path opt_level is_parallel w = (Return tt, w') ->
  exists model_type build_config engine,
    _model_config (self w) !! "model_type" = Some model_type
    /\ self w' = self w
    /\ files w'
       = write_file (engine_path (self w) model_type shard output_path) engine
           (if rank shard =? 0
            then rank0_files ext (_model_config (self w)) build_config output_path (files w)
            else files w).
Proof.
  intros Hflag Hrun. unfold _build_engine_for_rank in Hrun.
  step Hrun H0 self_ w0. unfold get_self in H0. injection H0 as <- <-.
  step Hrun H1 mt w1. unfold lift, getitem in H1.
  destruct (_model_config (self w) !! "model_type") as [model_type|] eqn:Hmt;
    [|discriminate H1].
  injection H1 as <- <-.
  step Hrun H2 build_config w2.
  traced H2 ltac:(apply same_self_and_files_create_builder_config).
  cbv zeta in Hrun.
  step Hrun H3 mt' w3. unfold lift in H3. injection H3 as _ <-.
  step Hrun H4 adapter w4. unfold lift in H4. injection H4 as _ <-.
  step Hrun H5 u5 w5. traced H5 ltac:(apply same_self_and_files_emit).
  step Hrun H6 inputs_ w6. traced H6 ltac:(apply same_self_and_files_prepare_inputs).
  step Hrun H7 u7 w7.
  traced H7 ltac:(apply preserves_when;
                  [exact same_self_and_files_refl | apply same_self_and_files_emit]).
  rewrite Hflag in Hrun.
  step Hrun H8 u8 w8. unfold when, ret in H8. injection H8 as _ <-.
  step Hrun H9 u9 w9. traced H9 ltac:(apply same_self_and_files_emit).
  step Hrun H10 u10 w10. traced H10 ltac:(apply same_self_and_files_emit).
  step Hrun H11 u11 w11.
  match type of Hrun with
  | context [build_engine ext ?n ?c] => destruct (build_engine ext n c) as [engine|]
  end; [|discriminate Hrun].
  exists model_type, build_config, engine. split; [reflexivity|].
  unfold _serialize_engine, bind, info, emit, modify_files in Hrun.
  injection Hrun as <-. cbn [self files].
  assert (Hs : self w11 = self w
               /\ files w11
                  = (if rank shard =? 0
                     then rank0_files ext (_model_config (self w)) build_config
                            output_path (files w)
                     else files w)).
  { destruct (rank shard =? 0).
    - unfold when, bind, modify_files in H11. injection H11 as _ <-. cbn [self files].
      split; [congruence|]. unfold rank0_files. congruence.
    - unfold when, ret in H11. injection H11 as _ <-. split; congruence. }
  destruct Hs as [-> ->]. split; reflexivity.
Qed.

Lemma unchanged_outside_refl touched w : unchanged_outside touched w w.
Proof. intros p _. reflexivity. Qed.

Lemma unchanged_outside_trans touched w1 w2 w3 :
  unchanged_outside touched w1 w2 -> unchanged_outside touched w2 w3 ->
  unchanged_outside touched w1 w3.
Proof. intros H12 H23 p Hp. rewrite (H23 p Hp). apply H12, Hp. Qed.

Lemma unchanged_outside_of_trace touched {A} (c : M A) :
  preserves same_self_and_files c -> preserves (unchanged_outside touched) c.
Proof. intros H w p _. destruct (H w) as [_ Hf]. rewrite Hf. reflexivity. Qed.

Lemma unchanged_outside_write (touched : Path -> Prop) path data :
  touched path -> preserves (unchanged_outside touched) (modify_files (write_file path data)).
Proof.
  intros Hin w p Hp. cbn. unfold write_file. apply lookup_insert_ne.
  intros <-. exact (Hp Hin).
Qed.

(** A rank other than 0 touches no file but its own engine file, whether its
    build returns or raises, when the export flag is unset. *)
Lemma nonzero_rank_frame ext shard output_path opt_level is_parallel w p :
  parse_flag_from_env ext "OPTIMUM_NVIDIA_OUTPUT_ONNX_IR" false = false ->
  rank shard <> 0 ->
  (forall model_type,
     _model_config (self w) !! "model_type" = Some model_type ->
     p <> engine_path (self w) model_type shard output_path) ->
  files (snd (_build_engine_for_rank ext shard output_path opt_level is_parallel w)) !! p
  = files w !! p.
Proof.
  intros Hflag Hrank Hp. unfold _build_engine_for_rank.
  unfold bind at 1. unfold get_self at 1. cbv beta iota.
  unfold bind at 1. unfold lift at 1, getitem at 1.
  destruct (_model_config (self w) !! "model_type") as [model_type|] eqn:Hmt;
    [|reflexivity].
  cbv beta iota zeta. rewrite Hflag.
  replace (rank shard =? 0) with false by lia.
  set (own := engine_path (self w) model_type shard output_path).
  match goal with
  | |- files (snd (?c w)) !! p = _ =>
      enough (H : preserves (unchanged_outside (eq own)) c)
        by (apply (H w p); intros <-; exact (Hp model_type eq_refl eq_refl))
  end.
  pose proof (unchanged_outside_refl (eq own)) as Hr.
  pose proof (unchanged_outside_trans (eq own)) as Ht.
  repeat first
    [ apply unchanged_outside_of_trace;
        first [ apply same_self_and_files_create_builder_config
              | apply same_self_and_files_prepare_inputs
              | apply same_self_and_files_emit ]
    | apply preserves_bind; [exact Ht | | intros ?]
    | apply preserves_lift; exact Hr
    | apply preserves_ret; exact Hr
    | apply preserves_when; [exact Hr|] ].
  match goal with
  | |- context [build_engine ext ?n ?c] => destruct (build_engine ext n c) as [engine|]
  end; [|apply preserves_raise; exact Hr].
  unfold _serialize_engine.
  apply preserves_bind; [exact Ht | | intros ?].
  - apply unchanged_outside_of_trace, same_self_and_files_emit.
  - apply unchanged_outside_write. reflexivity.
Qed.

(** The configured builder of the examples is the one the fluent calls
    produce from a freshly constructed builder. *)
Example ready_world_by_fluent_calls :
  (shard 2 1 2 2 ;;
   with_quantization_profile stub 0 None ;;
   with_generation_profile 1 (Some 100) (Some 10) None ;;
   with_sampling_strategy 1) fresh_world
  = (Return ready_builder, ready_world).
Proof. reflexivity. Qed.

(** C10: with the interchange-format export flag unset, a rank whose build
    returns has written exactly its own engine file
    [{model_type}_{dtype}_tp{tp}_rank{rank}.engine], on top of the HuggingFace
    configuration, the timing cache and the builder configuration when, and
    only when, its rank is 0; and a rank other than 0 leaves every other path
    of the file system as it was, whether its build returns or raises. *)
Theorem only_rank_zero_writes_metadata ext shard output_path opt_level is_parallel w :
  parse_flag_from_env ext "OPTIMUM_NVIDIA_OUTPUT_ONNX_IR" false = false ->
  let run := _build_engine_for_rank ext shard output_path opt_level is_parallel w in
  (forall w',
     run = (Return tt, w') ->
     exists model_type build_config engine,
       _model_config (self w) !! "model_type" = Some model_type
       /\ files w'
          = write_file (engine_path (self w) model_type shard output_path) engine
              (if rank shard =? 0
               then rank0_files ext (_model_config (self w)) build_config output_path
                      (files w)
               else files w))
  /\ (rank shard <> 0 ->
      forall p,
        (forall model_type,
           _model_config (self w) !! "model_type" = Some model_type ->
           p <> engine_path (self w) model_type shard output_path) ->
        files (snd run) !! p = files w !! p).
Proof.
  intros Hflag run. split.
  - intros w' Hrun.
    destruct (build_engine_for_rank_files ext shard output_path opt_level is_parallel
                w w' Hflag Hrun) as (model_type & build_config & engine & Hmt & _ & Hf).
    exists model_type, build_config, engine. split; assumption.
  - intros Hrank p Hp.
    exact (nonzero_rank_frame ext shard output_path opt_level is_parallel w p
             Hflag Hrank Hp).
Qed.

Lemma only_rank_zero_writes_metadata_witness :
  let run1 := _build_engine_for_rank stub (mkShard 2 1 2 2 1) ["out"] None false
                ready_world in
  let run0 := _build_engine_for_rank stub (mkShard 2 0 2 2 1) ["out"] None false
                ready_world in
  (exists model_type (build_config : BuilderConfig) engine,
     _model_config ready_builder !! "model_type" = Some model_type
     /\ files (snd run1)
        = write_file (engine_path ready_builder model_type (mkShard 2 1 2 2 1) ["out"])
            engine (files ready_world))
  /\ (exists model_type build_config engine,
        _model_config ready_builder !! "model_type" = Some model_type
        /\ files (snd run0)
           = write_file (engine_path ready_builder model_type (mkShard 2 0 2 2 1) ["out"])
               engine
               (rank0_files stub example_config build_config ["out"] (files ready_world)))
  /\ files (snd run1) !! ["out"; "config.json"] = files ready_world !! ["out"; "config.json"].
Proof.
  cbv zeta. split; [|split].
  - apply (proj1 (only_rank_zero_writes_metadata stub (mkShard 2 1 2 2 1) ["out"] None
                    false ready_world eq_refl)).
    vm_compute. reflexivity.
  - apply (proj1 (only_rank_zero_writes_metadata stub (mkShard 2 0 2 2 1) ["out"] None
                    false ready_world eq_refl)).
    vm_compute. reflexivity.
  - apply (proj2 (only_rank_zero_writes_metadata stub (mkShard 2 1 2 2 1) ["out"] None
                    false ready_world eq_refl)).
    + discriminate.
    + intros model_type Hmt. vm_compute in Hmt. injection Hmt as <-.
      vm_compute. discriminate.
Defined.

(** C10, as first stated, fails: with [OPTIMUM_NVIDIA_OUTPUT_ONNX_IR] set,
    the shard of rank 1 returns having written [model.onnx] next to its engine
    file. *)
Lemma nonzero_rank_writes_onnx_export :
  let run := _build_engine_for_rank stub_onnx (mkShard 2 1 2 2 1) ["out"] None false
               ready_world in
  fst run = Return tt
  /\ files ready_world !! ["out"; "model.onnx"] = None
  /\ files (snd run) !! ["out"; "model.onnx"]
     = Some (File (list_byte_of_string "llama_float16_tp2_rank1.engine"))
  /\ ["out"; "model.onnx"]
     <> engine_path ready_builder (VStr "llama") (mkShard 2 1 2 2 1) ["out"].
Proof.
  cbv zeta. split; [vm_compute; reflexivity|]. split; [vm_compute; reflexivity|].
  split; [vm_compute; reflexivity|]. vm_compute. discriminate.
Qed.

(** ** Serial and parallel dispatch *)

(** The call of [Pool.map] never binds its arguments. *)
Lemma Pool_map_call_raises shard w :
  Pool_map_call shard w
  = (Raise (mkExn TypeError "Pool.map() got an unexpected keyword argument 'is_parallel'"),
     w).
Proof. reflexivity. Qed.

(** [_build_parallel] raises a [TypeError] in every world and for every list
    of shards, before any engine is built: the builder and the files are as
    they were. *)
Lemma build_parallel_raises shard_info output_path opt_level w :
  exists msg w',
    _build_parallel shard_info output_path opt_level w = (Raise (mkExn TypeError msg), w')
    /\ self w' = self w /\ files w' = files w.
Proof.
  unfold _build_parallel, bind, get_self.
  destruct (num_parallel_jobs (_build_info (self w)) >? 1) eqn:Hjobs.
  - cbn [num_jobs_gt lift].
    destruct (num_parallel_jobs (_build_info (self w)) >? Z.of_nat (length shard_info))
      eqn:Hmore.
    + cbn. eexists _, _. split; [reflexivity | split; reflexivity].
    + cbn [Pool]. replace (num_parallel_jobs (_build_info (self w)) <? 1) with false by lia.
      cbn [emit].
      destruct shard_info as [|shard rest];
        [exfalso; change (Z.of_nat (length [])) with 0 in Hmore; lia|].
      unfold with_exit. cbn [for_each]. unfold bind at 1.
      rewrite Pool_map_call_raises. cbn.
      eexists _, _. split; [reflexivity | split; reflexivity].
  - cbn. eexists _, _. split; [reflexivity | split; reflexivity].
Qed.

(** C3: on a builder configured for two shards, serial dispatch returns
    having written one engine file per rank, while parallel dispatch raises a
    [TypeError] and writes no engine file, both with the default build
    description (where [sched_getaffinity(0)], a set, is compared with a
    number) and with two parallel jobs (where [Pool.map] is passed keywords it
    does not have). *)
Theorem parallel_dispatch_writes_no_engine :
  let serial := _build_serial stub two_shards ["out"] None ready_world in
  let par_default := _build_parallel two_shards ["out"] None ready_world in
  let par_two_jobs := _build_parallel two_shards ["out"] None parallel_world in
  let engine0 := ["out"; "llama_float16_tp2_rank0.engine"] in
  let engine1 := ["out"; "llama_float16_tp2_rank1.engine"] in
  (fst serial = Return tt
   /\ files (snd serial) !! engine0
      = Some (File (list_byte_of_string "llama_float16_tp2_rank0.engine"))
   /\ files (snd serial) !! engine1
      = Some (File (list_byte_of_string "llama_float16_tp2_rank1.engine")))
  /\ (fst par_default
      = Raise (mkExn TypeError "'>' not supported between instances of 'set' and 'int'")
      /\ files (snd par_default) !! engine0 = None
      /\ files (snd par_default) !! engine1 = None)
  /\ (fst par_two_jobs
      = Raise (mkExn TypeError "Pool.map() got an unexpected keyword argument 'is_parallel'")
      /\ files (snd par_two_jobs) !! engine0 = None
      /\ files (snd par_two_jobs) !! engine1 = None).
Proof.
  cbv zeta. repeat split; vm_compute; reflexivity.
Qed.

(** ** The pipeline factory *)

(** C4: [pipeline] raises [NotImplementedError] naming only the model type
    when the resolved model type is not registered; when the model type is
    registered but the task is not registered for it, it raises a [ValueError]
    naming the task and the model type. *)
Theorem pipeline_rejects_unregistered loaders task model_or_path tokenizer kwargs model_type :
  Pipelines.config_model_type loaders model_or_path = Return model_type ->
  (Pipelines.SUPPORTED_MODEL_WITH_TASKS !! model_type = None ->
   Pipelines.pipeline loaders task model_or_path tokenizer kwargs
   = Raise (mkExn NotImplementedError
              ("Model type " +:+ model_type +:+ " is not currently supported")))
  /\ (forall tasks,
        Pipelines.SUPPORTED_MODEL_WITH_TASKS !! model_type = Some tasks ->
        tasks !! task = None ->
        Pipelines.pipeline loaders task model_or_path tokenizer kwargs
        = Raise (mkExn ValueError
                   ("Task " +:+ task +:+ " is not supported yet for "
                    +:+ model_type +:+ "."))).
Proof.
  intros Hcfg. unfold Pipelines.pipeline. rewrite Hcfg. split.
  - intros Hnone. rewrite Hnone. reflexivity.
  - intros tasks Hsome Htask. rewrite Hsome, Htask. reflexivity.
Qed.

Lemma pipeline_rejects_unregistered_witness :
  Pipelines.pipeline gpt2_loaders "text-generation" (Pipelines.ModelId "gpt2") None []
  = Raise (mkExn NotImplementedError "Model type gpt2 is not currently supported")
  /\ Pipelines.pipeline llama_loaders "fill-mask" (Pipelines.ModelId "llama") None []
     = Raise (mkExn ValueError "Task fill-mask is not supported yet for llama.").
Proof.
  split.
  - apply (proj1 (pipeline_rejects_unregistered gpt2_loaders "text-generation"
                    (Pipelines.ModelId "gpt2") None [] "gpt2" eq_refl)).
    vm_compute. reflexivity.
  - apply (proj2 (pipeline_rejects_unregistered llama_loaders "fill-mask"
                    (Pipelines.ModelId "llama") None [] "llama" eq_refl)
             {[ "text-generation" :=
                  (Pipelines.TextGenerationPipeline, Pipelines.AutoModelForCausalLM) ]}).
    + vm_compute. reflexivity.
    + vm_compute. reflexivity.
Defined.

(** C4, as first stated, fails: for the registered model type [llama] and
    the unregistered task [fill-mask] the error is not a
    [NotImplementedError], and its message does not list the supported task
    [text-generation]. *)
Lemma unregistered_task_is_a_ValueError :
  Pipelines.SUPPORTED_MODEL_WITH_TASKS !! "llama"
  = Some {[ "text-generation" :=
              (Pipelines.TextGenerationPipeline, Pipelines.AutoModelForCausalLM) ]}
  /\ (exists msg,
        Pipelines.pipeline llama_loaders "fill-mask" (Pipelines.ModelId "llama") None []
        = Raise (mkExn ValueError msg)
        /\ contains msg "text-generation" = false)
  /\ ~ (exists msg,
          Pipelines.pipeline llama_loaders "fill-mask" (Pipelines.ModelId "llama") None []
          = Raise (mkExn NotImplementedError msg)).
Proof.
  split; [vm_compute; reflexivity|]. split.
  - eexists. split; vm_compute; reflexivity.
  - intros [msg H]. vm_compute in H. discriminate H.
Qed.

Example pipeline_for_llama :
  Pipelines.pipeline llama_loaders "text-generation" (Pipelines.ModelId "llama") None []
  = Return (Pipelines.mkPipeline Pipelines.TextGenerationPipeline
              (Pipelines.LoadedModel Pipelines.AutoModelForCausalLM
                 (Pipelines.ModelId "llama") [])
              (Pipelines.LoadedTokenizer "llama")).
Proof. reflexivity. Qed.

(** * Further properties *)

(** ** More on [validate] *)

Lemma validate_as_profile_check w :
  validate w =
  match _optimization_profile (self w) with
  | None => (Raise (mkExn ValueError no_profile_message), defaulted_qconfig w)
  | Some optim_profile =>
      validate_profile optim_profile (_model_config (self w)) (defaulted_qconfig w)
  end.
Proof.
  rewrite validate_unfold. cbv zeta.
  rewrite defaulted_qconfig_profile, defaulted_qconfig_config. reflexivity.
Qed.

(** Whether the profile passes depends on the profile and the configuration
    alone; a failure leaves the world as it was, a success defaults the beam
    width. *)
Lemma validate_profile_run p config :
  exists failure : option Exn,
    forall w1,
      validate_profile p config w1 =
      match failure with
      | Some e => (Raise e, w1)
      | None => (Return true, defaulted_beam w1)
      end.
Proof.
  unfold validate_profile.
  unfold bind at 1. unfold lift at 1, getitem.
  destruct (config !! "max_position_embeddings") as [msl|];
    [|eexists (Some _); intros w1; reflexivity].
  unfold bind at 1. unfold lift at 1, ranges, py_sub.
  destruct (py_as_int msl) as [m|] eqn:Hm; [|eexists (Some _); intros w1; reflexivity].
  destruct p as [b [pl|] [nt|] ol]; cbn [opt_add max_prompt_length max_new_tokens];
    try (eexists (Some _); intros w1; reflexivity).
  cbv [for_each bind check_range lift raise ret OptimizationProfile_getattr
       String.eqb Ascii.eqb Bool.eqb
       max_batch_size max_prompt_length max_new_tokens max_output_length
       opt_lt opt_gt_val opt_gt].
  assert (Hm' : forall k, py_as_int (VInt k) = Some k) by reflexivity.
  rewrite !Hm', !Hm. clear Hm'.
  destruct (b <? 1); [eexists (Some _); intros w1; reflexivity|].
  destruct (pl <? 1); [eexists (Some _); intros w1; reflexivity|].
  destruct (pl >? m - 1); [eexists (Some _); intros w1; reflexivity|].
  destruct (nt <? 1); [eexists (Some _); intros w1; reflexivity|].
  destruct (nt >? m - 1); [eexists (Some _); intros w1; reflexivity|].
  destruct ol as [ol|]; [|eexists (Some _); intros w1; reflexivity].
  destruct (ol <? pl + nt) eqn:Hlo; [eexists (Some _); intros w1; reflexivity|].
  destruct (ol >? m) eqn:Hhi; [eexists (Some _); intros w1; reflexivity|].
  assert (Hsum : (pl + nt >? m) = false) by lia.
  rewrite Hsum. exists None. intros w1.
  cbv [when get_self defaulted_beam warning emit modify_self ret bind].
  destruct (_beam_width (self w1) <? 1); reflexivity.
Qed.

Lemma defaulted_beam_self_fields w :
  _qconfig (self (defaulted_beam w)) = _qconfig (self w)
  /\ _optimization_profile (self (defaulted_beam w)) = _optimization_profile (self w)
  /\ _model_config (self (defaulted_beam w)) = _model_config (self w)
  /\ (_beam_width (self (defaulted_beam w)) <? 1) = false.
Proof.
  unfold defaulted_beam. destruct (_beam_width (self w) <? 1) eqn:Hb; cbn; auto.
Qed.

Lemma defaulted_qconfig_not_None w : _qconfig (self (defaulted_qconfig w)) <> VNone.
Proof.
  unfold defaulted_qconfig. destruct (_qconfig (self w)) eqn:Hq; cbn; congruence.
Qed.

Lemma defaulted_qconfig_fixed w : _qconfig (self w) <> VNone -> defaulted_qconfig w = w.
Proof.
  unfold defaulted_qconfig. destruct (_qconfig (self w)); congruence.
Qed.

Lemma defaulted_beam_fixed w : (_beam_width (self w) <? 1) = false -> defaulted_beam w = w.
Proof. unfold defaulted_beam. intros ->. reflexivity. Qed.

(** [validate] changes nothing but its two defaults.  When it raises, the
    world is the one it started in with the quantization descriptor defaulted;
    when it returns, it returns [True] and the beam width is defaulted as well.
    The files, the profile, the sharding and every other field are as before. *)
Theorem validate_applies_only_its_defaults w :
  (exists e, validate w = (Raise e, defaulted_qconfig w))
  \/ validate w = (Return true, defaulted_beam (defaulted_qconfig w)).
Proof.
  rewrite validate_as_profile_check.
  destruct (_optimization_profile (self w)) as [p|]; [|left; eexists; reflexivity].
  destruct (validate_profile_run p (_model_config (self w))) as [[e|] Hrun];
    rewrite Hrun; [left; eexists; reflexivity | right; reflexivity].
Qed.

(** Once [validate] has returned, calling it again returns [True] again,
    changes nothing and logs nothing. *)
Theorem validate_twice w w' :
  validate w = (Return true, w') -> validate w' = (Return true, w').
Proof.
  intros Hrun. rewrite validate_as_profile_check in Hrun.
  destruct (_optimization_profile (self w)) as [p|] eqn:Hp; [|discriminate Hrun].
  destruct (validate_profile_run p (_model_config (self w))) as [[e|] Hcheck];
    rewrite Hcheck in Hrun; [discriminate Hrun|].
  injection Hrun as <-.
  set (w1 := defaulted_qconfig w) in *.
  destruct (defaulted_beam_self_fields w1) as (Hq & Hprof & Hcfg & Hbeam).
  rewrite validate_as_profile_check.
  rewrite (defaulted_qconfig_fixed (defaulted_beam w1))
    by (rewrite Hq; apply defaulted_qconfig_not_None).
  rewrite Hprof, Hcfg. unfold w1 at 1 2.
  rewrite defaulted_qconfig_profile, defaulted_qconfig_config, Hp.
  rewrite Hcheck. rewrite (defaulted_beam_fixed _ Hbeam). reflexivity.
Qed.

Lemma validate_twice_witness :
  validate (snd (validate ready_world)) = (Return true, snd (validate ready_world)).
Proof. apply (validate_twice ready_world). vm_compute. reflexivity. Defined.

(** For a profile of integers and an integer maximum sequence length,
    [validate] returns exactly when every field is within its range. *)
Theorem validate_returns_iff_within_ranges w b pl nt ol msl :
  _optimization_profile (self w)
    = Some (mkOptimizationProfile b (Some pl) (Some nt) (Some ol)) ->
  _model_config (self w) !! "max_position_embeddings" = Some (VInt msl) ->
  (exists w', validate w = (Return true, w')) <-> within_ranges b pl nt ol msl.
Proof.
  intros Hp Hc. rewrite (validate_int_profile w b pl nt ol msl Hp Hc).
  unfold range_violation, within_ranges.
  destruct (b <? 1) eqn:?; [split; [intros [? [=]] | lia]|].
  destruct (pl <? 1) eqn:?; [split; [intros [? [=]] | lia]|].
  destruct (pl >? msl - 1) eqn:?; [split; [intros [? [=]] | lia]|].
  destruct (nt <? 1) eqn:?; [split; [intros [? [=]] | lia]|].
  destruct (nt >? msl - 1) eqn:?; [split; [intros [? [=]] | lia]|].
  destruct (ol <? pl + nt) eqn:?; [split; [intros [? [=]] | lia]|].
  destruct (ol >? msl) eqn:?; [split; [intros [? [=]] | lia]|].
  split; [lia | intros _; eexists; reflexivity].
Qed.

Lemma validate_returns_iff_within_ranges_witness :
  (exists w', validate ready_world = (Return true, w')) <-> within_ranges 1 100 10 110 120.
Proof.
  apply (validate_returns_iff_within_ranges ready_world 1 100 10 110 120); reflexivity.
Defined.

(** A generation profile that leaves [max_prompt_length] or [max_new_tokens]
    unset cannot be validated: whatever the other arguments, [validate] raises
    a [TypeError] while it builds its table of ranges, before any range is
    checked. *)
Theorem unset_length_is_a_TypeError w batch pl nt ol :
  pl = None \/ nt = None ->
  is_Some (_model_config (self w) !! "max_position_embeddings") ->
  exists msg w',
    (with_generation_profile batch pl nt ol ;; validate) w
    = (Raise (mkExn TypeError msg), w').
Proof.
  intros Hnone [msl Hc]. unfold bind. rewrite with_generation_profile_run. cbv zeta.
  cbv beta iota. rewrite validate_as_profile_check.
  cbn [self _optimization_profile set_optimization_profile _model_config].
  unfold validate_profile. unfold bind at 1. unfold lift at 1, getitem. rewrite Hc.
  unfold bind at 1. unfold lift at 1, ranges, py_sub, unsupported_operand.
  destruct (py_as_int msl); [|eexists _, _; reflexivity].
  cbn [max_prompt_length max_new_tokens].
  destruct Hnone as [-> | ->].
  - destruct nt; destruct ol; cbn; eexists _, _; reflexivity.
  - destruct pl; destruct ol; cbn; eexists _, _; reflexivity.
Qed.

Lemma unset_length_is_a_TypeError_witness :
  exists msg w',
    (with_generation_profile 0 None None None ;; validate) fresh_world
    = (Raise (mkExn TypeError msg), w').
Proof.
  apply (unset_length_is_a_TypeError fresh_world 0 None None None).
  - left. reflexivity.
  - eexists. reflexivity.
Defined.

(** With a profile set, [validate] needs [max_position_embeddings] in the
    model configuration: a missing key is a [KeyError] naming it, and an entry
    that is not a number is a [TypeError]. *)
Theorem validate_needs_max_position_embeddings w p :
  _optimization_profile (self w) = Some p ->
  (_model_config (self w) !! "max_position_embeddings" = None ->
   validate w
   = (Raise (mkExn KeyError "'max_position_embeddings'"), defaulted_qconfig w))
  /\ (forall v,
        _model_config (self w) !! "max_position_embeddings" = Some v ->
        py_as_int v = None ->
        exists msg, validate w = (Raise (mkExn TypeError msg), defaulted_qconfig w)).
Proof.
  intros Hp. rewrite validate_as_profile_check, Hp. unfold validate_profile. split.
  - intros Hnone. unfold bind at 1. unfold lift at 1, getitem. rewrite Hnone. reflexivity.
  - intros v Hv Hint. unfold bind at 1. unfold lift at 1, getitem. rewrite Hv.
    unfold bind at 1. unfold lift at 1, ranges, py_sub. rewrite Hint.
    eexists. reflexivity.
Qed.

Lemma validate_needs_max_position_embeddings_witness :
  validate no_length_world
  = (Raise (mkExn KeyError "'max_position_embeddings'"), defaulted_qconfig no_length_world)
  /\ exists msg,
       validate text_length_world
       = (Raise (mkExn TypeError msg), defaulted_qconfig text_length_world).
Proof.
  split.
  - apply (proj1 (validate_needs_max_position_embeddings no_length_world _ eq_refl)).
    vm_compute. reflexivity.
  - apply (proj2 (validate_needs_max_position_embeddings text_length_world _ eq_refl)
             (VStr "2048")).
    + vm_compute. reflexivity.
    + reflexivity.
Defined.

Lemma str_of_Z_inj a b : str_of_Z a = str_of_Z b -> a = b.
Proof.
  unfold str_of_Z. intros H.
  apply (f_equal NilZero.int_of_string) in H.
  assert (Hnn : forall z, Z.to_int z <> Decimal.Pos Decimal.Nil
                          /\ Z.to_int z <> Decimal.Neg Decimal.Nil).
  { intros [|p|p]; cbn; split; try discriminate; intros [= E];
      exact (DecimalPos.Unsigned.to_uint_nonnil p E). }
  rewrite !NilZero.isi in H by apply Hnn.
  injection H as H. apply DecimalZ.to_int_inj, H.
Qed.

(** C5: a profile field outside its bound is not always reported by a
    [ValueError] naming it.  After [with_generation_profile(0)], which leaves
    both lengths unset, [validate] raises a [TypeError] while it builds its
    table of ranges, before [max_batch_size] is compared with its bound, and
    the batch size is not reported at all.  With both lengths given, the same
    batch size is reported by the [ValueError] the loop was written for. *)
Theorem zero_batch_size_is_masked_by_a_TypeError w msl :
  _model_config (self w) !! "max_position_embeddings" = Some (VInt msl) ->
  (exists w',
     (with_generation_profile 0 None None None ;; validate) w
     = (Raise (mkExn TypeError
                 "unsupported operand type(s) for +: 'NoneType' and 'NoneType'"), w'))
  /\ (forall pl nt,
        exists w',
          (with_generation_profile 0 (Some pl) (Some nt) None ;; validate) w
          = (Raise (mkExn ValueError
                      "Invalid value (0) for max_batch_size. Needs to be >= 1"), w')).
Proof.
  intros Hc. split.
  - unfold bind. rewrite with_generation_profile_run. cbv zeta.
    cbv beta iota. rewrite validate_as_profile_check.
    cbn [self _optimization_profile set_optimization_profile _model_config].
    unfold validate_profile. unfold bind at 1. unfold lift at 1, getitem. rewrite Hc.
    eexists. reflexivity.
  - intros pl nt. unfold bind. rewrite with_generation_profile_run. cbv zeta.
    cbv beta iota.
    erewrite validate_int_profile; [| reflexivity | exact Hc].
    eexists. reflexivity.
Qed.

Lemma zero_batch_size_is_masked_by_a_TypeError_witness :
  fst ((with_generation_profile 0 None None None ;; validate) fresh_world)
  = Raise (mkExn TypeError "unsupported operand type(s) for +: 'NoneType' and 'NoneType'")
  /\ fst ((with_generation_profile 0 (Some 100) (Some 10) None ;; validate) fresh_world)
     = Raise (mkExn ValueError "Invalid value (0) for max_batch_size. Needs to be >= 1").
Proof.
  destruct (zero_batch_size_is_masked_by_a_TypeError fresh_world 120 eq_refl)
    as [[w1 H1] H2].
  destruct (H2 100 10) as [w2 H3].
  rewrite H1, H3. split; reflexivity.
Defined.

(** ** Engine names *)

Lemma string_app_cons c (a b : string) : String c a +:+ b = String c (a +:+ b).
Proof. reflexivity. Qed.

Lemma string_length_app (a b : string) :
  String.length (a +:+ b) = (String.length a + String.length b)%nat.
Proof.
  induction a as [|c a IH]; [reflexivity|].
  rewrite string_app_cons. cbn [String.length]. rewrite IH. reflexivity.
Qed.

Lemma string_app_inj_r (s a b : string) : a +:+ s = b +:+ s -> a = b.
Proof.
  revert b. induction a as [|c a IH]; intros [|d b] H.
  - reflexivity.
  - apply (f_equal String.length) in H. rewrite !string_length_app in H.
    cbn [String.length] in H. lia.
  - apply (f_equal String.length) in H. rewrite !string_length_app in H.
    cbn [String.length] in H. lia.
  - rewrite !string_app_cons in H. injection H as -> H. f_equal. apply IH, H.
Qed.

Lemma engine_name_inj identifier dtype tp r r' :
  create_unique_engine_name identifier dtype r tp
  = create_unique_engine_name identifier dtype r' tp -> r = r'.
Proof.
  unfold create_unique_engine_name. intros H.
  repeat apply String.app_inj in H.
  apply string_app_inj_r in H. apply str_of_Z_inj, H.
Qed.

(** Engine files of one model, data type and tensor-parallel degree are
    named apart by rank: two ranks with the same engine name are equal.  The
    same holds for the calibration file names. *)
Theorem engine_names_differ_by_rank identifier dtype tp r r' :
  (create_unique_engine_name identifier dtype r tp
   = create_unique_engine_name identifier dtype r' tp -> r = r')
  /\ (create_npz_calibration_filename identifier r tp
      = create_npz_calibration_filename identifier r' tp -> r = r').
Proof.
  split.
  - apply engine_name_inj.
  - unfold create_npz_calibration_filename. intros H.
    repeat apply String.app_inj in H.
    apply string_app_inj_r in H. apply str_of_Z_inj, H.
Qed.

Lemma engine_names_differ_by_rank_witness :
  7 = 3 + 4
  /\ create_unique_engine_name "llama" "float16" 0 2
     <> create_unique_engine_name "llama" "float16" 1 2.
Proof.
  split.
  - apply (proj1 (engine_names_differ_by_rank "llama" "float16" 2 7 (3 + 4))). reflexivity.
  - intros H. apply (proj1 (engine_names_differ_by_rank "llama" "float16" 2 0 1)) in H.
    discriminate H.
Defined.

(** ** [create_builder_config] *)

Lemma ready_to_build_keys b k :
  ready_to_build b -> In k required_keys -> exists v, _model_config b !! k = Some v.
Proof.
  intros (_ & _ & Hkeys) Hin. rewrite Forall_forall in Hkeys.
  destruct (Hkeys k) as [v Hv]; [apply list_elem_of_In, Hin | exists v; exact Hv].
Qed.

Lemma create_builder_config_run ext shard is_parallel opt_level w mode p :
  _qconfig (self w) = VQuantMode mode ->
  _optimization_profile (self w) = Some p ->
  Forall (fun k => is_Some (_model_config (self w) !! k)) required_keys ->
  create_builder_config ext shard is_parallel opt_level w
  = (Return (builder_config_of ext (self w) mode p shard is_parallel opt_level),
     config_created w).
Proof.
  intros Hq Hp Hkeys. unfold required_keys in Hkeys.
  repeat match goal with
         | H : Forall _ (_ :: _) |- _ => apply Forall_cons in H; destruct H as [[? ?] H]
         end.
  unfold create_builder_config, builder_config_of, config_created, profile_for,
    bind, get_self, lift, getitem, ret, emit.
  cbn [self files events].
  repeat match goal with H : _ !! _ = Some _ |- _ => rewrite H; clear H end.
  rewrite Hq. repeat (rewrite Hp; cbv beta iota). reflexivity.
Qed.

(** Splits a computation that returned at a subscript of the configuration. *)
Ltac key_step H :=
  let Hs := fresh "Hs" in
  let v := fresh "v" in
  let wn := fresh "wn" in
  apply bind_Return_inv in H; destruct H as (v & wn & Hs & H);
  unfold lift, getitem in Hs;
  match type of Hs with
  | context [?m !! ?k] => destruct (m !! k) eqn:?; [|discriminate Hs]
  end;
  injection Hs as <- <-.

Lemma create_builder_config_ready ext shard is_parallel opt_level w bc w' :
  create_builder_config ext shard is_parallel opt_level w = (Return bc, w') ->
  ready_to_build (self w).
Proof.
  intros Hrun. unfold create_builder_config in Hrun.
  step Hrun H0 self_ w0. unfold get_self in H0. injection H0 as <- <-.
  key_step Hrun.
  step Hrun Hq fp8_ w1. unfold lift, call_has_fp8_qdq in Hq.
  destruct (_qconfig (self w)) as [| | | |mode| |] eqn:Hmode; try discriminate Hq.
  injection Hq as <- <-.
  key_step Hrun. key_step Hrun.
  step Hrun Hprof prof1 w2. unfold profile_for, bind, get_self in Hprof.
  destruct (_optimization_profile (self w)) as [prof|] eqn:Hp; [|discriminate Hprof].
  unfold ret in Hprof. injection Hprof as <- <-.
  key_step Hrun. key_step Hrun. key_step Hrun. key_step Hrun.
  step Hrun Hprof2 prof2 w3. step Hrun Hprof3 prof3 w4. step Hrun Hq2 st w5.
  unfold profile_for, bind, get_self in Hprof2, Hprof3. rewrite Hp in Hprof2.
  unfold ret in Hprof2. injection Hprof2 as <- <-. rewrite Hp in Hprof3.
  unfold ret in Hprof3. injection Hprof3 as <- <-.
  unfold lift in Hq2. injection Hq2 as <- <-.
  key_step Hrun.
  split; [exists mode; exact Hmode|]. split; [eexists; exact Hp|].
  unfold required_keys. repeat (apply Forall_cons; split; [eexists; eassumption|]).
  apply Forall_nil. exact I.
Qed.

(** [create_builder_config] returns exactly on a builder whose quantization
    descriptor is a [QuantMode], whose profile is set and whose configuration
    has the seven keys it subscripts; otherwise it raises. *)
Theorem create_builder_config_returns_iff ext shard is_parallel opt_level w :
  (exists bc w', create_builder_config ext shard is_parallel opt_level w = (Return bc, w'))
  <-> ready_to_build (self w).
Proof.
  split.
  - intros (bc & w' & Hrun). exact (create_builder_config_ready _ _ _ _ _ _ _ Hrun).
  - intros ([mode Hq] & [p Hp] & Hkeys).
    eexists _, _. exact (create_builder_config_run ext shard is_parallel opt_level w
                           mode p Hq Hp Hkeys).
Qed.

(** What [create_builder_config] hands to the external builder: [fp8] and
    [strongly_typed] are both the fp8-qdq bit of the mode; [num_kv_heads] is
    [num_key_value_heads] when the configuration has it and
    [num_attention_heads] otherwise; the parallelism degrees are the shard's;
    the input and output lengths are the profile's, while [max_num_tokens] is
    [None] whatever [max_new_tokens] is.  The builder and the files stay as
    they were. *)
Theorem builder_config_keywords ext shard is_parallel opt_level w bc w' :
  create_builder_config ext shard is_parallel opt_level w = (Return bc, w') ->
  exists mode p,
    _qconfig (self w) = VQuantMode mode
    /\ _optimization_profile (self w) = Some p
    /\ kwarg bc "fp8" = Some (VBool (has_fp8_qdq ext mode))
    /\ kwarg bc "strongly_typed" = Some (VBool (has_fp8_qdq ext mode))
    /\ kwarg bc "quant_mode" = Some (VQuantMode mode)
    /\ kwarg bc "num_kv_heads"
       = match _model_config (self w) !! "num_key_value_heads" with
         | Some v => Some v
         | None => _model_config (self w) !! "num_attention_heads"
         end
    /\ kwarg bc "tensor_parallel" = Some (VInt (tp_size shard))
    /\ kwarg bc "pipeline_parallel" = Some (VInt (pp_size shard))
    /\ kwarg bc "parallel_build" = Some (VBool is_parallel)
    /\ kwarg bc "max_batch_size" = Some (VInt (max_batch_size p))
    /\ kwarg bc "max_input_len" = Some (py_of_opt (max_prompt_length p))
    /\ kwarg bc "max_output_len" = Some (py_of_opt (max_output_length p))
    /\ kwarg bc "max_num_tokens" = Some VNone
    /\ self w' = self w /\ files w' = files w.
Proof.
  intros Hrun.
  pose proof (create_builder_config_ready _ _ _ _ _ _ _ Hrun) as Hready.
  destruct Hready as ([mode Hq] & [p Hp] & Hkeys).
  rewrite (create_builder_config_run ext shard is_parallel opt_level w mode p Hq Hp Hkeys)
    in Hrun.
  injection Hrun as <- <-.
  exists mode, p. repeat (split; [first [assumption | reflexivity]|]).
  split; [|split; [|split; [|split; [|split; [|split; [|split; [|split; [|split]]]]]]]];
    try reflexivity.
  destruct (ready_to_build_keys (self w) "num_attention_heads") as [v Hv];
    [split; [exists mode; exact Hq | split; [exists p; exact Hp | exact Hkeys]]
    | cbn; tauto |].
  unfold kwarg, builder_config_of. cbn. rewrite Hv.
  destruct (_model_config (self w) !! "num_key_value_heads"); reflexivity.
Qed.

Lemma builder_config_keywords_witness :
  exists bc,
    fst (create_builder_config stub (mkShard 2 1 2 2 1) true (Some 3) ready_world)
    = Return bc
    /\ kwarg bc "num_kv_heads" = Some (VInt 32)
    /\ kwarg bc "parallel_build" = Some (VBool true)
    /\ kwarg bc "max_num_tokens" = Some VNone.
Proof.
  destruct (create_builder_config stub (mkShard 2 1 2 2 1) true (Some 3) ready_world)
    as [[bc|e] w'] eqn:Hrun; [|vm_compute in Hrun; discriminate Hrun].
  exists bc. split; [reflexivity|].
  destruct (builder_config_keywords _ _ _ _ _ _ _ Hrun)
    as (mode & p & _ & _ & _ & _ & _ & Hkv & _ & _ & Hpar & _ & _ & _ & Hnum & _).
  split; [rewrite Hkv; reflexivity|]. split; assumption.
Defined.

(** ** The build of one rank, step by step *)

Lemma bind_Return {A B} (c : M A) (k : A -> M B) w a w1 :
  c w = (Return a, w1) -> bind c k w = k a w1.
Proof. intros H. unfold bind. rewrite H. reflexivity. Qed.

Lemma bind_Raise {A B} (c : M A) (k : A -> M B) w e w1 :
  c w = (Raise e, w1) -> bind c k w = (Raise e, w1).
Proof. intros H. unfold bind. rewrite H. reflexivity. Qed.

(** Runs the first step of a computation, given that it returns. *)
Ltac next tac := erewrite bind_Return; [| tac ].

Lemma profile_for_run attr w p :
  _optimization_profile (self w) = Some p -> profile_for attr w = (Return p, w).
Proof. intros Hp. unfold profile_for, bind, get_self. rewrite Hp. reflexivity. Qed.

Lemma prepare_inputs_run w p :
  _optimization_profile (self w) = Some p ->
  is_Some (_model_config (self w) !! "max_position_embeddings") ->
  prepare_inputs w = (Return (inputs_of (self w) p), w).
Proof.
  intros Hp [v Hv]. unfold prepare_inputs, inputs_of.
  next ltac:(reflexivity).
  next ltac:(apply profile_for_run; exact Hp).
  next ltac:(apply profile_for_run; exact Hp).
  next ltac:(unfold lift, getitem; rewrite Hv; reflexivity).
  next ltac:(apply profile_for_run; exact Hp).
  rewrite Hv. reflexivity.
Qed.

Lemma build_engine_for_rank_run ext shard output_path opt_level is_parallel w
    mode p model_type adapter :
  _qconfig (self w) = VQuantMode mode ->
  _optimization_profile (self w) = Some p ->
  Forall (fun k => is_Some (_model_config (self w) !! k)) required_keys ->
  _model_config (self w) !! "model_type" = Some model_type ->
  adapter_for model_type = Return adapter ->
  let build_config := builder_config_of ext (self w) mode p shard is_parallel opt_level in
  let network := network_of ext (self w) model_type adapter build_config p shard in
  let fs := files_before_engine ext (self w) network build_config shard output_path
              (files w) in
  let run := _build_engine_for_rank ext shard output_path opt_level is_parallel w in
  self (snd run) = self w
  /\ match build_engine ext network build_config with
     | Some engine =>
         fst run = Return tt
         /\ files (snd run)
            = write_file (engine_path (self w) model_type shard output_path) engine fs
     | None =>
         fst run = Raise (mkExn RuntimeError build_failed_message)
         /\ files (snd run) = fs
     end.
Proof.
  intros Hq Hp Hkeys Hmt Hadapter.
  assert (Hmpe : is_Some (_model_config (self w) !! "max_position_embeddings")).
  { rewrite Forall_forall in Hkeys. apply Hkeys. apply list_elem_of_In. cbn. tauto. }
  cbv zeta. unfold _build_engine_for_rank.
  next ltac:(reflexivity).
  next ltac:(unfold lift, getitem; rewrite Hmt; reflexivity).
  next ltac:(apply (create_builder_config_run ext shard is_parallel opt_level w mode p
                      Hq Hp Hkeys)).
  cbv zeta.
  next ltac:(unfold lift, getitem; rewrite Hmt; reflexivity).
  next ltac:(unfold lift; rewrite Hadapter; reflexivity).
  next ltac:(reflexivity).
  next ltac:(apply (prepare_inputs_run _ p); cbn [self config_created];
             [exact Hp | exact Hmpe]).
  cbn [self config_created debug_outputs_marked].
  unfold files_before_engine.
  fold (network_of ext (self w) model_type adapter
          (builder_config_of ext (self w) mode p shard is_parallel opt_level) p shard).
  set (network := network_of _ _ _ _ _ _ _).
  set (build_config := builder_config_of _ _ _ _ _ _ _).
  destruct (parse_flag_from_env ext "OPTIMUM_NVIDIA_ENABLE_DEBUG_OUTPUTS" false);
    (next ltac:(reflexivity));
    (destruct (parse_flag_from_env ext "OPTIMUM_NVIDIA_OUTPUT_ONNX_IR" false));
    (next ltac:(reflexivity)); (next ltac:(reflexivity)); (next ltac:(reflexivity));
    (destruct (rank shard =? 0)); (next ltac:(reflexivity));
    (destruct (build_engine ext network build_config)); (split; [reflexivity|]);
    split; reflexivity.
Qed.

Lemma fp8_builder_config_of ext b mode p shard is_parallel opt_level :
  fp8 (builder_config_of ext b mode p shard is_parallel opt_level) = has_fp8_qdq ext mode.
Proof. reflexivity. Qed.

Lemma adapter_for_supported model_type adapter :
  adapter_for model_type = Return adapter ->
  (model_type = VStr "llama" \/ model_type = VStr "mistral")
  /\ adapter = "LLaMAForCausalLM".
Proof.
  unfold adapter_for, _MODEL_TYPE_TO_TRT_IMPL.
  destruct (unhashable model_type); [discriminate|].
  destruct model_type as [| | |s| | |]; try discriminate.
  destruct (decide (s = "llama")) as [->|Hl]; [intros [= <-]; auto|].
  destruct (decide (s = "mistral")) as [->|Hm]; [intros [= <-]; auto|].
  rewrite lookup_insert_ne by congruence. rewrite lookup_insert_ne by congruence.
  rewrite lookup_empty. discriminate.
Qed.

Lemma adapter_for_unsupported s :
  s <> "llama" -> s <> "mistral" ->
  adapter_for (VStr s) = Raise (mkExn KeyError (repr_str s)).
Proof.
  intros Hl Hm. destruct (adapter_for (VStr s)) as [adapter|e] eqn:Ha.
  - destruct (adapter_for_supported _ _ Ha) as [[?|?] _]; congruence.
  - revert Ha. unfold adapter_for. cbn [unhashable].
    destruct (_MODEL_TYPE_TO_TRT_IMPL !! s); [discriminate | intros [= <-]; reflexivity].
Qed.

Lemma adapter_for_unhashable model_type t :
  unhashable model_type = Some t ->
  adapter_for model_type = Raise (mkExn TypeError ("unhashable type: '" +:+ t +:+ "'")).
Proof. intros H. unfold adapter_for. rewrite H. reflexivity. Qed.



(** The network a rank compiles: when its build returns, the engine file
    holds the engine the external builder made from a network named after the
    engine file, with the attention plugins, padding removal and no paged
    cache in every case, the GEMM plugin exactly when the mode has no fp8 qdq,
    the NCCL plugin exactly when the world has more than one rank, and weights
    read from the quantized checkpoint exactly when the mode has fp8 qdq and a
    quantized path is recorded. *)
Theorem built_network_plugins ext shard output_path opt_level is_parallel w
    mode p model_type adapter :
  _qconfig (self w) = VQuantMode mode ->
  _optimization_profile (self w) = Some p ->
  Forall (fun k => is_Some (_model_config (self w) !! k)) required_keys ->
  _model_config (self w) !! "model_type" = Some model_type ->
  adapter_for model_type = Return adapter ->
  let build_config := builder_config_of ext (self w) mode p shard is_parallel opt_level in
  let network := network_of ext (self w) model_type adapter build_config p shard in
  let run := _build_engine_for_rank ext shard output_path opt_level is_parallel w in
  let dtype := _dtype (self w) in
  fst run = Return tt ->
  (exists engine,
     build_engine ext network build_config = Some engine
     /\ files (snd run) !! engine_path (self w) model_type shard output_path
        = Some (File engine))
  /\ joinpath output_path (trt_network_name network)
     = engine_path (self w) model_type shard output_path
  /\ In ("gpt_attention_plugin", dtype) (plugin_config network)
  /\ In ("bert_attention_plugin", dtype) (plugin_config network)
  /\ In ("context_fmha", VStr "enabled") (plugin_config network)
  /\ In ("remove_input_padding", VBool true) (plugin_config network)
  /\ In ("paged_kv_cache", VBool false) (plugin_config network)
  /\ (In ("gemm_plugin", dtype) (plugin_config network) <-> has_fp8_qdq ext mode = false)
  /\ (In ("nccl_plugin", dtype) (plugin_config network) <-> 1 < world_size shard)
  /\ model network
     = (match has_fp8_qdq ext mode, quantized_path (_build_info (self w)) with
        | true, Some path => from_checkpoint adapter path
        | _, _ => from_hugging_face adapter (_model_id_or_path (self w)) dtype shard
                    (VQuantMode mode)
        end).
Proof.
  intros Hq Hp Hkeys Hmt Hadapter build_config network run dtype Hret.
  destruct (build_engine_for_rank_run ext shard output_path opt_level is_parallel w
              mode p model_type adapter Hq Hp Hkeys Hmt Hadapter) as [Hself Hrun].
  cbv zeta in Hrun. fold build_config network run in Hrun.
  split.
  { destruct (build_engine ext network build_config) as [engine|].
    - exists engine. split; [reflexivity|]. destruct Hrun as [_ ->].
      unfold write_file. apply lookup_insert_eq.
    - destruct Hrun as [Hraise _]. rewrite Hraise in Hret. discriminate Hret. }
  split; [reflexivity|].
  unfold network, network_of. cbn [plugin_config model].
  fold dtype. unfold build_config. rewrite fp8_builder_config_of, Hq.
  repeat (split; [rewrite !in_app_iff; cbn; tauto|]).
  split; [|split].
  - rewrite !in_app_iff. destruct (has_fp8_qdq ext mode); cbn.
    + split; [|discriminate]. destruct (world_size shard >? 1); cbn;
        intros H; decompose [or] H; first [contradiction | discriminate].
    + split; [reflexivity | tauto].
  - rewrite !in_app_iff. destruct (world_size shard >? 1) eqn:Hws; cbn.
    + split; [lia | tauto].
    + split; [|lia]. destruct (negb (has_fp8_qdq ext mode)); cbn;
        intros H; decompose [or] H; first [contradiction | discriminate].
  - destruct (has_fp8_qdq ext mode); reflexivity.
Qed.

Lemma built_network_plugins_witness :
  let network :=
    network_of stub ready_builder (VStr "llama") "LLaMAForCausalLM"
      (builder_config_of stub ready_builder 0
         (mkOptimizationProfile 1 (Some 100) (Some 10) (Some 110)) (mkShard 2 1 2 2 1)
         false None)
      (mkOptimizationProfile 1 (Some 100) (Some 10) (Some 110)) (mkShard 2 1 2 2 1) in
  In ("gemm_plugin", VStr "float16") (plugin_config network) <-> has_fp8_qdq stub 0 = false.
Proof.
  cbv zeta.
  apply (built_network_plugins stub (mkShard 2 1 2 2 1) ["out"] None false ready_world 0
           (mkOptimizationProfile 1 (Some 100) (Some 10) (Some 110))
           (VStr "llama") "LLaMAForCausalLM"); try reflexivity.
  unfold required_keys. repeat (apply Forall_cons; split; [eexists; reflexivity|]).
  apply Forall_nil. exact I.
Defined.

(** A model type that is a string without an adapter in
    [_MODEL_TYPE_TO_TRT_IMPL] (any string but [llama] and [mistral]) is refused
    with a [KeyError] whose message is the [repr] of the string; a model type
    that cannot be hashed (a dictionary, or a tuple holding one) is refused
    with a [TypeError].  Both come only after the builder configuration has
    been created, and the files and the builder are unchanged. *)
Theorem unsupported_model_type_is_a_KeyError ext shard output_path opt_level is_parallel w
    model_type :
  ready_to_build (self w) ->
  _model_config (self w) !! "model_type" = Some model_type ->
  let run := _build_engine_for_rank ext shard output_path opt_level is_parallel w in
  (forall s, model_type = VStr s -> s <> "llama" -> s <> "mistral" ->
     run = (Raise (mkExn KeyError (repr_str s)), config_created w))
  /\ (forall t, unhashable model_type = Some t ->
        exists msg, run = (Raise (mkExn TypeError msg), config_created w)).
Proof.
  intros ([mode Hq] & [p Hp] & Hkeys) Hmt run.
  assert (Hrun : forall e, adapter_for model_type = Raise e ->
                           run = (Raise e, config_created w)).
  { intros e He. unfold run, _build_engine_for_rank.
    next ltac:(reflexivity).
    next ltac:(unfold lift, getitem; rewrite Hmt; reflexivity).
    next ltac:(apply (create_builder_config_run ext shard is_parallel opt_level w mode p
                        Hq Hp Hkeys)).
    cbv zeta.
    next ltac:(unfold lift, getitem; rewrite Hmt; reflexivity).
    erewrite bind_Raise; [reflexivity|].
    unfold lift. rewrite He. reflexivity. }
  split.
  - intros s -> Hl Hm. apply Hrun, adapter_for_unsupported; assumption.
  - intros t Ht. eexists. apply Hrun, (adapter_for_unhashable _ _ Ht).
Qed.

Lemma unsupported_model_type_is_a_KeyError_witness :
  _build_engine_for_rank stub (mkShard 1 0 1 1 1) ["out"] None false gpt2_world
  = (Raise (mkExn KeyError "'gpt2'"), config_created gpt2_world)
  /\ exists msg,
       _build_engine_for_rank stub (mkShard 1 0 1 1 1) ["out"] None false nested_type_world
       = (Raise (mkExn TypeError msg), config_created nested_type_world).
Proof.
  assert (Hkeys : forall w,
            _model_config (self w) = _model_config (self gpt2_world)
            \/ _model_config (self w) = _model_config (self nested_type_world) ->
            Forall (fun k => is_Some (_model_config (self w) !! k)) required_keys).
  { intros w [-> | ->]; unfold required_keys;
      repeat (apply Forall_cons; split; [eexists; reflexivity|]); apply Forall_nil; exact I. }
  split.
  - apply (proj1 (unsupported_model_type_is_a_KeyError stub (mkShard 1 0 1 1 1) ["out"] None
                    false gpt2_world (VStr "gpt2")
                    (conj (ex_intro _ 0 eq_refl)
                       (conj (ex_intro _ _ eq_refl) (Hkeys gpt2_world (or_introl eq_refl))))
                    eq_refl) "gpt2" eq_refl); discriminate.
  - apply (proj2 (unsupported_model_type_is_a_KeyError stub (mkShard 1 0 1 1 1) ["out"] None
                    false nested_type_world (VDict [("name", VStr "llama")])
                    (conj (ex_intro _ 0 eq_refl)
                       (conj (ex_intro _ _ eq_refl)
                          (Hkeys nested_type_world (or_intror eq_refl))))
                    eq_refl) "dict" eq_refl).
Defined.

(** ** More on [quantize] *)

(** [quantize] always returns; what it leaves depends on the calibration
    dataset and on the cache test. *)
Lemma quantize_run ext output_path w :
  let calibration_path := joinpath output_path "calibration" in
  quantize ext output_path w =
  (Return tt,
   match _quantization_calibration (self w) with
   | None => mkWorld (with_quantized_path calibration_path (self w)) (files w) (events w)
   | Some calibration =>
       if cache_is_valid (files w) calibration_path then
         mkWorld (with_quantized_path calibration_path (self w)) (files w)
           (events w ++ [Log INFO ("Reusing already precomputed calibration data at "
                                   +:+ path_str calibration_path)])
       else
         mkWorld (with_quantized_path calibration_path (self w))
           (quantizer_save ext (_qconfig (self w)) (_dtype (self w))
              (tp_degree (_sharding_info (self w))) calibration calibration_path (files w))
           (events w ++ calibration_trace (self w) calibration calibration_path)
   end).
Proof.
  cbv zeta. unfold quantize, cache_is_valid.
  set (calibration_path := joinpath output_path "calibration").
  unfold bind at 1. unfold get_self at 1. cbv beta iota.
  destruct (_quantization_calibration (self w)) as [calibration|]; [|reflexivity].
  unfold bind at 1. unfold bind at 1. unfold get_files at 1. cbv beta iota.
  assert (Hcalibrate :
    forall has_cache : bool,
      has_cache = false ->
      (let (o, w') :=
         (if negb has_cache then
            info "Calibrating model..." ;;
            emit (Call "AutoModelForCausalLM.from_pretrained"
                    [VStr (_model_id_or_path (self w)); _dtype (self w)]) ;;
            emit (Call "maybe_offload_weights_to_cpu" []) ;;
            emit (Call "AmmoQuantizer"
                    [_qconfig (self w); _dtype (self w);
                     VInt (tp_degree (_sharding_info (self w)))]) ;;
            emit (Call "AmmoQuantizer.calibrate" [VStr (dataset_name calibration)]) ;;
            emit (Call "AmmoQuantizer.save" [VStr (path_str calibration_path)]) ;;
            modify_files (quantizer_save ext (_qconfig (self w)) (_dtype (self w))
                            (tp_degree (_sharding_info (self w))) calibration
                            calibration_path) ;;
            emit (Call "torch.cuda.empty_cache" [])
          else
            info ("Reusing already precomputed calibration data at "
                  +:+ path_str calibration_path)) w in
       match o with
       | Return _ =>
           (self1 <- get_self ;;
            build_info <- lift (BuildInfo_new (Some (parallel (_build_info self1)))
                                  (Some (num_parallel_jobs (_build_info self1)))
                                  (Some (Some calibration_path))) ;;
            modify_self (set_build_info build_info)) w'
       | Raise e => (Raise e, w')
       end)
      = (Return tt,
         mkWorld (with_quantized_path calibration_path (self w))
           (quantizer_save ext (_qconfig (self w)) (_dtype (self w))
              (tp_degree (_sharding_info (self w))) calibration calibration_path (files w))
           (events w ++ calibration_trace (self w) calibration calibration_path))).
  { intros has_cache ->. cbn [negb].
    cbv [bind info emit modify_files get_self lift BuildInfo_new modify_self].
    cbn [self files events]. unfold calibration_trace. rewrite <- !app_assoc. reflexivity. }
  unfold path_exists, is_dir.
  destruct (files w !! calibration_path) as [[d|]|]; cbn [andb negb orb];
    [exact (Hcalibrate false eq_refl) | | exact (Hcalibrate false eq_refl)].
  destruct (Nat.eqb (length (listdir (files w) calibration_path)) 2);
    cbn [andb negb orb]; [|exact (Hcalibrate false eq_refl)].
  destruct (existsb (fun f => endswith f ".json") (listdir (files w) calibration_path));
    cbn [andb negb orb]; [|exact (Hcalibrate false eq_refl)].
  destruct (existsb (fun f => endswith f ".safetensors")
              (listdir (files w) calibration_path));
    [reflexivity | exact (Hcalibrate false eq_refl)].
Qed.

Lemma quantize_self ext output_path w :
  self (snd (quantize ext output_path w))
  = with_quantized_path (joinpath output_path "calibration") (self w).
Proof.
  rewrite quantize_run. cbv zeta. cbn [snd].
  destruct (_quantization_calibration (self w)); [|reflexivity].
  destruct (cache_is_valid _ _); reflexivity.
Qed.





(** [quantize] trusts the calibration path exactly when it is a directory
    with two entries, one ending in [.json] and one in [.safetensors]: then the
    files are untouched and only the reuse is logged.  In every other case (a
    regular file at that path, or a directory with a different number of
    entries, even if both cache files are among them) it calibrates again and
    lets the calibrator save over what is there. *)
Theorem quantize_trusts_exactly_a_valid_cache ext output_path w calibration :
  _quantization_calibration (self w) = Some calibration ->
  let calibration_path := joinpath output_path "calibration" in
  let w' := snd (quantize ext output_path w) in
  (cache_is_valid (files w) calibration_path = true ->
   files w' = files w
   /\ events w'
      = events w ++ [Log INFO ("Reusing already precomputed calibration data at "
                               +:+ path_str calibration_path)])
  /\ (cache_is_valid (files w) calibration_path = false ->
      files w'
      = quantizer_save ext (_qconfig (self w)) (_dtype (self w))
          (tp_degree (_sharding_info (self w))) calibration calibration_path (files w)
      /\ events w' = events w ++ calibration_trace (self w) calibration calibration_path)
  /\ (forall data, files w !! calibration_path = Some (File data) ->
        cache_is_valid (files w) calibration_path = false)
  /\ (length (listdir (files w) calibration_path) <> 2%nat ->
      cache_is_valid (files w) calibration_path = false).
Proof.
  intros Hcal calibration_path w'. unfold w'.
  rewrite (quantize_run ext output_path w). cbv zeta. fold calibration_path.
  rewrite Hcal. cbn [snd].
  split; [intros ->; split; reflexivity|].
  split; [intros ->; split; reflexivity|].
  unfold cache_is_valid, is_dir. split.
  - intros data ->. reflexivity.
  - intros Hlen. apply Nat.eqb_neq in Hlen. rewrite Hlen.
    destruct (files w !! calibration_path) as [[|]|]; reflexivity.
Qed.

Lemma quantize_trusts_exactly_a_valid_cache_witness :
  let w' := snd (quantize stub ["out"] crowded_cache_world) in
  files w'
  = quantizer_save stub (VQuantMode 256) (VStr "float16") 2 (mkCalibration "c4")
      ["out"; "calibration"] (files crowded_cache_world)
  /\ events w'
     = calibration_trace calibrated_builder (mkCalibration "c4") ["out"; "calibration"].
Proof.
  cbv zeta.
  destruct (quantize_trusts_exactly_a_valid_cache stub ["out"] crowded_cache_world
              (mkCalibration "c4") eq_refl) as (_ & Hinvalid & _ & Hcount).
  apply Hinvalid. apply Hcount. vm_compute. discriminate.
Defined.

(** When the calibrator leaves a valid cache behind, a second [quantize]
    reuses it: it changes neither the files nor the builder and only logs the
    reuse. *)
Theorem quantize_twice_reuses ext output_path w calibration :
  _quantization_calibration (self w) = Some calibration ->
  let calibration_path := joinpath output_path "calibration" in
  cache_is_valid
    (quantizer_save ext (_qconfig (self w)) (_dtype (self w))
       (tp_degree (_sharding_info (self w))) calibration calibration_path (files w))
    calibration_path = true ->
  let w1 := snd (quantize ext output_path w) in
  let w2 := snd (quantize ext output_path w1) in
  self w2 = self w1
  /\ files w2 = files w1
  /\ events w2
     = events w1 ++ [Log INFO ("Reusing already precomputed calibration data at "
                               +:+ path_str calibration_path)].
Proof.
  intros Hcal calibration_path Hsaved w1 w2. unfold w2, w1.
  rewrite (quantize_run ext output_path w). cbv zeta. fold calibration_path.
  rewrite Hcal. cbn [snd].
  destruct (cache_is_valid (files w) calibration_path) eqn:Hvalid;
    rewrite quantize_run; cbv zeta; fold calibration_path;
    cbn [self files events snd with_quantized_path set_build_info
         _quantization_calibration];
    rewrite Hcal; [rewrite Hvalid | rewrite Hsaved]; repeat split; reflexivity.
Qed.

Lemma quantize_twice_reuses_witness :
  let w1 := snd (quantize stub ["out"] uncached_world) in
  let w2 := snd (quantize stub ["out"] w1) in
  self w2 = self w1
  /\ files w2 = files w1
  /\ events w2
     = events w1 ++ [Log INFO ("Reusing already precomputed calibration data at "
                               +:+ path_str ["out"; "calibration"])].
Proof.
  apply (quantize_twice_reuses stub ["out"] uncached_world (mkCalibration "c4") eq_refl).
  vm_compute. reflexivity.
Defined.



(** ** [build] *)

Lemma comprehension_accepted (Mapping : Z -> Z -> Z -> Z -> Z -> Outcome Shard)
    ws g tp pp (ranks : list Z) w :
  (forall r, Mapping ws r g tp pp = Return (mkShard ws r g tp pp)) ->
  comprehension (fun r => lift (Mapping ws r g tp pp)) ranks w
  = (Return (List.map (fun r => mkShard ws r g tp pp) ranks), w).
Proof.
  intros Hacc. induction ranks as [|r ranks IH]; [reflexivity|].
  cbn [comprehension List.map].
  next ltac:(unfold lift; rewrite (Hacc r); reflexivity).
  next ltac:(apply IH).
  reflexivity.
Qed.

Lemma range_first n : 1 <= n -> exists rest, range n = 0 :: rest.
Proof.
  intros Hn. unfold range. destruct (Z.to_nat n) as [|k] eqn:Hk; [lia|].
  cbn. eexists. reflexivity.
Qed.


Lemma ensure_directory_run output_path w :
  when (negb (path_exists (files w) output_path))
       (modify_files (mkdir_parents output_path)) w
  = (Return tt, output_directory_ready output_path w).
Proof.
  unfold output_directory_ready, with_output_directory.
  destruct w as [b fs ev]. cbn [files self events].
  destruct (path_exists fs output_path); reflexivity.
Qed.


Section BuildFacts.

Variable ext : Collaborators.
Variable Mapping : Z -> Z -> Z -> Z -> Z -> Outcome Shard.

(** The shards are constructed before anything else: when the constructor of
    the external [Mapping] refuses the sharding of the builder, [build] raises
    its error and the world is untouched: no directory is created, nothing is
    calibrated or validated. *)
Theorem build_rejected_sharding output_path optimization_level w e :
  1 <= sharding_world_size (_sharding_info (self w)) ->
  Mapping (sharding_world_size (_sharding_info (self w))) 0
    (num_gpus_per_node (_sharding_info (self w))) (tp_degree (_sharding_info (self w)))
    (pp_degree (_sharding_info (self w))) = Raise e ->
  build ext Mapping output_path optimization_level w = (Raise e, w).
Proof.
  intros Hws Hrej. unfold build.
  next ltac:(reflexivity). cbv zeta.
  destruct (range_first _ Hws) as [rest ->].
  erewrite bind_Raise; [reflexivity|].
  cbn [comprehension]. erewrite bind_Raise; [reflexivity|].
  unfold lift. rewrite Hrej. reflexivity.
Qed.





(** Whenever [build] returns, it returns the output path: the branch in
    which it would return [None] needs a false result of [validate], which
    never occurs. *)
Theorem build_returns_the_output_path output_path optimization_level w r w' :
  build ext Mapping output_path optimization_level w = (Return r, w') ->
  r = Some output_path.
Proof.
  intros Hrun. unfold build in Hrun.
  step Hrun H0 self_ w0. cbv zeta in Hrun.
  step Hrun H1 shards w1. step Hrun H2 fs w2. step Hrun H3 u3 w3.
  step Hrun H4 self1 w4. step Hrun H5 u5 w5. step Hrun H6 valid w6.
  apply validate_returns_True in H6. subst valid.
  step Hrun H7 self2 w7. step Hrun H8 u8 w8.
  unfold ret in Hrun. congruence.
Qed.

End BuildFacts.

Lemma accepting_Mapping_accepts sharding : accepts accepting_Mapping sharding.
Proof. intros rank. reflexivity. Qed.

Lemma build_rejected_sharding_witness :
  build stub strict_Mapping ["out"] None missharded_world
  = (Raise (mkExn ValueError "world_size must equal to pp_size * tp_size"),
     missharded_world).
Proof.
  apply (build_rejected_sharding stub strict_Mapping ["out"] None missharded_world);
    [cbn; lia | reflexivity].
Defined.





Lemma build_returns_the_output_path_witness :
  exists r, fst (build stub accepting_Mapping ["out"] None ready_world) = Return r
            /\ r = Some ["out"].
Proof.
  destruct (build stub accepting_Mapping ["out"] None ready_world) as [[r|e] w'] eqn:Hrun.
  - exists r. split; [reflexivity|].
    exact (build_returns_the_output_path stub accepting_Mapping ["out"] None ready_world
             r w' Hrun).
  - vm_compute in Hrun. discriminate Hrun.
Defined.

(** ** Engine files of a whole build *)

Lemma string_app_assoc (a b c : string) : (a +:+ b) +:+ c = a +:+ (b +:+ c).
Proof.
  induction a as [|x a IH]; [reflexivity|].
  rewrite !string_app_cons, IH. reflexivity.
Qed.

Lemma substring_all (s : string) : String.substring 0 (String.length s) s = s.
Proof. induction s as [|c s IH]; [reflexivity|]. cbn. rewrite IH. reflexivity. Qed.

Lemma substring_skip (a s : string) k :
  String.substring (String.length a) k (a +:+ s) = String.substring 0 k s.
Proof.
  induction a as [|c a IH]; [reflexivity|].
  rewrite string_app_cons. cbn [String.length String.substring]. exact IH.
Qed.

Lemma endswith_app (a s : string) : endswith (a +:+ s) s = true.
Proof.
  unfold endswith. rewrite string_length_app.
  replace (String.length s <=? String.length a + String.length s)%nat with true
    by (symmetry; apply Nat.leb_le; lia).
  replace (String.length a + String.length s - String.length s)%nat
    with (String.length a) by lia.
  rewrite substring_skip, substring_all. apply String.eqb_refl.
Qed.

Lemma engine_name_endswith identifier dtype r tp :
  endswith (create_unique_engine_name identifier dtype r tp) ".engine" = true.
Proof.
  unfold create_unique_engine_name.
  rewrite <- !string_app_assoc. apply endswith_app.
Qed.

Lemma joinpath_inj (p : Path) a b : joinpath p a = joinpath p b -> a = b.
Proof. unfold joinpath. intros H. apply app_inv_head in H. congruence. Qed.

Lemma engine_path_not_metadata ext b mt s out :
  metadata_names_are_not_engines ext ->
  engine_path b mt s out ∉ metadata_paths ext out.
Proof.
  intros (H1 & H2 & H3) Hin. unfold metadata_paths, engine_path in Hin.
  rewrite !elem_of_cons, elem_of_nil in Hin.
  destruct Hin as [H | [H | [H | []]]]; apply joinpath_inj in H;
    [rewrite <- H in H1 | rewrite <- H in H2 | rewrite <- H in H3];
    rewrite engine_name_endswith in *; discriminate.
Qed.

Lemma engine_path_inj b mt s s' out :
  tp_size s = tp_size s' ->
  engine_path b mt s out = engine_path b mt s' out -> rank s = rank s'.
Proof.
  intros Htp H. unfold engine_path in H. apply joinpath_inj in H.
  rewrite Htp in H. exact (engine_name_inj _ _ _ _ _ H).
Qed.

Lemma rank0_files_outside ext config bc out fs p :
  p ∉ metadata_paths ext out ->
  rank0_files ext config bc out fs !! p = fs !! p.
Proof.
  intros Hp. unfold rank0_files, write_file, metadata_paths in *.
  rewrite !elem_of_cons, elem_of_nil in Hp.
  rewrite !lookup_insert_ne; [reflexivity | | |]; intros <-; apply Hp; tauto.
Qed.

Section Serial.
Variable ext : Collaborators.
Hypothesis Hflag : parse_flag_from_env ext "OPTIMUM_NVIDIA_OUTPUT_ONNX_IR" false = false.

Lemma build_serial_frame shards out opt mt : forall w w',
  _model_config (self w) !! "model_type" = Some mt ->
  _build_serial ext shards out opt w = (Return tt, w') ->
  self w' = self w
  /\ forall p,
       (forall s, s ∈ shards -> p <> engine_path (self w) mt s out) ->
       p ∉ metadata_paths ext out ->
       files w' !! p = files w !! p.
Proof.
  unfold _build_serial.
  induction shards as [|s rest IH]; intros w w' Hmt Hrun.
  - cbn in Hrun. injection Hrun as <-. split; [reflexivity|]. reflexivity.
  - cbn [for_each] in Hrun. step Hrun Hs u w1.
    destruct (build_engine_for_rank_files ext s out opt false w w1 Hflag)
      as (mt' & bc & engine & Hmt' & Hself & Hfiles).
    { destruct u. exact Hs. }
    rewrite Hmt in Hmt'. injection Hmt' as <-.
    destruct (IH w1 w') as [Hself' Hframe]; [rewrite Hself; exact Hmt | exact Hrun |].
    split; [congruence|].
    intros p Hp Hmeta. rewrite Hframe.
    + rewrite Hfiles. unfold write_file. rewrite lookup_insert_ne.
      * destruct (rank s =? 0); [apply rank0_files_outside; exact Hmeta | reflexivity].
      * intros E. apply (Hp s); [left | symmetry; exact E].
    + intros s' Hin. rewrite Hself. apply Hp. right. exact Hin.
    + exact Hmeta.
Qed.

Lemma build_serial_engines shards out opt mt tp :
  metadata_names_are_not_engines ext ->
  NoDup (rank <$> shards) ->
  (forall s, s ∈ shards -> tp_size s = tp) ->
  forall w w',
  _model_config (self w) !! "model_type" = Some mt ->
  _build_serial ext shards out opt w = (Return tt, w') ->
  forall s, s ∈ shards ->
    exists engine, files w' !! engine_path (self w) mt s out = Some (File engine).
Proof.
  intros Hnames.
  induction shards as [|s0 rest IH]; intros Hnodup Htp w w' Hmt Hrun s Hin;
    [apply elem_of_nil in Hin; destruct Hin|].
  rewrite fmap_cons in Hnodup. apply NoDup_cons in Hnodup.
  destruct Hnodup as [Hfresh Hnodup].
  unfold _build_serial in Hrun. cbn [for_each] in Hrun. step Hrun Hs u w1.
  destruct (build_engine_for_rank_files ext s0 out opt false w w1 Hflag)
    as (mt' & bc & engine & Hmt' & Hself & Hfiles).
  { destruct u. exact Hs. }
  rewrite Hmt in Hmt'. injection Hmt' as <-.
  assert (Hmt1 : _model_config (self w1) !! "model_type" = Some mt)
    by (rewrite Hself; exact Hmt).
  apply elem_of_cons in Hin. destruct Hin as [-> | Hin].
  - exists engine.
    destruct (build_serial_frame rest out opt mt w1 w' Hmt1 Hrun) as [_ Hframe].
    rewrite Hframe.
    + rewrite Hfiles. unfold write_file. apply lookup_insert_eq.
    + intros s' Hin' E. rewrite Hself in E. apply Hfresh.
      apply engine_path_inj in E.
      * rewrite E. apply list_elem_of_fmap. exists s'. split; [reflexivity | exact Hin'].
      * rewrite (Htp s0), (Htp s'); [reflexivity | right; exact Hin' | left].
    + apply engine_path_not_metadata. exact Hnames.
  - rewrite <- Hself. apply (IH Hnodup); [| exact Hmt1 | exact Hrun | exact Hin].
    intros s' Hs'. apply Htp. right. exact Hs'.
Qed.

(** When a serial build returns, every shard has its engine file, provided
    the ranks are distinct, the shards share one tensor-parallel degree and
    none of the three metadata files is named like an engine.  Every path that
    is neither an engine file of a shard nor one of the metadata files is as
    it was, and so is the builder. *)
Theorem serial_build_writes_an_engine_per_rank shards out opt w w' mt tp :
  metadata_names_are_not_engines ext ->
  _model_config (self w) !! "model_type" = Some mt ->
  NoDup (rank <$> shards) ->
  (forall s, s ∈ shards -> tp_size s = tp) ->
  _build_serial ext shards out opt w = (Return tt, w') ->
  (forall s, s ∈ shards ->
     exists engine, files w' !! engine_path (self w) mt s out = Some (File engine))
  /\ (forall p,
        (forall s, s ∈ shards -> p <> engine_path (self w) mt s out) ->
        p ∉ metadata_paths ext out ->
        files w' !! p = files w !! p)
  /\ self w' = self w.
Proof.
  intros Hnames Hmt Hnodup Htp Hrun.
  destruct (build_serial_frame shards out opt mt w w' Hmt Hrun) as [Hself Hframe].
  split; [|split; [exact Hframe | exact Hself]].
  exact (build_serial_engines shards out opt mt tp Hnames Hnodup Htp w w' Hmt Hrun).
Qed.
End Serial.

Lemma serial_build_writes_an_engine_per_rank_witness :
  exists engine,
    files (snd (_build_serial stub two_shards ["out"] None ready_world))
      !! ["out"; "llama_float16_tp2_rank1.engine"] = Some (File engine).
Proof.
  refine (proj1 (serial_build_writes_an_engine_per_rank stub eq_refl two_shards ["out"] None
           ready_world _ (VStr "llama") 2 _ _ _ _ _) (mkShard 2 1 2 2 1) _).
  - repeat split.
  - reflexivity.
  - vm_compute. repeat constructor; intros H;
      rewrite ?elem_of_cons, elem_of_nil in H; intuition discriminate.
  - intros s Hs. unfold two_shards in Hs. rewrite !elem_of_cons, elem_of_nil in Hs.
    destruct Hs as [-> | [-> | []]]; reflexivity.
  - vm_compute. reflexivity.
  - right. left.
Defined.

Lemma range_NoDup n : NoDup (range n).
Proof.
  unfold range. apply (NoDup_fmap_2 Z.of_nat). apply NoDup_seq.
Qed.

Lemma range_bounds n r : 0 <= r < n -> r ∈ range n.
Proof.
  intros Hr. unfold range. apply list_elem_of_fmap. exists (Z.to_nat r).
  split; [lia|]. apply elem_of_seq. lia.
Qed.

Section BuildEngines.
Variable ext : Collaborators.
Variable Mapping : Z -> Z -> Z -> Z -> Z -> Outcome Shard.
Hypothesis Hflag : parse_flag_from_env ext "OPTIMUM_NVIDIA_OUTPUT_ONNX_IR" false = false.

(** When [build] returns, it has dispatched serially and every rank below
    the world size has its engine file under the output path, named after the
    model type, the data type the builder started with, the tensor-parallel
    degree and the rank; the result is the output path. *)
Theorem build_writes_an_engine_per_rank output_path optimization_level w r w' model_type :
  metadata_names_are_not_engines ext ->
  accepts Mapping (_sharding_info (self w)) ->
  _model_config (self w) !! "model_type" = Some model_type ->
  build ext Mapping output_path optimization_level w = (Return r, w') ->
  r = Some output_path
  /\ forall rank,
       0 <= rank < sharding_world_size (_sharding_info (self w)) ->
       exists engine,
         files w' !! joinpath output_path
                       (create_unique_engine_name (py_str model_type)
                          (py_str (_dtype (self w))) rank
                          (tp_degree (_sharding_info (self w))))
         = Some (File engine).
Proof.
  intros Hnames Hacc Hmt Hrun. unfold build in Hrun.
  step Hrun H0 self_ w0. unfold get_self in H0. injection H0 as <- <-.
  cbv zeta in Hrun.
  step Hrun H1 shards w1. rewrite comprehension_accepted in H1 by exact Hacc.
  injection H1 as <- <-.
  step Hrun H2 fs w2. unfold get_files in H2. injection H2 as <- <-.
  step Hrun H3 u3 w3. rewrite ensure_directory_run in H3. injection H3 as _ <-.
  step Hrun H4 self1 w4. unfold get_self in H4. injection H4 as <- <-.
  step Hrun H5 u5 w5.
  assert (Hd5 : _dtype (self w5) = _dtype (self w)
                /\ _model_config (self w5) = _model_config (self w)).
  { cbn [self output_directory_ready] in H5. unfold when in H5.
    destruct (py_truthy (_qconfig (self w))).
    - pose proof (quantize_self ext output_path (output_directory_ready output_path w)) as Hq.
      rewrite H5 in Hq. cbn [snd] in Hq. rewrite Hq. split; reflexivity.
    - unfold ret in H5. injection H5 as _ <-. split; reflexivity. }
  destruct Hd5 as [Hd5 Hc5].
  step Hrun H6 valid w6.
  pose proof (validate_returns_True _ _ _ H6) as ->.
  pose proof (validate_same_configuration w5) as (_ & Hc6 & _ & Hd6 & _ & _).
  rewrite H6 in Hc6, Hd6. cbn [snd] in Hc6, Hd6.
  assert (Hdq : _dtype (self (defaulted_qconfig w5)) = _dtype (self w5)
                /\ _model_config (self (defaulted_qconfig w5)) = _model_config (self w5)).
  { unfold defaulted_qconfig. destruct (_qconfig (self w5)); split; reflexivity. }
  destruct Hdq as [Hdq Hcq].
  step Hrun H7 self2 w7. unfold get_self in H7. injection H7 as <- <-.
  step Hrun H8 u8 w8. unfold ret in Hrun. injection Hrun as <- <-.
  split; [reflexivity|].
  intros rk Hrk.
  destruct (parallel (_build_info (self w6)) && (num_parallel_jobs (_build_info (self w6)) >? 1)).
  - destruct (build_parallel_raises
                (List.map (fun r => mkShard (sharding_world_size (_sharding_info (self w))) r
                                      (num_gpus_per_node (_sharding_info (self w)))
                                      (tp_degree (_sharding_info (self w)))
                                      (pp_degree (_sharding_info (self w))))
                   (range (sharding_world_size (_sharding_info (self w)))))
                output_path optimization_level w6) as (msg & wx & Hx & _).
    rewrite Hx in H8. discriminate H8.
  - destruct u8.
    set (sharding := _sharding_info (self w)) in *.
    set (mk := fun r => mkShard (sharding_world_size sharding) r (num_gpus_per_node sharding)
                          (tp_degree sharding) (pp_degree sharding)) in *.
    destruct (build_serial_engines ext Hflag (List.map mk (range (sharding_world_size sharding)))
                output_path optimization_level model_type (tp_degree sharding) Hnames)
      with (w := w6) (w' := w8) (s := mk rk) as [engine Hengine].
    + rewrite <- list_fmap_compose.
      rewrite (list_fmap_ext (rank ∘ mk) id (range (sharding_world_size sharding)))
        by reflexivity.
      rewrite list_fmap_id. apply range_NoDup.
    + intros s Hs. apply list_elem_of_fmap in Hs. destruct Hs as (r0 & -> & _). reflexivity.
    + rewrite Hc6, Hcq, Hc5. exact Hmt.
    + exact H8.
    + apply list_elem_of_fmap. exists rk. split; [reflexivity | apply range_bounds; exact Hrk].
    + exists engine. unfold engine_path in Hengine. cbn [rank tp_size mk] in Hengine.
      rewrite Hd6, Hdq, Hd5 in Hengine. exact Hengine.
Qed.
End BuildEngines.

Lemma build_writes_an_engine_per_rank_witness :
  let w' := snd (build stub accepting_Mapping ["out"] None ready_world) in
  (exists engine, files w' !! ["out"; "llama_float16_tp2_rank0.engine"] = Some (File engine))
  /\ (exists engine, files w' !! ["out"; "llama_float16_tp2_rank1.engine"] = Some (File engine)).
Proof.
  assert (H : forall rank, 0 <= rank < 2 ->
            exists engine,
              files (snd (build stub accepting_Mapping ["out"] None ready_world))
                !! joinpath ["out"] (create_unique_engine_name "llama" "float16" rank 2)
              = Some (File engine)).
  { refine (proj2 (build_writes_an_engine_per_rank stub accepting_Mapping eq_refl ["out"] None
                     ready_world (Some ["out"]) _ (VStr "llama") _ _ _ _)).
    - repeat split.
    - apply accepting_Mapping_accepts.
    - reflexivity.
    - vm_compute. reflexivity. }
  split; [exact (H 0 ltac:(lia)) | exact (H 1 ltac:(lia))].
Defined.

(** ** Parallel dispatch *)

(** [_build_parallel] never builds an engine.  With at most one configured
    job it fails comparing the CPU set with the number of shards; with more
    jobs than shards it fails constructing the pool from the list of shards;
    otherwise it opens a pool of that many processes, fails at the first
    [Pool.map] call and terminates the pool.  The builder and the files are
    untouched. *)
Theorem parallel_build_fails_by_job_count shard_info output_path opt_level w :
  let jobs := num_parallel_jobs (_build_info (self w)) in
  let started := (1 <? jobs) && (jobs <=? Z.of_nat (length shard_info)) in
  _build_parallel shard_info output_path opt_level w
  = (Raise (parallel_failure jobs (length shard_info)),
     mkWorld (self w) (files w)
       (events w ++ if started
                    then [Call "Pool" [VInt jobs]; Call "Pool.terminate" []]
                    else [])).
Proof.
  cbv zeta. unfold _build_parallel, parallel_failure, bind, get_self.
  destruct w as [b fs ev]. cbn [self files events].
  destruct (num_parallel_jobs (_build_info b) >? 1) eqn:Hjobs.
  - cbn [num_jobs_gt lift].
    replace (1 <? num_parallel_jobs (_build_info b)) with true by lia.
    destruct (num_parallel_jobs (_build_info b) >? Z.of_nat (length shard_info)) eqn:Hmore.
    + replace (num_parallel_jobs (_build_info b) <=? Z.of_nat (length shard_info))
        with false by lia.
      cbn. rewrite app_nil_r. reflexivity.
    + replace (num_parallel_jobs (_build_info b) <=? Z.of_nat (length shard_info))
        with true by lia.
      cbn [Pool andb]. replace (num_parallel_jobs (_build_info b) <? 1) with false by lia.
      cbn [emit self files events].
      destruct shard_info as [|s rest];
        [exfalso; change (Z.of_nat (length (@nil Shard))) with 0 in Hmore; lia|].
      unfold with_exit. cbn [for_each]. unfold bind at 1.
      rewrite Pool_map_call_raises. cbn. rewrite <- app_assoc. reflexivity.
  - replace (1 <? num_parallel_jobs (_build_info b)) with false by lia.
    cbn. rewrite app_nil_r. reflexivity.
Qed.

(** ** An unconfigured builder *)

Section Fresh.
Variable ext : Collaborators.
Variable Mapping : Z -> Z -> Z -> Z -> Z -> Outcome Shard.

End Fresh.


(** ** More on the pipeline factory *)

Lemma supported_model_type model_type tasks :
  Pipelines.SUPPORTED_MODEL_WITH_TASKS !! model_type = Some tasks ->
  model_type = "llama"
  /\ tasks = {[ "text-generation" := (Pipelines.TextGenerationPipeline, Pipelines.AutoModelForCausalLM) ]}.
Proof.
  unfold Pipelines.SUPPORTED_MODEL_WITH_TASKS. intros H.
  apply lookup_singleton_Some in H. destruct H as [<- <-]. split; reflexivity.
Qed.

(** [pipeline] returns exactly for a model whose configuration says [llama]
    and the task [text-generation]; the pipeline is then a text-generation
    pipeline over the tokenizer passed in (one is loaded only when none was
    passed) and over the compiled engine passed in (a model is loaded, with
    the keyword arguments, only for an identifier or a path). *)
Theorem pipeline_returns_iff loaders task model_or_path tokenizer kwargs p :
  Pipelines.pipeline loaders task model_or_path tokenizer kwargs = Return p
  <-> Pipelines.config_model_type loaders model_or_path = Return "llama"
      /\ task = "text-generation"
      /\ Pipelines.pipeline_class p = Pipelines.TextGenerationPipeline
      /\ resolve_tokenizer loaders model_or_path tokenizer = Return (Pipelines.pipeline_tokenizer p)
      /\ resolve_model loaders model_or_path kwargs = Return (Pipelines.pipeline_model p).
Proof.
  unfold Pipelines.pipeline, resolve_tokenizer, resolve_model. split.
  - destruct (Pipelines.config_model_type loaders model_or_path) as [model_type|e]; [|discriminate].
    destruct (Pipelines.SUPPORTED_MODEL_WITH_TASKS !! model_type) as [tasks|] eqn:Htasks;
      [|discriminate].
    apply supported_model_type in Htasks. destruct Htasks as [-> ->].
    destruct (_ !! task) as [[pf mf]|] eqn:Htask; [|discriminate].
    apply lookup_singleton_Some in Htask. destruct Htask as [<- Htarget].
    injection Htarget as <- <-.
    destruct (match tokenizer with Some t => _ | None => _ end) as [t|e]; [|discriminate].
    destruct (match model_or_path with Pipelines.ModelId _ => _ | Pipelines.CompiledEngine id => _ end)
      as [model|e]; [|discriminate].
    intros H. injection H as <-. repeat split; reflexivity.
  - intros (-> & -> & Hclass & Htok & Hmodel).
    change (Pipelines.SUPPORTED_MODEL_WITH_TASKS !! "llama")
      with (Some ({[ "text-generation" := (Pipelines.TextGenerationPipeline, Pipelines.AutoModelForCausalLM) ]}
                  : gmap string (Pipelines.PipelineClass * Pipelines.ModelClass))).
    cbv beta iota.
    rewrite lookup_singleton_eq. rewrite Htok, Hmodel.
    destruct p as [c m t]. cbn in *. rewrite Hclass. reflexivity.
Qed.

(** [get_target_class_for_model_and_task] looks its first argument up as a
    model type: it returns only for [task = "llama"] and
    [architecture = "text-generation"].  Any other non-empty task, a
    registered task name such as [text-generation] included, is an
    [AttributeError] on [None]; an empty task is the [NotImplementedError] of
    the first guard; for [llama] another architecture is the
    [NotImplementedError] that lists [text-generation]. *)
Theorem target_class_lookup_is_keyed_by_task task architecture :
  (forall target,
     Pipelines.get_target_class_for_model_and_task task architecture = Return target
     <-> task = "llama" /\ architecture = "text-generation"
         /\ target = (Pipelines.TextGenerationPipeline, Pipelines.AutoModelForCausalLM))
  /\ (task <> "" -> task <> "llama" ->
      Pipelines.get_target_class_for_model_and_task task architecture
      = Raise (mkExn AttributeError "'NoneType' object has no attribute 'get'"))
  /\ (task = "llama" -> architecture <> "text-generation" ->
      Pipelines.get_target_class_for_model_and_task task architecture
      = Raise (mkExn NotImplementedError
                 ("Architecture " +:+ architecture
                  +:+ " is not supported for task llama. "
                  +:+ "Only the following architectures are: ['text-generation']")))
  /\ (task = "" ->
      Pipelines.get_target_class_for_model_and_task task architecture
      = Raise (mkExn NotImplementedError "Task  is not supported yet.")).
Proof.
  unfold Pipelines.get_target_class_for_model_and_task.
  destruct (String.eqb_spec task "") as [-> | Hne].
  - repeat split; try discriminate; try congruence.
    intros (H & _). discriminate H.
  - destruct (Pipelines.SUPPORTED_MODEL_WITH_TASKS !! task) as [tasks|] eqn:Htasks.
    + apply supported_model_type in Htasks. destruct Htasks as [-> ->].
      destruct (_ !! architecture) as [target|] eqn:Harch.
      * apply lookup_singleton_Some in Harch. destruct Harch as [<- <-].
        repeat split; try congruence.
        intros (_ & _ & ->). reflexivity.
      * apply lookup_singleton_None in Harch.
        repeat split; try congruence; try discriminate.
        -- intros (_ & H & _). congruence.
    + assert (Hllama : task <> "llama").
      { intros ->. vm_compute in Htasks. discriminate Htasks. }
      repeat split; try congruence; try discriminate.
      intros (H & _). congruence.
Qed.
